(** * XYZ da Vinci toolkit: the [.3w] container codec and the V3 serial protocol

    A shallow embedding of [XYZDaVinciPlugin/XYZFileConverter.py] and
    [XYZDaVinciPlugin/XYZProtocol.py], followed by the properties of the
    specification that were checked against it.

    Conventions of the embedding
    - a Python [str] is the list of its code points, a [bytes] object the list
      of its byte values, both carried by [Z];
    - a Python [int] is a [Z]; a Python [float] is a sign, a mantissa and a
      binary exponent (or an infinity, or NaN);
    - a call that may raise returns a [result]; the exception is named by its
      Python class;
    - the AES primitive and the zip archive format come from third-party
      packages and are taken as parameters ([AES], [ZipCodec]);
    - the serial port is a record of what was written so far and a script of
      what the reads of each blocking wait deliver before its deadline. *)

From Stdlib Require Import ZArith List Lia Bool String Ascii DecimalPos DecimalN.
Import ListNotations.
Local Open Scope Z_scope.

(* ================================================================== *)
(** * Python values and built-ins used by the plugin                   *)
(* ================================================================== *)

Module Py.

Definition pstr := list Z.
Definition bytes := list Z.

(** A literal: the code points of an ASCII string. *)
Definition str (s : string) : pstr :=
  map (fun a => Z.of_N (N_of_ascii a)) (list_ascii_of_string s).

Definition len {A} (l : list A) : Z := Z.of_nat (List.length l).

(** ** Exceptions *)

Definition exn := string.

Inductive result (A : Type) : Type :=
| Ok (a : A)
| Raise (e : exn).
Arguments Ok {A} a.
Arguments Raise {A} e%_string.

Definition bind {A B} (r : result A) (k : A -> result B) : result B :=
  match r with
  | Ok a => k a
  | Raise e => Raise e
  end.

Declare Scope py_scope.
Notation "x <- c1 ;; c2" := (bind c1 (fun x => c2))
  (at level 61, c1 at next level, right associativity) : py_scope.
Local Open Scope py_scope.

Fixpoint mapM {A B} (f : A -> result B) (l : list A) : result (list B) :=
  match l with
  | [] => Ok []
  | a :: l' => b <- f a ;; bs <- mapM f l' ;; Ok (b :: bs)
  end.

(** ** Character classes *)

Definition in_range (lo hi c : Z) : bool := (lo <=? c) && (c <=? hi).

(** [str.isspace] on one code point; also the class [\s] of [re]. *)
Definition is_space (c : Z) : bool :=
  in_range 9 13 c || in_range 28 32 c || (c =? 133) || (c =? 160)
  || (c =? 5760) || in_range 8192 8202 c || (c =? 8232) || (c =? 8233)
  || (c =? 8239) || (c =? 8287) || (c =? 12288).

(** The line boundaries of [str.splitlines]. *)
Definition is_linebreak (c : Z) : bool :=
  in_range 10 13 c || in_range 28 30 c || (c =? 133) || (c =? 8232)
  || (c =? 8233).

(** The class [\d] of [re], on the ASCII digits (the decimal digits of other
    scripts are left out of the embedding). *)
Definition is_digit (c : Z) : bool := in_range 48 57 c.

Definition is_ascii_upper (c : Z) : bool := in_range 65 90 c.
Definition is_ascii_lower (c : Z) : bool := in_range 97 122 c.
Definition is_ascii_letter (c : Z) : bool := is_ascii_upper c || is_ascii_lower c.

(** ** [str] methods *)

(** [str.lower], one code point at a time.  The rows of the Unicode table
    carried here are Basic Latin, Latin-1 and the two code points outside
    ASCII whose lowercase holds an ASCII letter (U+0130, U+212A); every
    search of the plugin in lowered text is for an ASCII needle, on which the
    remaining rows have no effect. *)
Definition lower_cp (c : Z) : pstr :=
  if is_ascii_upper c then [c + 32]
  else if c =? 304 then [105; 775]
  else if c =? 8490 then [107]
  else if in_range 192 222 c && negb (c =? 215) then [c + 32]
  else [c].

Definition lower (s : pstr) : pstr := flat_map lower_cp s.

Fixpoint eqb (a b : pstr) : bool :=
  match a, b with
  | [], [] => true
  | x :: a', y :: b' => (x =? y) && eqb a' b'
  | _, _ => false
  end.

Fixpoint startswith (p s : pstr) : bool :=
  match p, s with
  | [], _ => true
  | x :: p', y :: s' => (x =? y) && startswith p' s'
  | _ :: _, [] => false
  end.

(** [needle in s] *)
Fixpoint contains (needle s : pstr) : bool :=
  startswith needle s ||
  match s with
  | [] => false
  | _ :: s' => contains needle s'
  end.

Fixpoint lstrip (s : pstr) : pstr :=
  match s with
  | [] => []
  | c :: s' => if is_space c then lstrip s' else s
  end.

Fixpoint rstrip (s : pstr) : pstr :=
  match s with
  | [] => []
  | c :: s' =>
    match rstrip s' with
    | [] => if is_space c then [] else [c]
    | r => c :: r
    end
  end.

Definition strip (s : pstr) : pstr := rstrip (lstrip s).

(** [str.splitlines()]: a [\r\n] pair is one boundary, and a boundary at the
    end of the text opens no further line. *)
Fixpoint splitlines (s : pstr) : list pstr :=
  match s with
  | [] => []
  | c :: s' =>
    if c =? 13 then
      match s' with
      | c2 :: s'' => if c2 =? 10 then [] :: splitlines s'' else [] :: splitlines s'
      | [] => [[]]
      end
    else if is_linebreak c then [] :: splitlines s'
    else match splitlines s' with
         | [] => [[c]]
         | l :: ls => (c :: l) :: ls
         end
  end.

(** [sep.join(ls)] *)
Fixpoint join (sep : pstr) (ls : list pstr) : pstr :=
  match ls with
  | [] => []
  | [l] => l
  | l :: ls' => l ++ sep ++ join sep ls'
  end.

(** [s.split(c)] for a one-character separator. *)
Fixpoint split (sep : Z) (s : pstr) : list pstr :=
  match s with
  | [] => [[]]
  | c :: s' =>
    if c =? sep then [] :: split sep s'
    else match split sep s' with
         | [] => [[c]]
         | l :: ls => (c :: l) :: ls
         end
  end.

(** [s.replace(c, "")] for a one-character [c]. *)
Definition remove_char (c : Z) (s : pstr) : pstr :=
  filter (fun x => negb (x =? c)) s.

(** Slices with non-negative bounds: [l[a:b]], [l[a:]], [l[:b]]. *)
Definition slice {A} (a b : Z) (l : list A) : list A :=
  firstn (Z.to_nat (b - a)) (skipn (Z.to_nat a) l).

(** [l[-n:]] and [l[:-n]] for [n > 0]. *)
Definition last_n {A} (n : Z) (l : list A) : list A :=
  skipn (List.length l - Z.to_nat n) l.
Definition drop_last_n {A} (n : Z) (l : list A) : list A :=
  firstn (List.length l - Z.to_nat n) l.

(** ** Integers as text *)

Definition digit_char (d : Z) : Z := 48 + d.

Fixpoint uint_chars (d : Decimal.uint) : pstr :=
  match d with
  | Decimal.Nil => []
  | Decimal.D0 d' => 48 :: uint_chars d'
  | Decimal.D1 d' => 49 :: uint_chars d'
  | Decimal.D2 d' => 50 :: uint_chars d'
  | Decimal.D3 d' => 51 :: uint_chars d'
  | Decimal.D4 d' => 52 :: uint_chars d'
  | Decimal.D5 d' => 53 :: uint_chars d'
  | Decimal.D6 d' => 54 :: uint_chars d'
  | Decimal.D7 d' => 55 :: uint_chars d'
  | Decimal.D8 d' => 56 :: uint_chars d'
  | Decimal.D9 d' => 57 :: uint_chars d'
  end.

(** Decimal digits of a natural number ([0] is ["0"]). *)
Definition nat_digits (n : Z) : pstr := uint_chars (N.to_uint (Z.to_N n)).

(** [str(z)], also the f-string field [{z}]. *)
Definition str_of_int (z : Z) : pstr :=
  if z <? 0 then 45 :: nat_digits (- z) else nat_digits z.

(** Value of a run of decimal digits, most significant first. *)
Definition digits_value (ds : pstr) : Z :=
  fold_left (fun acc d => acc * 10 + (d - 48)) ds 0.

(** The digit groups of an [int] literal: digits, single underscores allowed
    between digits only. *)
Fixpoint int_body (prev_digit : bool) (s : pstr) (acc : Z) : option Z :=
  match s with
  | [] => if prev_digit then Some acc else None
  | c :: s' =>
    if is_digit c then int_body true s' (acc * 10 + (c - 48))
    else if (c =? 95) && prev_digit then
      match s' with
      | [] => None
      | c2 :: _ => if is_digit c2 then int_body false s' acc else None
      end
    else None
  end.

(** [int(s)] on text: surrounding whitespace and one sign are accepted. *)
Definition int_of_str (s : pstr) : result Z :=
  let t := strip s in
  let '(neg, body) :=
    match t with
    | 45 :: r => (true, r)
    | 43 :: r => (false, r)
    | _ => (false, t)
    end in
  match int_body false body 0 with
  | Some v => Ok (if neg then - v else v)
  | None => Raise "ValueError"
  end.

(** ** Numbers *)

(** A binary floating-point value: [(-1)^neg * m * 2^e] with [0 <= m]. *)
Inductive pyfloat : Type :=
| FFinite (neg : bool) (m e : Z)
| FInf (neg : bool)
| FNaN.

(** What a variable of the plugin that is "a number" can hold. *)
Inductive pynum : Type :=
| PyInt (z : Z)
| PyFloat (x : pyfloat).

(** Nearest integer to [num / den], ties to even ([0 <= num], [0 < den]). *)
Definition round_half_even (num den : Z) : Z :=
  let q := num / den in
  let r := num mod den in
  if 2 * r >? den then q + 1
  else if (2 * r =? den) && Z.odd q then q + 1
  else q.

(** [num / den / 2^e] as a fraction. *)
Definition scale2 (num den e : Z) : Z * Z :=
  if 0 <=? e then (num, den * 2 ^ e) else (num * 2 ^ (- e), den).

(** The binary64 value nearest to [num / den] ([0 <= num], [0 < den]):
    53 bits of mantissa, exponents from -1074 to 971, ties to even. *)
Definition round64 (neg : bool) (num den : Z) : pyfloat :=
  if num =? 0 then FFinite neg 0 0
  else
    let e0 := Z.log2 num - Z.log2 den - 52 in
    let '(n0, d0) := scale2 num den e0 in
    let e1 := if n0 / d0 <? 2 ^ 52 then e0 - 1 else e0 in
    let e2 := Z.max e1 (-1074) in
    let '(n2, d2) := scale2 num den e2 in
    let m := round_half_even n2 d2 in
    let '(m3, e3) := if m =? 2 ^ 53 then (2 ^ 52, e2 + 1) else (m, e2) in
    if 971 <? e3 then FInf neg else FFinite neg m3 e3.

(** [float(z)] *)
Definition float_of_int (z : Z) : result pyfloat :=
  match round64 (z <? 0) (Z.abs z) 1 with
  | FInf _ => Raise "OverflowError"
  | x => Ok x
  end.

(** [float(s)] on the texts the plugin passes to it, runs of digits and
    dots: at most one dot and at least one digit, else [ValueError]. *)
Definition float_of_str (s : pstr) : result pyfloat :=
  match split 46 s with
  | [ip] =>
    if forallb is_digit ip && negb (eqb ip [])
    then Ok (round64 false (digits_value ip) 1)
    else Raise "ValueError"
  | [ip; fp] =>
    if forallb is_digit (ip ++ fp) && negb (eqb (ip ++ fp) [])
    then Ok (round64 false (digits_value (ip ++ fp)) (10 ^ len fp))
    else Raise "ValueError"
  | _ => Raise "ValueError"
  end.

(** [x * k] for a float [x] and a positive int [k]. *)
Definition fmul_int (x : pyfloat) (k : Z) : pyfloat :=
  match x with
  | FFinite neg m e =>
    let '(n, d) := scale2 (m * k) 1 (- e) in round64 neg n d
  | other => other
  end.

(** [a / b] on ints. *)
Definition truediv (a b : Z) : result pyfloat :=
  if b =? 0 then Raise "ZeroDivisionError"
  else
    match round64 (Z.sgn a * Z.sgn b <? 0) (Z.abs a) (Z.abs b) with
    | FInf _ => Raise "OverflowError"
    | x => Ok x
    end.

Definition float_of_num (v : pynum) : pyfloat :=
  match v with
  | PyInt z => FFinite (z <? 0) (Z.abs z) 0
  | PyFloat x => x
  end.

Definition signed (neg : bool) (m : Z) : Z := if neg then - m else m.

(** Exact comparison of two numbers; [None] when one of them is NaN. *)
Definition num_compare (a b : pynum) : option comparison :=
  match float_of_num a, float_of_num b with
  | FNaN, _ | _, FNaN => None
  | FInf n1, FInf n2 =>
    Some (if Bool.eqb n1 n2 then Eq else if n1 then Lt else Gt)
  | FInf n1, _ => Some (if n1 then Lt else Gt)
  | _, FInf n2 => Some (if n2 then Gt else Lt)
  | FFinite n1 m1 e1, FFinite n2 m2 e2 =>
    let e := Z.min e1 e2 in
    Some (signed n1 (m1 * 2 ^ (e1 - e)) ?= signed n2 (m2 * 2 ^ (e2 - e)))
  end.

Definition num_gt (a b : pynum) : bool :=
  match num_compare a b with Some Gt => true | _ => false end.
Definition num_lt (a b : pynum) : bool :=
  match num_compare a b with Some Lt => true | _ => false end.
Definition num_eq (a b : pynum) : bool :=
  match num_compare a b with Some Eq => true | _ => false end.

(** [int(v)]: truncation toward zero. *)
Definition int_of_num (v : pynum) : result Z :=
  match v with
  | PyInt z => Ok z
  | PyFloat (FFinite neg m e) =>
    Ok (signed neg (if 0 <=? e then m * 2 ^ e else m / 2 ^ (- e)))
  | PyFloat (FInf _) => Raise "OverflowError"
  | PyFloat FNaN => Raise "ValueError"
  end.

(** The format [.1f] of a float. *)
Definition fmt_1f (x : pyfloat) : pstr :=
  match x with
  | FFinite neg m e =>
    let n := if 0 <=? e then m * 2 ^ e * 10
             else round_half_even (m * 10) (2 ^ (- e)) in
    (if neg then [45] else []) ++ nat_digits (n / 10) ++ [46; digit_char (n mod 10)]
  | FInf neg => (if neg then [45] else []) ++ str "inf"
  | FNaN => str "nan"
  end.

(** The f-string field [{v:.1f}]; an int is converted to a float first. *)
Definition format_1f (v : pynum) : result pstr :=
  match v with
  | PyInt z => x <- float_of_int z ;; Ok (fmt_1f x)
  | PyFloat x => Ok (fmt_1f x)
  end.

(** ** Text codecs *)

(** UTF-8 bytes of one code point; a surrogate or a value outside the code
    space has none. *)
Definition utf8_encode_cp (c : Z) : option bytes :=
  if c <? 0 then None
  else if c <? 128 then Some [c]
  else if c <? 2048 then Some [192 + c / 64; 128 + c mod 64]
  else if c <? 65536 then
    if in_range 55296 57343 c then None
    else Some [224 + c / 4096; 128 + (c / 64) mod 64; 128 + c mod 64]
  else if c <? 1114112 then
    Some [240 + c / 262144; 128 + (c / 4096) mod 64;
          128 + (c / 64) mod 64; 128 + c mod 64]
  else None.

(** [s.encode("utf-8")] *)
Fixpoint utf8_encode (s : pstr) : result bytes :=
  match s with
  | [] => Ok []
  | c :: s' =>
    match utf8_encode_cp c with
    | None => Raise "UnicodeEncodeError"
    | Some bs => rest <- utf8_encode s' ;; Ok (bs ++ rest)
    end
  end.

Definition is_cont (b : Z) : bool := in_range 128 191 b.

(** Range of the second byte after a three- or four-byte lead. *)
Definition second_ok (b0 b1 : Z) : bool :=
  if b0 =? 224 then in_range 160 191 b1
  else if b0 =? 237 then in_range 128 159 b1
  else if b0 =? 240 then in_range 144 191 b1
  else if b0 =? 244 then in_range 128 143 b1
  else is_cont b1.

Definition REPLACEMENT : Z := 65533.

(** [b.decode("utf-8", errors="replace")]: each maximal ill-formed run
    becomes one U+FFFD and decoding resumes at the byte that broke it. *)
Fixpoint utf8_decode_replace (bs : bytes) : pstr :=
  match bs with
  | [] => []
  | b0 :: r0 =>
    if b0 <? 128 then b0 :: utf8_decode_replace r0
    else if in_range 194 223 b0 then
      match r0 with
      | [] => [REPLACEMENT]
      | b1 :: r1 =>
        if is_cont b1
        then ((b0 - 192) * 64 + (b1 - 128)) :: utf8_decode_replace r1
        else REPLACEMENT :: utf8_decode_replace r0
      end
    else if in_range 224 239 b0 then
      match r0 with
      | [] => [REPLACEMENT]
      | b1 :: r1 =>
        if second_ok b0 b1 then
          match r1 with
          | [] => [REPLACEMENT]
          | b2 :: r2 =>
            if is_cont b2
            then ((b0 - 224) * 4096 + (b1 - 128) * 64 + (b2 - 128))
                   :: utf8_decode_replace r2
            else REPLACEMENT :: utf8_decode_replace r1
          end
        else REPLACEMENT :: utf8_decode_replace r0
      end
    else if in_range 240 244 b0 then
      match r0 with
      | [] => [REPLACEMENT]
      | b1 :: r1 =>
        if second_ok b0 b1 then
          match r1 with
          | [] => [REPLACEMENT]
          | b2 :: r2 =>
            if is_cont b2 then
              match r2 with
              | [] => [REPLACEMENT]
              | b3 :: r3 =>
                if is_cont b3
                then ((b0 - 240) * 262144 + (b1 - 128) * 4096
                      + (b2 - 128) * 64 + (b3 - 128))
                       :: utf8_decode_replace r3
                else REPLACEMENT :: utf8_decode_replace r2
              end
            else REPLACEMENT :: utf8_decode_replace r1
          end
        else REPLACEMENT :: utf8_decode_replace r0
      end
    else REPLACEMENT :: utf8_decode_replace r0
  end.

(** [s.encode("ascii")] *)
Definition ascii_encode (s : pstr) : result bytes :=
  if forallb (in_range 0 127) s then Ok s else Raise "UnicodeEncodeError".

(** [b.decode("ascii", errors="replace")] *)
Definition ascii_decode_replace (bs : bytes) : pstr :=
  map (fun b => if b <? 128 then b else REPLACEMENT) bs.

(** ** [struct] *)

Definition U32_MAX : Z := 4294967295.

(** [struct.pack("<I", v)] *)
Definition pack_u32_le (v : Z) : result bytes :=
  if in_range 0 U32_MAX v
  then Ok [v mod 256; (v / 256) mod 256; (v / 65536) mod 256; (v / 16777216) mod 256]
  else Raise "struct.error".

(** [struct.pack(">I", v)] *)
Definition pack_u32_be (v : Z) : result bytes :=
  if in_range 0 U32_MAX v
  then Ok [(v / 16777216) mod 256; (v / 65536) mod 256; (v / 256) mod 256; v mod 256]
  else Raise "struct.error".

Definition byte_at (data : bytes) (i : nat) : Z := nth i data 0.

(** [struct.unpack_from("<I", data, off)[0]], for [off + 4 <= len(data)]. *)
Definition unpack_u32_le (data : bytes) (off : nat) : Z :=
  byte_at data off + 256 * byte_at data (off + 1)
  + 65536 * byte_at data (off + 2) + 16777216 * byte_at data (off + 3).

(** [buf[off:off+len(bs)] = bs] on a [bytearray], also [struct.pack_into]. *)
Definition set_slice (buf : bytes) (off : nat) (bs : bytes) : bytes :=
  firstn off buf ++ bs ++ skipn (off + List.length bs) buf.

End Py.

(* ================================================================== *)
(** * XYZFileConverter.py                                              *)
(* ================================================================== *)

Module XYZFileConverter.
Import Py.
Local Open Scope py_scope.

(** ** Third-party packages *)

(** [Crypto.Cipher.AES]: [AES.new(key, AES.MODE_ECB)] and
    [AES.new(key, AES.MODE_CBC, iv=iv)], each with its two directions on
    data whose length is a multiple of the block size. *)
Record AES : Type := {
  ecb_encrypt : bytes -> bytes -> bytes;
  ecb_decrypt : bytes -> bytes -> bytes;
  cbc_encrypt : bytes -> bytes -> bytes -> bytes;
  cbc_decrypt : bytes -> bytes -> bytes -> bytes
}.

(** Both directions raise [ValueError] on data that is not block aligned. *)
Definition cipher_call (f : bytes -> bytes) (data : bytes) : result bytes :=
  if len data mod 16 =? 0 then Ok (f data) else Raise "ValueError".

(** What reading an archive can give. *)
Inductive zip_read_result : Type :=
| BadZipFile
| NoEntries
| FirstEntry (data : bytes).

(** [zipfile]: writing one deflated entry, and reading the first entry. *)
Record ZipCodec : Type := {
  zip_writestr : pstr -> bytes -> bytes;
  zip_read_first : bytes -> zip_read_result
}.

(** ** Module constants *)

Definition _AES_KEY_BASE : bytes := str "@xyzprinting.com".
Definition _AES_KEY_256 : bytes := _AES_KEY_BASE ++ _AES_KEY_BASE.
Definition _AES_IV : bytes := repeat 0 16.

Definition _ECB_MODELS : list pstr :=
  [ str "dv1MX0A000"; str "dv1MW0A000"; str "dv1MW0B000";
    str "dv1MW0C000"; str "dv1NX0A000"; str "dv1NW0A000" ].

Definition HEADER_SIZE : Z := 8192.
Definition BODY_BLOCK_SIZE : Z := 8208.

Definition MAGIC : bytes := str "3DPFNKG00000000" ++ [0].

(** ** The converter object *)

Record XYZFileConverter : Type := {
  model_number : pstr;
  use_ecb : bool
}.

(** [__init__] *)
Definition init (model : pstr) : XYZFileConverter :=
  {| model_number := model;
     use_ecb := existsb (eqb model) _ECB_MODELS |}.

(** ** [extract_print_info] *)

Record PrintInfo : Type := {
  print_time_sec : Z;
  filament_mm : pynum;
  layer_count : Z
}.

Definition obind {A B} (o : option A) (k : A -> option B) : option B :=
  match o with
  | Some a => k a
  | None => None
  end.
Notation "x <-? c1 ;; c2" := (obind c1 (fun x => c2))
  (at level 61, c1 at next level, right associativity) : py_scope.

(** Case folding of [re.IGNORECASE] as far as the letters of the patterns
    below are concerned. *)
Definition fold_ci (c : Z) : Z :=
  if is_ascii_upper c then c + 32
  else if (c =? 304) || (c =? 305) then 105
  else if c =? 383 then 115
  else if c =? 8490 then 107
  else c.

(** A literal under [re.IGNORECASE]; gives the rest of the input. *)
Fixpoint lit_ci (p s : pstr) : option pstr :=
  match p, s with
  | [], _ => Some s
  | x :: p', y :: s' => if fold_ci x =? fold_ci y then lit_ci p' s' else None
  | _ :: _, [] => None
  end.

(** A case-sensitive literal. *)
Fixpoint lit (p s : pstr) : option pstr :=
  match p, s with
  | [], _ => Some s
  | x :: p', y :: s' => if x =? y then lit p' s' else None
  | _ :: _, [] => None
  end.

(** The longest prefix in a class, and what follows it. *)
Fixpoint span (f : Z -> bool) (s : pstr) : pstr * pstr :=
  match s with
  | [] => ([], [])
  | c :: s' =>
    if f c then let '(a, b) := span f s' in (c :: a, b) else ([], s)
  end.

(** A non-empty run of a class, [[...]+]. *)
Definition run1 (f : Z -> bool) (s : pstr) : option (pstr * pstr) :=
  match span f s with
  | ([], _) => None
  | r => Some r
  end.

Definition is_digit_or_dot (c : Z) : bool := is_digit c || (c =? 46).

(** [\s*[:=]\s*] *)
Definition sep_colon_eq (s : pstr) : option pstr :=
  match lstrip s with
  | c :: r => if (c =? 58) || (c =? 61) then Some (lstrip r) else None
  | [] => None
  end.

(** [;\s*] *)
Definition comment_start (s : pstr) : option pstr :=
  match s with
  | 59 :: r => Some (lstrip r)
  | _ => None
  end.

(** [re.match(r';\s*TIME\s*[:=]\s*(\d+)', line, re.IGNORECASE)], group 1 *)
Definition re_time (line : pstr) : option pstr :=
  r <-? comment_start line ;;
  r <-? lit_ci (str "TIME") r ;;
  r <-? sep_colon_eq r ;;
  g <-? run1 is_digit r ;;
  Some (fst g).

(** The lazy run up to the first [=], the whitespace after it, and as
    group 1 the rest of the line. *)
Fixpoint after_first_eq (s : pstr) : option pstr :=
  match s with
  | [] => None
  | c :: s' => if c =? 61 then Some (lstrip s') else after_first_eq s'
  end.

(** [re.match] of [;\s*estimated printing time], then [after_first_eq],
    under [re.IGNORECASE]; group 1 *)
Definition re_estimated (line : pstr) : option pstr :=
  r <-? comment_start line ;;
  r <-? lit_ci (str "estimated printing time") r ;;
  after_first_eq r.

(** [re.search(r'(\d+)\s*' + unit, s)], group 1, for a one-letter unit. *)
Fixpoint search_amount (unit : Z) (s : pstr) : option pstr :=
  match s with
  | [] => None
  | _ :: s' =>
    match run1 is_digit s with
    | Some (ds, r) =>
      match lstrip r with
      | c :: _ => if c =? unit then Some ds else search_amount unit s'
      | [] => search_amount unit s'
      end
    | None => search_amount unit s'
    end
  end.

(** [(?:Filament\s*used|MATERIAL)] *)
Definition filament_keyword (s : pstr) : option pstr :=
  match (r <-? lit_ci (str "Filament") s ;; lit_ci (str "used") (lstrip r)) with
  | Some r => Some r
  | None => lit_ci (str "MATERIAL") s
  end.

(** [(mm|m)?], the text of the group when it took part in the match. *)
Definition unit_group (s : pstr) : option pstr :=
  match s with
  | a :: b :: _ =>
    if (fold_ci a =? 109) && (fold_ci b =? 109) then Some [a; b]
    else if fold_ci a =? 109 then Some [a] else None
  | [a] => if fold_ci a =? 109 then Some [a] else None
  | [] => None
  end.

(** [re.match(r';\s*(?:Filament\s*used|MATERIAL)\s*[:=]\s*([\d.]+)\s*(mm|m)?',
    line, re.IGNORECASE)], groups 1 and 2 *)
Definition re_filament (line : pstr) : option (pstr * option pstr) :=
  r <-? comment_start line ;;
  r <-? filament_keyword r ;;
  r <-? sep_colon_eq r ;;
  g <-? run1 is_digit_or_dot r ;;
  Some (fst g, unit_group (lstrip (snd g))).

(** [re.match(r';\s*LAYER[_\s]*COUNT\s*[:=]\s*(\d+)', line, re.IGNORECASE)],
    group 1 *)
Definition re_layer_count (line : pstr) : option pstr :=
  r <-? comment_start line ;;
  r <-? lit_ci (str "LAYER") r ;;
  r <-? lit_ci (str "COUNT") (snd (span (fun c => (c =? 95) || is_space c) r)) ;;
  r <-? sep_colon_eq r ;;
  g <-? run1 is_digit r ;;
  Some (fst g).

(** [re.match(r';\s*LAYER\s*[:=]\s*\d+', line, re.IGNORECASE)] *)
Definition re_layer (line : pstr) : bool :=
  match (r <-? comment_start line ;;
         r <-? lit_ci (str "LAYER") r ;;
         r <-? sep_colon_eq r ;;
         run1 is_digit r) with
  | Some _ => true
  | None => false
  end.

(** [re.search(r'E([\d.]+)', line)], group 1 *)
Fixpoint re_search_e (s : pstr) : option pstr :=
  match s with
  | [] => None
  | c :: s' =>
    if c =? 69 then
      match run1 is_digit_or_dot s' with
      | Some (g, _) => Some g
      | None => re_search_e s'
      end
    else re_search_e s'
  end.

(** One round of the first loop over the lines. *)
Definition scan_line (st : PrintInfo) (line : pstr) : result PrintInfo :=
  let line_stripped := strip line in
  match re_time line_stripped with
  | Some g =>
    Ok {| print_time_sec := digits_value g;
          filament_mm := filament_mm st; layer_count := layer_count st |}
  | None =>
  match re_estimated line_stripped with
  | Some time_str =>
    let part unit factor :=
      match search_amount unit time_str with
      | Some g => digits_value g * factor
      | None => 0
      end in
    Ok {| print_time_sec := part 104 3600 + part 109 60 + part 115 1;
          filament_mm := filament_mm st; layer_count := layer_count st |}
  | None =>
  match re_filament line_stripped with
  | Some (g1, g2) =>
    val <- float_of_str g1 ;;
    let unit := lower (match g2 with Some u => u | None => str "mm" end) in
    Ok {| print_time_sec := print_time_sec st;
          filament_mm := PyFloat (if eqb unit (str "m") then fmul_int val 1000 else val);
          layer_count := layer_count st |}
  | None =>
  match re_layer_count line_stripped with
  | Some g =>
    Ok {| print_time_sec := print_time_sec st;
          filament_mm := filament_mm st; layer_count := digits_value g |}
  | None =>
    if re_layer line_stripped
    then Ok {| print_time_sec := print_time_sec st;
               filament_mm := filament_mm st;
               layer_count := layer_count st + 1 |}
    else Ok st
  end end end end.

Fixpoint scan_lines (st : PrintInfo) (lines : list pstr) : result PrintInfo :=
  match lines with
  | [] => Ok st
  | line :: rest => st' <- scan_line st line ;; scan_lines st' rest
  end.

(** The second fallback loop: the largest value after an [E]. *)
Definition max_e_step (max_e : pynum) (line : pstr) : pynum :=
  match re_search_e line with
  | Some g =>
    match float_of_str g with
    | Ok e_val => if num_gt (PyFloat e_val) max_e then PyFloat e_val else max_e
    | Raise _ => max_e
    end
  | None => max_e
  end.

Definition extract_print_info (gcode : pstr) : result PrintInfo :=
  st <- scan_lines {| print_time_sec := 0; filament_mm := PyInt 0; layer_count := 0 |}
                   (splitlines gcode) ;;
  let print_time_sec' :=
    if print_time_sec st =? 0 then
      let g1_count :=
        len (filter (fun line => startswith (str "G1 ") (strip line)
                                 || startswith (str "G0 ") (strip line))
                    (splitlines gcode)) in
      Z.max 60 (g1_count / 10)
    else print_time_sec st in
  let filament_mm' :=
    if num_eq (filament_mm st) (PyInt 0) then
      let max_e := fold_left max_e_step (splitlines gcode) (PyInt 0) in
      if num_gt max_e (PyInt 0) then max_e else PyInt 1000
    else filament_mm st in
  Ok {| print_time_sec := print_time_sec';
        filament_mm := filament_mm';
        layer_count := layer_count st |}.

(** ** [_preprocess_gcode] *)

Definition TAB : Z := 9.
Definition LF : Z := 10.

(** The body of the loop over the lines: trim, then turn a leading [G0]
    into [G1]. *)
Definition convert_line (line : pstr) : pstr :=
  let stripped := strip line in
  if startswith (str "G0 ") stripped || startswith (str "G0" ++ [TAB]) stripped
  then str "G1" ++ skipn 2 stripped
  else if eqb stripped (str "G0") then str "G1"
  else stripped.

Definition has_machine (lines : list pstr) : bool :=
  existsb (fun line => contains (str "; machine") (lower line)) (firstn 50 lines).

(** The eight lines put in front when no machine comment is found. *)
Definition xyz_header (self : XYZFileConverter) (print_time_sec : Z)
    (filament_mm : pynum) : result (list pstr) :=
  total_filament <- format_1f filament_mm ;;
  Ok [ str "; machine = " ++ model_number self;
       str "; print_time = " ++ str_of_int print_time_sec;
       str "; total_filament = " ++ total_filament;
       str "; nozzle_diameter = 0.4";
       str "; layer_height = 0.2";
       str "; filament_diameter = 1.75";
       str "; filament_type = PLA";
       [] ].

Definition _preprocess_gcode (self : XYZFileConverter) (gcode : pstr)
    (print_time_sec : Z) (filament_mm : pynum) : result pstr :=
  let lines := splitlines gcode in
  injected <- (if negb (has_machine lines)
               then xyz_header self print_time_sec filament_mm
               else Ok []) ;;
  let result := injected ++ map convert_line lines in
  Ok (join [LF] result ++ [LF]).

(** ** Encryption *)

(** [_pkcs7_pad]; the plugin calls it with a block size of 16. *)
Definition _pkcs7_pad (data : bytes) (block_size : Z) : bytes :=
  let padding_len := block_size - (len data mod block_size) in
  let padding_len := if padding_len =? 0 then block_size else padding_len in
  data ++ repeat padding_len (Z.to_nat padding_len).

Section Backend.

Variable aes : AES.
Variable zip : ZipCodec.

Definition _encrypt_ecb (data : bytes) : result bytes :=
  let padded := _pkcs7_pad data 16 in
  cipher_call (ecb_encrypt aes _AES_KEY_256) padded.

Definition _encrypt_cbc_zip (data : bytes) : result bytes :=
  let compressed := zip_writestr zip (str "model.gcode") data in
  let padded := _pkcs7_pad compressed 16 in
  cipher_call (cbc_encrypt aes _AES_KEY_BASE _AES_IV) padded.

(** ** [_build_header] *)

(** [struct.pack_into("<I", header, off, v)] *)
Definition pack_into_u32 (header : bytes) (off : nat) (v : Z) : result bytes :=
  b <- pack_u32_le v ;; Ok (set_slice header off b).

Definition _build_header (self : XYZFileConverter) (body_size encrypted_size : Z)
    (print_time_sec : Z) (filament_mm : pynum) : result bytes :=
  let header := repeat 0 (Z.to_nat HEADER_SIZE) in
  let header := set_slice header 0 MAGIC in
  version <- pack_u32_le 2 ;;
  let header := set_slice header 16 version in
  model_ascii <- ascii_encode (model_number self) ;;
  let model_bytes := firstn 32 model_ascii in
  let header := set_slice header 32 model_bytes in
  header <- pack_into_u32 header 80 HEADER_SIZE ;;
  header <- pack_into_u32 header 84 encrypted_size ;;
  header <- pack_into_u32 header 88 body_size ;;
  header <- pack_into_u32 header 96 print_time_sec ;;
  filament_int <- int_of_num filament_mm ;;
  header <- pack_into_u32 header 100 filament_int ;;
  let enc_type := if use_ecb self then 2 else 1 in
  header <- pack_into_u32 header 104 enc_type ;;
  Ok header.

(** ** [convert_gcode_to_3w] *)

Definition convert_gcode_to_3w (self : XYZFileConverter) (gcode : pstr)
    (print_time_sec : Z) (filament_mm : pynum) : result bytes :=
  processed <- _preprocess_gcode self gcode print_time_sec filament_mm ;;
  body_bytes <- utf8_encode processed ;;
  encrypted <- (if use_ecb self then _encrypt_ecb body_bytes
                else _encrypt_cbc_zip body_bytes) ;;
  header <- _build_header self (len body_bytes) (len encrypted)
                          print_time_sec filament_mm ;;
  Ok (header ++ encrypted).

(** ** [decrypt_3w_to_gcode] *)

(** The removal of the PKCS7 padding, when the tail looks like one. *)
Definition strip_padding (decrypted : bytes) : bytes :=
  match decrypted with
  | [] => decrypted
  | _ =>
    let pad_len := last decrypted 0 in
    if (0 <? pad_len) && (pad_len <=? 16)
       && forallb (fun b => b =? pad_len) (last_n pad_len decrypted)
    then drop_last_n pad_len decrypted
    else decrypted
  end.

Definition decrypt_3w_to_gcode (three_w_data : bytes) (model_number : pstr)
    : result pstr :=
  if len three_w_data <? 8192 then Raise "ValueError"
  else
    let body_offset := unpack_u32_le three_w_data 80 in
    let encrypted_size := unpack_u32_le three_w_data 84 in
    let original_size := unpack_u32_le three_w_data 88 in
    let enc_type := unpack_u32_le three_w_data 104 in
    let encrypted := slice body_offset (body_offset + encrypted_size) three_w_data in
    decrypted <-
      (if enc_type =? 2 then
         cipher_call (ecb_decrypt aes _AES_KEY_256) encrypted
       else if enc_type =? 1 then
         decrypted <- cipher_call (cbc_decrypt aes _AES_KEY_BASE _AES_IV) encrypted ;;
         match zip_read_first zip decrypted with
         | FirstEntry data => Ok data
         | NoEntries => Ok decrypted
         | BadZipFile => Ok decrypted
         end
       else Ok encrypted) ;;
    let decrypted := strip_padding decrypted in
    let decrypted := if 0 <? original_size
                     then slice 0 original_size decrypted
                     else decrypted in
    Ok (utf8_decode_replace decrypted).

End Backend.

End XYZFileConverter.

(* ================================================================== *)
(** * XYZProtocol.py                                                   *)
(* ================================================================== *)

Module XYZProtocol.
Import Py.
Local Open Scope py_scope.

(** ** Printer database *)

Record PrinterInfo : Type := {
  name : pstr;
  width : Z;
  depth : Z;
  height : Z;
  heated_bed : bool;
  wifi : bool
}.

Definition PRINTER_DB : list (pstr * PrinterInfo) :=
  [ (str "dv1MX0A000", {| name := str "da Vinci miniMaker"; width := 150; depth := 150; height := 150; heated_bed := false; wifi := false |});
    (str "dv1MW0A000", {| name := str "da Vinci mini w"; width := 150; depth := 150; height := 150; heated_bed := false; wifi := true |});
    (str "dv1MW0B000", {| name := str "da Vinci mini wA"; width := 150; depth := 150; height := 150; heated_bed := false; wifi := true |});
    (str "dv1MW0C000", {| name := str "da Vinci mini w+"; width := 150; depth := 150; height := 150; heated_bed := false; wifi := true |});
    (str "dv1NX0A000", {| name := str "da Vinci nano"; width := 120; depth := 120; height := 120; heated_bed := false; wifi := false |});
    (str "dv1NW0A000", {| name := str "da Vinci nano w"; width := 120; depth := 120; height := 120; heated_bed := false; wifi := true |});
    (str "dv1JP0A000", {| name := str "da Vinci Jr. 1.0"; width := 150; depth := 150; height := 150; heated_bed := false; wifi := false |});
    (str "dv1JW0A000", {| name := str "da Vinci Jr. 1.0W"; width := 150; depth := 150; height := 150; heated_bed := false; wifi := true |});
    (str "dv1JA0A000", {| name := str "da Vinci Jr. 1.0A"; width := 175; depth := 175; height := 175; heated_bed := false; wifi := false |});
    (str "dv1JS0A000", {| name := str "da Vinci Jr. 1.0 3in1"; width := 150; depth := 150; height := 150; heated_bed := false; wifi := false |});
    (str "dv1JO0A000", {| name := str "da Vinci Jr. 1.0 3in1 (Open)"; width := 150; depth := 150; height := 150; heated_bed := false; wifi := false |});
    (str "dv1JPWA000", {| name := str "da Vinci Jr. 1.0 Pro"; width := 150; depth := 150; height := 150; heated_bed := false; wifi := false |});
    (str "dv1JWWA000", {| name := str "da Vinci Jr. 1.0W Pro"; width := 150; depth := 150; height := 150; heated_bed := false; wifi := true |});
    (str "dv2JX0A000", {| name := str "da Vinci Jr. 2.0 Mix"; width := 150; depth := 150; height := 150; heated_bed := false; wifi := false |});
    (str "dv1PA0A000", {| name := str "da Vinci 1.0 Pro"; width := 200; depth := 200; height := 200; heated_bed := true; wifi := false |});
    (str "dv1PS0A000", {| name := str "da Vinci 1.0 Pro 3in1"; width := 200; depth := 200; height := 200; heated_bed := true; wifi := false |});
    (str "dv1SA0A000", {| name := str "da Vinci 1.0 Super"; width := 300; depth := 300; height := 300; heated_bed := true; wifi := false |}) ].

Fixpoint db_lookup (key : pstr) (db : list (pstr * PrinterInfo)) : option PrinterInfo :=
  match db with
  | [] => None
  | (k, v) :: db' => if eqb k key then Some v else db_lookup key db'
  end.

(** ** Parsed printer status *)

Record XYZPrinterStatus : Type := {
  model_number : pstr;
  machine_name : pstr;
  serial_number : pstr;
  firmware_version : pstr;
  state : Z;
  sub_state : Z;
  extruder_temp : Z;
  extruder_target : Z;
  bed_temp : Z;
  bed_target : Z;
  print_pct : Z;
  print_elapsed_min : Z;
  print_remaining_min : Z;
  error_code : Z;
  filament_remaining_mm : Z;
  z_offset : Z;
  auto_level : bool
}.

(** [XYZPrinterStatus.__init__] *)
Definition new_status : XYZPrinterStatus :=
  {| model_number := [];
     machine_name := [];
     serial_number := [];
     firmware_version := [];
     state := 0;
     sub_state := 0;
     extruder_temp := 0;
     extruder_target := 0;
     bed_temp := 0;
     bed_target := 0;
     print_pct := 0;
     print_elapsed_min := 0;
     print_remaining_min := 0;
     error_code := 0;
     filament_remaining_mm := 0;
     z_offset := 0;
     auto_level := false |}.

Definition set_model_number (v : pstr) (st : XYZPrinterStatus) : XYZPrinterStatus :=
  {| model_number := v;
     machine_name := machine_name st;
     serial_number := serial_number st;
     firmware_version := firmware_version st;
     state := state st;
     sub_state := sub_state st;
     extruder_temp := extruder_temp st;
     extruder_target := extruder_target st;
     bed_temp := bed_temp st;
     bed_target := bed_target st;
     print_pct := print_pct st;
     print_elapsed_min := print_elapsed_min st;
     print_remaining_min := print_remaining_min st;
     error_code := error_code st;
     filament_remaining_mm := filament_remaining_mm st;
     z_offset := z_offset st;
     auto_level := auto_level st |}.
Definition set_machine_name (v : pstr) (st : XYZPrinterStatus) : XYZPrinterStatus :=
  {| model_number := model_number st;
     machine_name := v;
     serial_number := serial_number st;
     firmware_version := firmware_version st;
     state := state st;
     sub_state := sub_state st;
     extruder_temp := extruder_temp st;
     extruder_target := extruder_target st;
     bed_temp := bed_temp st;
     bed_target := bed_target st;
     print_pct := print_pct st;
     print_elapsed_min := print_elapsed_min st;
     print_remaining_min := print_remaining_min st;
     error_code := error_code st;
     filament_remaining_mm := filament_remaining_mm st;
     z_offset := z_offset st;
     auto_level := auto_level st |}.
Definition set_serial_number (v : pstr) (st : XYZPrinterStatus) : XYZPrinterStatus :=
  {| model_number := model_number st;
     machine_name := machine_name st;
     serial_number := v;
     firmware_version := firmware_version st;
     state := state st;
     sub_state := sub_state st;
     extruder_temp := extruder_temp st;
     extruder_target := extruder_target st;
     bed_temp := bed_temp st;
     bed_target := bed_target st;
     print_pct := print_pct st;
     print_elapsed_min := print_elapsed_min st;
     print_remaining_min := print_remaining_min st;
     error_code := error_code st;
     filament_remaining_mm := filament_remaining_mm st;
     z_offset := z_offset st;
     auto_level := auto_level st |}.
Definition set_firmware_version (v : pstr) (st : XYZPrinterStatus) : XYZPrinterStatus :=
  {| model_number := model_number st;
     machine_name := machine_name st;
     serial_number := serial_number st;
     firmware_version := v;
     state := state st;
     sub_state := sub_state st;
     extruder_temp := extruder_temp st;
     extruder_target := extruder_target st;
     bed_temp := bed_temp st;
     bed_target := bed_target st;
     print_pct := print_pct st;
     print_elapsed_min := print_elapsed_min st;
     print_remaining_min := print_remaining_min st;
     error_code := error_code st;
     filament_remaining_mm := filament_remaining_mm st;
     z_offset := z_offset st;
     auto_level := auto_level st |}.
Definition set_state (v : Z) (st : XYZPrinterStatus) : XYZPrinterStatus :=
  {| model_number := model_number st;
     machine_name := machine_name st;
     serial_number := serial_number st;
     firmware_version := firmware_version st;
     state := v;
     sub_state := sub_state st;
     extruder_temp := extruder_temp st;
     extruder_target := extruder_target st;
     bed_temp := bed_temp st;
     bed_target := bed_target st;
     print_pct := print_pct st;
     print_elapsed_min := print_elapsed_min st;
     print_remaining_min := print_remaining_min st;
     error_code := error_code st;
     filament_remaining_mm := filament_remaining_mm st;
     z_offset := z_offset st;
     auto_level := auto_level st |}.
Definition set_sub_state (v : Z) (st : XYZPrinterStatus) : XYZPrinterStatus :=
  {| model_number := model_number st;
     machine_name := machine_name st;
     serial_number := serial_number st;
     firmware_version := firmware_version st;
     state := state st;
     sub_state := v;
     extruder_temp := extruder_temp st;
     extruder_target := extruder_target st;
     bed_temp := bed_temp st;
     bed_target := bed_target st;
     print_pct := print_pct st;
     print_elapsed_min := print_elapsed_min st;
     print_remaining_min := print_remaining_min st;
     error_code := error_code st;
     filament_remaining_mm := filament_remaining_mm st;
     z_offset := z_offset st;
     auto_level := auto_level st |}.
Definition set_extruder_temp (v : Z) (st : XYZPrinterStatus) : XYZPrinterStatus :=
  {| model_number := model_number st;
     machine_name := machine_name st;
     serial_number := serial_number st;
     firmware_version := firmware_version st;
     state := state st;
     sub_state := sub_state st;
     extruder_temp := v;
     extruder_target := extruder_target st;
     bed_temp := bed_temp st;
     bed_target := bed_target st;
     print_pct := print_pct st;
     print_elapsed_min := print_elapsed_min st;
     print_remaining_min := print_remaining_min st;
     error_code := error_code st;
     filament_remaining_mm := filament_remaining_mm st;
     z_offset := z_offset st;
     auto_level := auto_level st |}.
Definition set_extruder_target (v : Z) (st : XYZPrinterStatus) : XYZPrinterStatus :=
  {| model_number := model_number st;
     machine_name := machine_name st;
     serial_number := serial_number st;
     firmware_version := firmware_version st;
     state := state st;
     sub_state := sub_state st;
     extruder_temp := extruder_temp st;
     extruder_target := v;
     bed_temp := bed_temp st;
     bed_target := bed_target st;
     print_pct := print_pct st;
     print_elapsed_min := print_elapsed_min st;
     print_remaining_min := print_remaining_min st;
     error_code := error_code st;
     filament_remaining_mm := filament_remaining_mm st;
     z_offset := z_offset st;
     auto_level := auto_level st |}.
Definition set_bed_temp (v : Z) (st : XYZPrinterStatus) : XYZPrinterStatus :=
  {| model_number := model_number st;
     machine_name := machine_name st;
     serial_number := serial_number st;
     firmware_version := firmware_version st;
     state := state st;
     sub_state := sub_state st;
     extruder_temp := extruder_temp st;
     extruder_target := extruder_target st;
     bed_temp := v;
     bed_target := bed_target st;
     print_pct := print_pct st;
     print_elapsed_min := print_elapsed_min st;
     print_remaining_min := print_remaining_min st;
     error_code := error_code st;
     filament_remaining_mm := filament_remaining_mm st;
     z_offset := z_offset st;
     auto_level := auto_level st |}.
Definition set_print_pct (v : Z) (st : XYZPrinterStatus) : XYZPrinterStatus :=
  {| model_number := model_number st;
     machine_name := machine_name st;
     serial_number := serial_number st;
     firmware_version := firmware_version st;
     state := state st;
     sub_state := sub_state st;
     extruder_temp := extruder_temp st;
     extruder_target := extruder_target st;
     bed_temp := bed_temp st;
     bed_target := bed_target st;
     print_pct := v;
     print_elapsed_min := print_elapsed_min st;
     print_remaining_min := print_remaining_min st;
     error_code := error_code st;
     filament_remaining_mm := filament_remaining_mm st;
     z_offset := z_offset st;
     auto_level := auto_level st |}.
Definition set_print_elapsed_min (v : Z) (st : XYZPrinterStatus) : XYZPrinterStatus :=
  {| model_number := model_number st;
     machine_name := machine_name st;
     serial_number := serial_number st;
     firmware_version := firmware_version st;
     state := state st;
     sub_state := sub_state st;
     extruder_temp := extruder_temp st;
     extruder_target := extruder_target st;
     bed_temp := bed_temp st;
     bed_target := bed_target st;
     print_pct := print_pct st;
     print_elapsed_min := v;
     print_remaining_min := print_remaining_min st;
     error_code := error_code st;
     filament_remaining_mm := filament_remaining_mm st;
     z_offset := z_offset st;
     auto_level := auto_level st |}.
Definition set_print_remaining_min (v : Z) (st : XYZPrinterStatus) : XYZPrinterStatus :=
  {| model_number := model_number st;
     machine_name := machine_name st;
     serial_number := serial_number st;
     firmware_version := firmware_version st;
     state := state st;
     sub_state := sub_state st;
     extruder_temp := extruder_temp st;
     extruder_target := extruder_target st;
     bed_temp := bed_temp st;
     bed_target := bed_target st;
     print_pct := print_pct st;
     print_elapsed_min := print_elapsed_min st;
     print_remaining_min := v;
     error_code := error_code st;
     filament_remaining_mm := filament_remaining_mm st;
     z_offset := z_offset st;
     auto_level := auto_level st |}.
Definition set_error_code (v : Z) (st : XYZPrinterStatus) : XYZPrinterStatus :=
  {| model_number := model_number st;
     machine_name := machine_name st;
     serial_number := serial_number st;
     firmware_version := firmware_version st;
     state := state st;
     sub_state := sub_state st;
     extruder_temp := extruder_temp st;
     extruder_target := extruder_target st;
     bed_temp := bed_temp st;
     bed_target := bed_target st;
     print_pct := print_pct st;
     print_elapsed_min := print_elapsed_min st;
     print_remaining_min := print_remaining_min st;
     error_code := v;
     filament_remaining_mm := filament_remaining_mm st;
     z_offset := z_offset st;
     auto_level := auto_level st |}.
Definition set_filament_remaining_mm (v : Z) (st : XYZPrinterStatus) : XYZPrinterStatus :=
  {| model_number := model_number st;
     machine_name := machine_name st;
     serial_number := serial_number st;
     firmware_version := firmware_version st;
     state := state st;
     sub_state := sub_state st;
     extruder_temp := extruder_temp st;
     extruder_target := extruder_target st;
     bed_temp := bed_temp st;
     bed_target := bed_target st;
     print_pct := print_pct st;
     print_elapsed_min := print_elapsed_min st;
     print_remaining_min := print_remaining_min st;
     error_code := error_code st;
     filament_remaining_mm := v;
     z_offset := z_offset st;
     auto_level := auto_level st |}.
Definition set_z_offset (v : Z) (st : XYZPrinterStatus) : XYZPrinterStatus :=
  {| model_number := model_number st;
     machine_name := machine_name st;
     serial_number := serial_number st;
     firmware_version := firmware_version st;
     state := state st;
     sub_state := sub_state st;
     extruder_temp := extruder_temp st;
     extruder_target := extruder_target st;
     bed_temp := bed_temp st;
     bed_target := bed_target st;
     print_pct := print_pct st;
     print_elapsed_min := print_elapsed_min st;
     print_remaining_min := print_remaining_min st;
     error_code := error_code st;
     filament_remaining_mm := filament_remaining_mm st;
     z_offset := v;
     auto_level := auto_level st |}.
Definition set_auto_level (v : bool) (st : XYZPrinterStatus) : XYZPrinterStatus :=
  {| model_number := model_number st;
     machine_name := machine_name st;
     serial_number := serial_number st;
     firmware_version := firmware_version st;
     state := state st;
     sub_state := sub_state st;
     extruder_temp := extruder_temp st;
     extruder_target := extruder_target st;
     bed_temp := bed_temp st;
     bed_target := bed_target st;
     print_pct := print_pct st;
     print_elapsed_min := print_elapsed_min st;
     print_remaining_min := print_remaining_min st;
     error_code := error_code st;
     filament_remaining_mm := filament_remaining_mm st;
     z_offset := z_offset st;
     auto_level := v |}.

(** ** The serial port and the session *)

(** The port: every [write] so far, oldest first, and for each blocking wait
    still to come the chunks its [read] calls return before its deadline (an
    empty chunk is a [read] that timed out; no entry left means silence). *)
Record Serial : Type := {
  tx : list bytes;
  rx : list (list bytes)
}.

(** The protocol object, and next to it the arguments the progress callback
    was called with, oldest first. *)
Record XYZProtocol : Type := {
  _serial : option Serial;
  _connected : bool;
  progress_calls : list pynum
}.

Definition TIMEOUT : Z := 5.
Definition UPLOAD_TIMEOUT : Z := 30.

(** State and exceptions of a method body. *)
Definition M (A : Type) : Type := XYZProtocol -> result A * XYZProtocol.

Definition ret {A} (a : A) : M A := fun self => (Ok a, self).
Definition raise {A} (e : exn) : M A := fun self => (Raise e, self).
Arguments raise {A} e%_string.
Definition mbind {A B} (m : M A) (k : A -> M B) : M B :=
  fun self =>
    match m self with
    | (Ok a, self') => k a self'
    | (Raise e, self') => (Raise e, self')
    end.
Definition lift {A} (r : result A) : M A := fun self => (r, self).

(** [try: body except Exception: handler] *)
Definition try_except {A} (body : M A) (handler : M A) : M A :=
  fun self =>
    match body self with
    | (Ok a, self') => (Ok a, self')
    | (Raise _, self') => handler self'
    end.

Notation "x <-- c1 ;; c2" := (mbind c1 (fun x => c2))
  (at level 61, c1 at next level, right associativity) : py_scope.
Notation "c1 ;;; c2" := (mbind c1 (fun _ => c2))
  (at level 61, right associativity) : py_scope.

(** [is_connected] *)
Definition is_connected (self : XYZProtocol) : bool :=
  _connected self && match _serial self with Some _ => true | None => false end.

(** [self._serial.write(data); self._serial.flush()] *)
Definition serial_write (data : bytes) : M unit :=
  fun self =>
    match _serial self with
    | Some port =>
      (Ok tt, {| _serial := Some {| tx := tx port ++ [data]; rx := rx port |};
                 _connected := _connected self;
                 progress_calls := progress_calls self |})
    | None => (Raise "AttributeError", self)
    end.

(** The reads of one blocking wait. *)
Definition serial_reads : M (list bytes) :=
  fun self =>
    match _serial self with
    | Some port =>
      (Ok (hd [] (rx port)),
       {| _serial := Some {| tx := tx port; rx := tl (rx port) |};
          _connected := _connected self;
          progress_calls := progress_calls self |})
    | None => (Raise "AttributeError", self)
    end.

(** [progress_callback(pct)] *)
Definition call_progress (pct : pynum) : M unit :=
  fun self =>
    (Ok tt, {| _serial := _serial self; _connected := _connected self;
               progress_calls := progress_calls self ++ [pct] |}).

(** ** [_send_command] *)

Definition DOLLAR : Z := 36.
Definition LF : Z := 10.

(** The read loop: chunks are gathered until a [$] shows up or the deadline
    passes. *)
Fixpoint read_response (response : bytes) (chunks : list bytes) : bytes :=
  match chunks with
  | [] => response
  | chunk :: rest =>
    match chunk with
    | [] => read_response response rest
    | _ =>
      let response := response ++ chunk in
      if existsb (Z.eqb DOLLAR) response then response
      else read_response response rest
    end
  end.

Definition _send_command (cmd : pstr) : M pstr :=
  fun self =>
    if negb (is_connected self) then (Raise "ConnectionError", self)
    else
      (encoded <-- lift (ascii_encode cmd) ;;
       serial_write (encoded ++ [LF]) ;;;
       chunks <-- serial_reads ;;
       let response := read_response [] chunks in
       let text := ascii_decode_replace response in
       let text := strip (remove_char DOLLAR text) in
       ret text) self.

(** ** [query_status] *)

(** Is the text after a [.] a letter and a colon: the lookahead
    [(?=[a-zA-Z]:)]. *)
Definition field_ahead (s : pstr) : bool :=
  match s with
  | a :: b :: _ => is_ascii_letter a && (b =? 58)
  | _ => false
  end.

(** [re.split(r'\.(?=[a-zA-Z]:)', line)] *)
Fixpoint split_segments (line : pstr) : list pstr :=
  match line with
  | [] => [[]]
  | c :: rest =>
    if (c =? 46) && field_ahead rest then [] :: split_segments rest
    else match split_segments rest with
         | [] => [[c]]
         | seg :: segs => (c :: seg) :: segs
         end
  end.

(** Assignments of one [try] block, in order; the first conversion that
    raises ends the block and keeps what was assigned before it. *)
Fixpoint assign_ints (fields : list (pstr * (Z -> XYZPrinterStatus -> XYZPrinterStatus)))
    (status : XYZPrinterStatus) : XYZPrinterStatus :=
  match fields with
  | [] => status
  | (text, set) :: rest =>
    match int_of_str text with
    | Ok v => assign_ints rest (set v status)
    | Raise _ => status
    end
  end.

Definition part (parts : list pstr) (i : nat) : pstr := nth i parts [].

(** The body of the loop over the segments of a line. *)
Definition parse_segment (status : XYZPrinterStatus) (seg : pstr) : XYZPrinterStatus :=
  let seg := strip seg in
  match seg with
  | key :: colon :: val =>
    if negb (colon =? 58) then status
    else if key =? 106 (* j *) then
      let parts := split 44 val in
      assign_ints ((part parts 0, set_state)
                   :: (if 1 <? len parts then [(part parts 1, set_sub_state)] else []))
                  status
    else if key =? 116 (* t *) then
      let parts := split 44 val in
      assign_ints ((if 2 <=? len parts then [(part parts 1, set_extruder_temp)] else [])
                   ++ (if 3 <=? len parts then [(part parts 2, set_bed_temp)] else [])
                   ++ (if 4 <=? len parts then [(part parts 3, set_extruder_target)] else []))
                  status
    else if key =? 110 (* n *) then
      let status := set_model_number (strip val) status in
      match db_lookup (model_number status) PRINTER_DB with
      | Some info => set_machine_name (name info) status
      | None => status
      end
    else if key =? 115 (* s *) then set_serial_number (strip val) status
    else if key =? 118 (* v *) then set_firmware_version (strip val) status
    else if key =? 101 (* e *) then assign_ints [(val, set_error_code)] status
    else if key =? 100 (* d *) then
      let parts := split 44 val in
      assign_ints ((if 1 <=? len parts then [(part parts 0, set_print_pct)] else [])
                   ++ (if 2 <=? len parts then [(part parts 1, set_print_elapsed_min)] else [])
                   ++ (if 3 <=? len parts then [(part parts 2, set_print_remaining_min)] else []))
                  status
    else if key =? 102 (* f *) then
      let parts := split 44 val in
      assign_ints [(part parts 0, set_filament_remaining_mm)] status
    else if key =? 111 (* o *) then assign_ints [(val, set_z_offset)] status
    else if key =? 108 (* l *) then set_auto_level (eqb (strip val) (str "1")) status
    else status
  | _ => status
  end.

(** The body of the loop over the lines of the response. *)
Definition parse_line (status : XYZPrinterStatus) (line : pstr) : XYZPrinterStatus :=
  let line := strip line in
  match line with
  | [] => status
  | _ => fold_left parse_segment (split_segments line) status
  end.

Definition parse_status (response : pstr) : XYZPrinterStatus :=
  fold_left parse_line (splitlines response) new_status.

Definition query_status : M XYZPrinterStatus :=
  try_except
    (response <-- _send_command (str "XYZv3/query=a") ;;
     ret (parse_status response))
    (ret new_status).

(** ** [_wait_for_ok] *)

(** The read loop of one wait: [True] on an [ok], [False] on an [err], and
    [False] when the deadline passes first. *)
Fixpoint wait_loop (buf : bytes) (chunks : list bytes) : bool :=
  match chunks with
  | [] => false
  | chunk :: rest =>
    match chunk with
    | [] => wait_loop buf rest
    | _ =>
      let buf := buf ++ chunk in
      let text := lower (ascii_decode_replace buf) in
      if contains (str "ok") text then true
      else if contains (str "err") text || contains (str "error") text then false
      else wait_loop buf rest
    end
  end.

(** The deadline is part of the script of the port: [timeout] selects how
    long the reads of this wait go on, not what is done with them. *)
Definition _wait_for_ok (timeout : option Z) : M bool :=
  let timeout := match timeout with Some t => t | None => TIMEOUT end in
  chunks <-- serial_reads ;;
  ret (wait_loop [] chunks).

(** ** [upload_file] *)

(** [struct.pack(">II", a, b)] *)
Definition pack_2u32_be (a b : Z) : result bytes :=
  x <- pack_u32_be a ;; y <- pack_u32_be b ;; Ok (x ++ y).

(** [min(pct, 100)] *)
Definition min_pct (pct : pyfloat) : pynum :=
  if num_lt (PyInt 100) (PyFloat pct) then PyInt 100 else PyFloat pct.

(** The [while offset < file_size] loop.  Its result tells whether the loop
    ran to its end ([true]) or left the method through [return False]
    ([false]).  Every round sends a chunk of at least one byte, so
    [file_size] rounds are enough; [fuel] counts them. *)
Fixpoint upload_loop (fuel : nat) (data : bytes) (file_size : Z)
    (progress_callback : bool) (offset block_num : Z) : M bool :=
  if offset <? file_size then
    match fuel with
    | O => raise "RuntimeError"
    | S fuel' =>
      let block_size := 8192 in
      let chunk := slice offset (offset + block_size) data in
      let chunk_len := len chunk in
      header <-- lift (pack_2u32_be block_num chunk_len) ;;
      let footer := [0; 0; 0; 0] in
      let block_data := header ++ chunk ++ footer in
      serial_write block_data ;;;
      acked <-- _wait_for_ok (Some UPLOAD_TIMEOUT) ;;
      if negb acked then ret false
      else
        let offset := offset + chunk_len in
        let block_num := block_num + 1 in
        (if progress_callback then
           ratio <-- lift (truediv offset file_size) ;;
           call_progress (min_pct (fmul_int ratio 100))
         else ret tt) ;;;
        upload_loop fuel' data file_size progress_callback offset block_num
    end
  else ret true.

Definition upload_file (filename : pstr) (data : bytes)
    (progress_callback : bool) : M bool :=
  fun self =>
    if negb (is_connected self) then (Ok false, self)
    else
      let file_size := len data in
      try_except
        (let cmd := str "XYZv3/upload=" ++ filename ++ str "," ++ str_of_int file_size in
         encoded <-- lift (ascii_encode cmd) ;;
         serial_write (encoded ++ [LF]) ;;;
         acked <-- _wait_for_ok None ;;
         if negb acked then ret false
         else
           finished <-- upload_loop (List.length data) data file_size
                                    progress_callback 0 0 ;;
           if negb finished then ret false
           else
             serial_write (str "XYZv3/uploadDidFinish" ++ [LF]) ;;;
             _ <-- _wait_for_ok None ;;
             ret true)
        (ret false)
        self.

(** ** Printer control commands *)

Definition home : M bool :=
  try_except
    (resp <-- _send_command (str "XYZv3/action=home") ;;
     ret (contains (str "ok") (lower resp) || negb (contains (str "E0") resp)))
    (ret false).

Definition load_filament_start : M bool :=
  try_except
    (resp <-- _send_command (str "XYZv3/action=loadfilament") ;;
     ret (contains (str "ok") (lower resp) || negb (contains (str "E0") resp)))
    (ret false).

Definition load_filament_cancel : M bool :=
  try_except
    (resp <-- _send_command (str "XYZv3/action=loadfilamentcancel") ;;
     ret (contains (str "ok") (lower resp) || negb (contains (str "E0") resp)))
    (ret false).

Definition unload_filament_start : M bool :=
  try_except
    (resp <-- _send_command (str "XYZv3/action=unloadfilament") ;;
     ret (contains (str "ok") (lower resp) || negb (contains (str "E0") resp)))
    (ret false).

Definition unload_filament_cancel : M bool :=
  try_except
    (resp <-- _send_command (str "XYZv3/action=unloadfilamentcancel") ;;
     ret (contains (str "ok") (lower resp) || negb (contains (str "E0") resp)))
    (ret false).

Definition cancel_print : M bool :=
  try_except
    (resp <-- _send_command (str "XYZv3/action=cancel") ;;
     ret (contains (str "ok") (lower resp) || negb (contains (str "E0") resp)))
    (ret false).

Definition pause_print : M bool :=
  try_except
    (resp <-- _send_command (str "XYZv3/action=pause") ;;
     ret (contains (str "ok") (lower resp) || negb (contains (str "E0") resp)))
    (ret false).

Definition resume_print : M bool :=
  try_except
    (resp <-- _send_command (str "XYZv3/action=resume") ;;
     ret (contains (str "ok") (lower resp) || negb (contains (str "E0") resp)))
    (ret false).

Definition calibrate_start : M bool :=
  try_except
    (resp <-- _send_command (str "XYZv3/action=calibratejr") ;;
     ret (contains (str "ok") (lower resp) || negb (contains (str "E0") resp)))
    (ret false).

Definition clean_nozzle_start : M bool :=
  try_except
    (resp <-- _send_command (str "XYZv3/action=cleannozzle") ;;
     ret (contains (str "ok") (lower resp) || negb (contains (str "E0") resp)))
    (ret false).

Definition clean_nozzle_cancel : M bool :=
  try_except
    (resp <-- _send_command (str "XYZv3/action=cleannozzlecancel") ;;
     ret (contains (str "ok") (lower resp) || negb (contains (str "E0") resp)))
    (ret false).

Definition jog (axis : pstr) (direction distance : Z) : M bool :=
  let val := distance * direction in
  try_except
    (resp <-- _send_command (str "XYZv3/action=jog:{" ++ axis ++ str ":"
                             ++ str_of_int val ++ str "}") ;;
     ret (contains (str "ok") (lower resp) || negb (contains (str "E0") resp)))
    (ret false).

Definition z_offset_set (value : Z) : M bool :=
  try_except
    (resp <-- _send_command (str "XYZv3/config=zoffset:" ++ str_of_int value) ;;
     ret (contains (str "ok") (lower resp) || negb (contains (str "E0") resp)))
    (ret false).

Definition auto_level_on : M bool :=
  try_except
    (resp <-- _send_command (str "XYZv3/config=autolevel:on") ;;
     ret (contains (str "ok") (lower resp)))
    (ret false).

Definition auto_level_off : M bool :=
  try_except
    (resp <-- _send_command (str "XYZv3/config=autolevel:off") ;;
     ret (contains (str "ok") (lower resp)))
    (ret false).

Definition buzzer_on : M bool :=
  try_except
    (resp <-- _send_command (str "XYZv3/config=buzzer:on") ;;
     ret (contains (str "ok") (lower resp)))
    (ret false).

Definition buzzer_off : M bool :=
  try_except
    (resp <-- _send_command (str "XYZv3/config=buzzer:off") ;;
     ret (contains (str "ok") (lower resp)))
    (ret false).

(** The command surface, and the method behind each entry. *)
Inductive command : Type :=
| Home
| LoadFilamentStart
| LoadFilamentCancel
| UnloadFilamentStart
| UnloadFilamentCancel
| CancelPrint
| PausePrint
| ResumePrint
| CalibrateStart
| CleanNozzleStart
| CleanNozzleCancel
| Jog (axis : pstr) (direction distance : Z)
| ZOffsetSet (value : Z)
| AutoLevelOn
| AutoLevelOff
| BuzzerOn
| BuzzerOff.

Definition run (c : command) : M bool :=
  match c with
  | Home => home
  | LoadFilamentStart => load_filament_start
  | LoadFilamentCancel => load_filament_cancel
  | UnloadFilamentStart => unload_filament_start
  | UnloadFilamentCancel => unload_filament_cancel
  | CancelPrint => cancel_print
  | PausePrint => pause_print
  | ResumePrint => resume_print
  | CalibrateStart => calibrate_start
  | CleanNozzleStart => clean_nozzle_start
  | CleanNozzleCancel => clean_nozzle_cancel
  | Jog axis direction distance => jog axis direction distance
  | ZOffsetSet value => z_offset_set value
  | AutoLevelOn => auto_level_on
  | AutoLevelOff => auto_level_off
  | BuzzerOn => buzzer_on
  | BuzzerOff => buzzer_off
  end.

(** The text each entry puts on the wire. *)
Definition wire (c : command) : pstr :=
  match c with
  | Home => str "XYZv3/action=home"
  | LoadFilamentStart => str "XYZv3/action=loadfilament"
  | LoadFilamentCancel => str "XYZv3/action=loadfilamentcancel"
  | UnloadFilamentStart => str "XYZv3/action=unloadfilament"
  | UnloadFilamentCancel => str "XYZv3/action=unloadfilamentcancel"
  | CancelPrint => str "XYZv3/action=cancel"
  | PausePrint => str "XYZv3/action=pause"
  | ResumePrint => str "XYZv3/action=resume"
  | CalibrateStart => str "XYZv3/action=calibratejr"
  | CleanNozzleStart => str "XYZv3/action=cleannozzle"
  | CleanNozzleCancel => str "XYZv3/action=cleannozzlecancel"
  | Jog axis direction distance =>
    str "XYZv3/action=jog:{" ++ axis ++ str ":"
    ++ str_of_int (distance * direction) ++ str "}"
  | ZOffsetSet value => str "XYZv3/config=zoffset:" ++ str_of_int value
  | AutoLevelOn => str "XYZv3/config=autolevel:on"
  | AutoLevelOff => str "XYZv3/config=autolevel:off"
  | BuzzerOn => str "XYZv3/config=buzzer:on"
  | BuzzerOff => str "XYZv3/config=buzzer:off"
  end.

(** ** [z_offset_get] *)

(** [zoffset[=:](-?\d+)] tried at the head of the text; group 1.  A [-]
    that no digit follows lets the match fail: without it the digits would
    have to start at the [-] itself. *)
Definition zoffset_here (s : pstr) : option pstr :=
  match XYZFileConverter.lit (str "zoffset") s with
  | Some (c :: r) =>
    if (c =? 61) || (c =? 58) then
      match r with
      | 45 :: r' =>
        match XYZFileConverter.run1 is_digit r' with
        | Some (ds, _) => Some (45 :: ds)
        | None => None
        end
      | _ =>
        match XYZFileConverter.run1 is_digit r with
        | Some (ds, _) => Some ds
        | None => None
        end
      end
    else None
  | _ => None
  end.

(** [re.search(r'zoffset[=:](-?\d+)', resp)], group 1: the leftmost place
    where the pattern matches. *)
Fixpoint re_search_zoffset (s : pstr) : option pstr :=
  match zoffset_here s with
  | Some g => Some g
  | None =>
    match s with
    | [] => None
    | _ :: s' => re_search_zoffset s'
    end
  end.

Definition z_offset_get : M Z :=
  try_except
    (resp <-- _send_command (str "XYZv3/config=zoffset:get") ;;
     match re_search_zoffset resp with
     | Some g => lift (int_of_str g)
     | None => ret 0
     end)
    (ret 0).

(** ** [disconnect] *)

(** The port is closed, whatever [close] does, and then dropped. *)
Definition disconnect : M unit :=
  fun self =>
    (Ok tt, {| _serial := None; _connected := false;
               progress_calls := progress_calls self |}).

(** ** [detect_xyz_ports] *)

(** What [serial.tools.list_ports.comports()] tells about one port. *)
Record PortInfo : Type := {
  device : pstr;
  description : option pstr;
  vid : option Z;
  pid : option Z
}.

Definition XYZ_VID : Z := 10471.
Definition XYZ_PIDS : list Z := [769; 256; 512].

(** [a or b] on a text that may be [None]. *)
Definition or_text (a : option pstr) (b : pstr) : pstr :=
  match a with
  | Some (c :: s) => c :: s
  | _ => b
  end.

(** [v == k] for a number that may be [None]. *)
Definition is_num (v : option Z) (k : Z) : bool :=
  match v with
  | Some x => x =? k
  | None => false
  end.

(** The body of the first loop: the entry a port gets, if any. *)
Definition port_entry (port_info : PortInfo) : option (pstr * pstr) :=
  let desc := or_text (description port_info) [] in
  if is_num (vid port_info) XYZ_VID
     && match pid port_info with
        | Some x => existsb (Z.eqb x) XYZ_PIDS
        | None => false
        end
  then Some (device port_info, str "XYZ Printer (" ++ desc ++ str ")")
  else if existsb (fun kw => contains kw (lower desc))
                  [str "xyz"; str "davinci"; str "da vinci"]
  then Some (device port_info, desc)
  else if is_num (vid port_info) XYZ_VID
  then Some (device port_info, str "XYZ Device (" ++ desc ++ str ")")
  else None.

(** [comports()] is called once for the first loop and, when that loop
    found nothing, once more for the fallback; either call may raise, which
    leaves its loop without entries. *)
Definition detect_xyz_ports (scan rescan : result (list PortInfo))
    : list (pstr * pstr) :=
  let results :=
    match scan with
    | Ok ports =>
      flat_map (fun port_info =>
                  match port_entry port_info with
                  | Some entry => [entry]
                  | None => []
                  end) ports
    | Raise _ => []
    end in
  match results with
  | [] =>
    match rescan with
    | Ok ports =>
      map (fun port_info =>
             (device port_info,
              or_text (description port_info) (device port_info))) ports
    | Raise _ => []
    end
  | _ => results
  end.

End XYZProtocol.

(* ================================================================== *)
(** * app.py                                                           *)
(* ================================================================== *)

Module App.
Import Py.
Local Open Scope py_scope.

(** Text mode with universal newlines: [\r\n] and a lone [\r] are read as
    [\n]. *)
Fixpoint universal_newlines (s : pstr) : pstr :=
  match s with
  | [] => []
  | c :: s' =>
    if c =? 13 then
      match s' with
      | c2 :: s'' =>
        if c2 =? 10 then 10 :: universal_newlines s''
        else 10 :: universal_newlines s'
      | [] => [10]
      end
    else c :: universal_newlines s'
  end.

(** [open(gcode_path, "r", encoding="utf-8", errors="replace").read()] on a
    file of the given bytes. *)
Definition read_gcode (raw : bytes) : pstr :=
  universal_newlines (utf8_decode_replace raw).

(** The conversion stage of [_do_send_gcode] and [_do_slice_and_print]:
    print info, converter for the model of the printer (the miniMaker when
    none is known), container. *)
Definition convert_stage (aes : XYZFileConverter.AES) (zip : XYZFileConverter.ZipCodec)
    (model_number : pstr) (gcode : pstr)
    : result (XYZFileConverter.PrintInfo * bytes) :=
  info <- XYZFileConverter.extract_print_info gcode ;;
  let model := match model_number with
               | [] => str "dv1MX0A000"
               | _ => model_number
               end in
  let converter := XYZFileConverter.init model in
  three_w <- XYZFileConverter.convert_gcode_to_3w aes zip converter gcode
               (XYZFileConverter.print_time_sec info)
               (XYZFileConverter.filament_mm info) ;;
  Ok (info, three_w).

(** How a job ends. *)
Inductive stage : Type :=
| Done
| Error.

(** [_do_send_gcode] from the bytes of the file on: conversion, upload
    with a progress callback, and the stage the job status is left in.
    Every exception ends the job in the stage [Error]. *)
Definition _do_send_gcode (aes : XYZFileConverter.AES) (zip : XYZFileConverter.ZipCodec)
    (model_number : pstr) (raw : bytes) (filename : pstr)
    : XYZProtocol.M stage :=
  fun protocol =>
    match convert_stage aes zip model_number (read_gcode raw) with
    | Raise _ => (Ok Error, protocol)
    | Ok (info, three_w) =>
      match XYZProtocol.upload_file filename three_w true protocol with
      | (Ok true, protocol') => (Ok Done, protocol')
      | (_, protocol') => (Ok Error, protocol')
      end
    end.

End App.

(* ================================================================== *)
(** * Vocabulary of the properties                                     *)
(* ================================================================== *)

Import Py.
Local Open Scope py_scope.

(** ** Characters and text *)

(** A character that [strip] leaves alone, a text made of whitespace only,
    and a text that holds no line boundary. *)
Definition nonspace (c : Z) : Prop := is_space c = false.
Definition spaces (s : pstr) : Prop := Forall (fun c => is_space c = true) s.
Definition no_linebreak (s : pstr) : Prop := Forall (fun c => is_linebreak c = false) s.

(** The characters number formatting produces: visible ASCII. *)
Definition printable (c : Z) : Prop := 33 <= c <= 126.

(** A code point that UTF-8 can carry: inside the code space and not a
    surrogate. *)
Definition scalar (c : Z) : Prop :=
  0 <= c < 55296 \/ 57344 <= c < 1114112.

(** A text that [encode("ascii")] accepts. *)
Definition ascii (s : pstr) : Prop := forallb (in_range 0 127) s = true.

(** ** The session and the upload frames *)

Section ProtocolVocabulary.
Import XYZProtocol.

(** A session on an open port. *)
Definition session (tx : list bytes) (rx : list (list bytes))
    (calls : list pynum) : XYZProtocol :=
  {| _serial := Some {| tx := tx; rx := rx |};
     _connected := true;
     progress_calls := calls |}.

(** The commands that look for [ok] only. *)
Definition ok_only (c : command) : bool :=
  match c with
  | AutoLevelOn | AutoLevelOff | BuzzerOn | BuzzerOff => true
  | _ => false
  end.

(** The two tests on a response. *)
Definition has_ok (resp : pstr) : bool := contains (str "ok") (lower resp).
Definition has_E0 (resp : pstr) : bool := contains (str "E0") resp.


(** The two text lines around the frames of an upload. *)
Definition upload_command (filename : pstr) (size : Z) : bytes :=
  str "XYZv3/upload=" ++ filename ++ str "," ++ str_of_int size ++ [10].
Definition upload_finish : bytes := str "XYZv3/uploadDidFinish" ++ [10].

(** The frames as the specification describes them: 8192 bytes to a
    chunk. *)
Definition BLOCK : nat := Z.to_nat 8192.

(** Four bytes, most significant first. *)
Definition be32 (v : Z) : bytes :=
  [(v / 16777216) mod 256; (v / 65536) mod 256; (v / 256) mod 256; v mod 256].

(** The [i]-th run of 8192 bytes of the payload. *)
Definition chunk_of (data : bytes) (i : nat) : bytes :=
  firstn BLOCK (skipn (i * BLOCK) data).

(** Index, chunk length, chunk, four zero bytes. *)
Definition frame_of (data : bytes) (i : nat) : bytes :=
  be32 (Z.of_nat i) ++ be32 (len (chunk_of data i)) ++ chunk_of data i ++ [0; 0; 0; 0].

(** [ceil(n / 8192)] *)
Definition frame_count (n : Z) : nat := Z.to_nat ((n + 8191) / 8192).

Definition frames (data : bytes) : list bytes :=
  map (frame_of data) (seq 0 (frame_count (len data))).

(** The reads of a wait end in an acknowledgement. *)
Definition acked (chunks : list bytes) : Prop := wait_loop [] chunks = true.

End ProtocolVocabulary.

(** ** The preprocessor and the container *)

Section ConverterVocabulary.
Import XYZFileConverter.

(** What [has_machine] looks for. *)
Definition NEEDLE : pstr := str "; machine".

(** A line opens with a [G0] token: [G0] then a space, [G0] then a tab, or
    [G0] alone. *)
Definition starts_with_G0_token (l : pstr) : bool :=
  startswith (str "G0 ") l || startswith (str "G0" ++ [9]) l || eqb l (str "G0").

Definition is_comment (l : pstr) : bool := startswith (str ";") l.

(** A model identifier that the header line keeps as it is: not empty, no
    whitespace at its end, no line boundary inside. *)
Definition tidy (model : pstr) : Prop :=
  model <> [] /\ rstrip model = model /\ no_linebreak model.

(** The converter of the usage example, a short G-code text, and what the
    preprocessor makes of it for 3600 seconds and 1000 mm. *)
Definition miniMaker : XYZFileConverter := init (str "dv1MX0A000").

Definition sample_gcode : pstr := str "G0 X10 Y20
G1 Z0.2
".

Definition sample_processed : pstr := str "; machine = dv1MX0A000
; print_time = 3600
; total_filament = 1000.0
; nozzle_diameter = 0.4
; layer_height = 0.2
; filament_diameter = 1.75
; filament_type = PLA

G1 X10 Y20
G1 Z0.2
".

(** Four bytes, least significant first. *)
Definition le32 (v : Z) : bytes :=
  [v mod 256; (v / 256) mod 256; (v / 65536) mod 256; (v / 16777216) mod 256].

(** The number of bytes [_pkcs7_pad] adds for a block size of 16. *)
Definition pad_len (data : bytes) : Z := 16 - len data mod 16.

(** The fields of a header that was built. *)
Record header_fields (self : XYZFileConverter) (body_size encrypted_size t fi : Z)
    (h : bytes) : Prop := {
  hf_length : List.length h = Z.to_nat 8192;
  hf_magic : firstn 16 h = MAGIC;
  hf_body_offset : unpack_u32_le h 80 = 8192;
  hf_encrypted_size : unpack_u32_le h 84 = encrypted_size;
  hf_body_size : unpack_u32_le h 88 = body_size;
  hf_print_time : unpack_u32_le h 96 = t;
  hf_filament : unpack_u32_le h 100 = fi;
  hf_enc_type : unpack_u32_le h 104 = if use_ecb self then 2 else 1
}.

(** What the plugin relies on from [AES.MODE_ECB]: on block-aligned data,
    decryption undoes encryption and the length is kept. *)
Definition ecb_lawful (aes : AES) : Prop :=
  forall key data,
    len data mod 16 = 0 ->
    ecb_decrypt aes key (ecb_encrypt aes key data) = data
    /\ List.length (ecb_encrypt aes key data) = List.length data.

(** The encrypted body of an ECB container. *)
Definition ecb_body (aes : AES) (body : bytes) : bytes :=
  ecb_encrypt aes _AES_KEY_256 (_pkcs7_pad body 16).

(** A stand-in backend for closed instances: every byte xored with the
    first byte of the key, which is its own inverse, and an archive that
    stores its single entry as it is. *)
Definition xor_cipher (key data : bytes) : bytes :=
  map (fun b => Z.lxor b (hd 0 key)) data.

Definition toy_aes : AES :=
  {| ecb_encrypt := xor_cipher;
     ecb_decrypt := xor_cipher;
     cbc_encrypt := fun key iv => xor_cipher key;
     cbc_decrypt := fun key iv => xor_cipher key |}.

Definition stored_zip : ZipCodec :=
  {| zip_writestr := fun name data => data;
     zip_read_first := fun archive => FirstEntry archive |}.

(** The specification's sentence on the round trip: for every print-info
    pair. *)
Definition roundtrip_for_every_print_info : Prop :=
  forall (aes : AES) (zip : ZipCodec) (model gcode : pstr) (t : Z) (f : pynum)
         (processed : pstr),
    ecb_lawful aes ->
    In model _ECB_MODELS ->
    Forall scalar gcode ->
    _preprocess_gcode (init model) gcode t f = Ok processed ->
    exists container,
      convert_gcode_to_3w aes zip (init model) gcode t f = Ok container
      /\ decrypt_3w_to_gcode aes zip container [] = Ok processed.


(** The specification's sentence on the size: an input of more than
    2^32 - 8192 bytes is refused. *)
Definition file_too_large_is_raised : Prop :=
  forall (aes : AES) (zip : ZipCodec) (self : XYZFileConverter) (gcode : pstr)
         (t : Z) (f : pynum) (raw : bytes),
    utf8_encode gcode = Ok raw ->
    4294967296 - 8192 < len raw ->
    convert_gcode_to_3w aes zip self gcode t f = Raise "FileTooLargeError".

(** The exceptions that can leave the encoder. *)
Definition raised_by_convert : list exn :=
  [ "OverflowError"; "UnicodeEncodeError"; "ValueError"; "struct.error" ]%string.

(** A G-code text of 2^32 - 8191 letters [a], and the header the
    preprocessor puts in front of it for 60 seconds and 1000 mm. *)
Definition big_size : nat := Z.to_nat 4294959105.

Definition big_gcode : pstr := repeat 97 big_size.

Definition big_header : list pstr :=
  [ str "; machine = dv1MX0A000";
    str "; print_time = 60";
    str "; total_filament = 1000.0";
    str "; nozzle_diameter = 0.4";
    str "; layer_height = 0.2";
    str "; filament_diameter = 1.75";
    str "; filament_type = PLA";
    [] ].

End ConverterVocabulary.

(** ** More of the session *)

Section SessionVocabulary.
Import XYZProtocol.

(** A protocol object right after [__init__]. *)
Definition fresh : XYZProtocol :=
  {| _serial := None; _connected := false; progress_calls := [] |}.

(** The text [_send_command] makes of the reads of one wait. *)
Definition response_text (chunks : list bytes) : pstr :=
  strip (remove_char 36 (ascii_decode_replace (read_response [] chunks))).


(** The value the progress callback gets after [i] blocks:
    [min((offset / file_size) * 100, 100)]. *)
Definition pct_after (data : bytes) (i : nat) : result pynum :=
  ratio <- truediv (Z.min (8192 * Z.of_nat i) (len data)) (len data) ;;
  Ok (min_pct (fmul_int ratio 100)).

(** The float [100.0]. *)
Definition hundred : pyfloat := FFinite false 7036874417766400 (-46).

End SessionVocabulary.

(** ** Numbers in a status report *)

(** Integers as the printer writes them in one field: decimal, separated
    by commas. *)
Definition ints (zs : list Z) : pstr := join [44] (map str_of_int zs).

Section StatusVocabulary.
Import XYZProtocol.

(** The machine names of the printer database. *)
Definition catalogue_names : list pstr := map (fun entry => name (snd entry)) PRINTER_DB.

(** What holds of every status the parser returns: the bed target is never
    filled in, the machine name is empty or comes from the database, and
    the three text fields carry no whitespace at their ends. *)
Definition well_formed (st : XYZPrinterStatus) : Prop :=
  bed_target st = 0
  /\ (machine_name st = [] \/ In (machine_name st) catalogue_names)
  /\ strip (model_number st) = model_number st
  /\ strip (serial_number st) = serial_number st
  /\ strip (firmware_version st) = firmware_version st.

(** A setter that keeps a status well formed. *)
Definition numeric (set : Z -> XYZPrinterStatus -> XYZPrinterStatus) : Prop :=
  forall v st, well_formed st -> well_formed (set v st).

End StatusVocabulary.

(** ** More of the container *)

Section ContainerVocabulary.
Import XYZFileConverter.

(** The 8192 bytes of a header, field by field: signature, version,
    model tag in a slot of 48 bytes, body offset, the two sizes, print
    time, filament, encryption type; zeros everywhere else. *)
Definition header_layout (self : XYZFileConverter)
    (body_size encrypted_size t fi : Z) : bytes :=
  MAGIC ++ le32 2 ++ repeat 0 12
  ++ firstn 32 (model_number self)
  ++ repeat 0 (48 - List.length (firstn 32 (model_number self)))
  ++ le32 8192 ++ le32 encrypted_size ++ le32 body_size ++ repeat 0 4
  ++ le32 t ++ le32 fi ++ le32 (if use_ecb self then 2 else 1)
  ++ repeat 0 (Z.to_nat 8192 - 108).

(** What the plugin relies on from [AES.MODE_CBC]. *)
Definition cbc_lawful (aes : AES) : Prop :=
  forall key iv data,
    len data mod 16 = 0 ->
    cbc_decrypt aes key iv (cbc_encrypt aes key iv data) = data
    /\ List.length (cbc_encrypt aes key iv data) = List.length data.

(** What the plugin relies on from [zipfile]: an archive with one entry is
    read back, the padding bytes after its end notwithstanding. *)
Definition zip_lawful (zip : ZipCodec) : Prop :=
  forall name data,
    zip_read_first zip (_pkcs7_pad (zip_writestr zip name data) 16) = FirstEntry data.

(** The encrypted body of a CBC container. *)
Definition cbc_body (aes : AES) (zip : ZipCodec) (body : bytes) : bytes :=
  cbc_encrypt aes _AES_KEY_BASE _AES_IV
              (_pkcs7_pad (zip_writestr zip (str "model.gcode") body) 16).

(** A stand-in archive for closed instances: the entry is stored as it is,
    and reading drops the padding after it. *)
Definition padded_zip : ZipCodec :=
  {| zip_writestr := fun name data => data;
     zip_read_first := fun archive => FirstEntry (strip_padding archive) |}.

(** A model of the CBC class. *)
Definition junior : XYZFileConverter := init (str "dv1JP0A000").



End ContainerVocabulary.

(** ** Amounts *)

(** A number that is zero or above: the int 0, or a float with a
    positive sign. *)
Definition amount (v : pynum) : Prop :=
  v = PyInt 0
  \/ (exists m e, v = PyFloat (FFinite false m e) /\ 0 <= m)
  \/ v = PyFloat (FInf false).

Section PrintInfoVocabulary.
Import XYZFileConverter.

(** What holds of the three counters while the lines are scanned. *)
Definition scanned (st : PrintInfo) : Prop :=
  0 <= print_time_sec st /\ amount (filament_mm st) /\ 0 <= layer_count st.

End PrintInfoVocabulary.

(** ** The job *)

(** A byte. *)
Definition octet (b : Z) : Prop := 0 <= b < 256.

(** The exceptions that can end the conversion stage of a job. *)
Definition raised_by_stage : list exn :=
  [ "ValueError"; "OverflowError"; "struct.error" ]%string.

(** The converter a job uses for the model number the printer reported. *)
Definition job_converter (model_number : pstr) : XYZFileConverter.XYZFileConverter :=
  XYZFileConverter.init (match model_number with
                         | [] => str "dv1MX0A000"
                         | _ => model_number
                         end).

(** The filament value of a print info: the default of 1000, or a float
    that is not negative. *)
Definition filament_value (v : pynum) : Prop :=
  v = PyInt 1000 \/ exists x, v = PyFloat x /\ amount (PyFloat x).

(** ** What a wait has heard *)

(** The text a wait looks at after some bytes, and its two tests. *)
Definition heard (buf : bytes) : pstr := lower (ascii_decode_replace buf).
Definition says_ok (text : pstr) : bool := contains (str "ok") text.
Definition says_err (text : pstr) : bool :=
  contains (str "err") text || contains (str "error") text.

(** The bytes of the first [k] reads. *)
Definition first_reads (k : nat) (chunks : list bytes) : bytes :=
  List.concat (firstn k chunks).

(** ** Print infos with one counter replaced *)



(* ================================================================== *)
(** * Properties                                                       *)
(* ================================================================== *)


(** ** Text built-ins *)

Lemma startswith_app (p s : pstr) : startswith p (p ++ s) = true.
Proof.
  induction p as [|x p IH]; simpl; [reflexivity|].
  now rewrite Z.eqb_refl, IH.
Qed.

Lemma eqb_eq (a b : pstr) : eqb a b = true <-> a = b.
Proof.
  revert b; induction a as [|x a IH]; intros [|y b]; simpl; split;
    try congruence; try reflexivity.
  - intros H. apply andb_true_iff in H as [H1 H2].
    apply Z.eqb_eq in H1. apply IH in H2. congruence.
  - intros H. injection H as -> ->. rewrite Z.eqb_refl. now apply IH.
Qed.

Lemma eqb_refl (a : pstr) : eqb a a = true.
Proof. now apply eqb_eq. Qed.

(** ** The status parser *)

Section StatusFacts.
Import XYZProtocol.

Lemma split_segments_nonempty (line : pstr) : split_segments line <> [].
Proof.
  destruct line as [|c rest]; simpl; [discriminate|].
  destruct ((c =? 46) && field_ahead rest); [discriminate|].
  destruct (split_segments rest); discriminate.
Qed.

(** A dot followed by a letter and a colon cuts the line in two. *)
Lemma field_ahead_app_dot (a b : pstr) :
  field_ahead (a ++ 46 :: b) = field_ahead a.
Proof.
  destruct a as [|x [|y a]]; simpl.
  - destruct b; reflexivity.
  - now rewrite andb_false_r.
  - reflexivity.
Qed.

Lemma split_segments_cut (a b : pstr) :
  field_ahead b = true ->
  split_segments (a ++ 46 :: b) = split_segments a ++ split_segments b.
Proof.
  intros Hb. induction a as [|c a IH].
  - simpl. now rewrite Hb.
  - cbn [app split_segments]. rewrite field_ahead_app_dot, IH.
    destruct ((c =? 46) && field_ahead a); [reflexivity|].
    pose proof (split_segments_nonempty a) as Hne.
    destruct (split_segments a); [congruence|reflexivity].
Qed.

(** Nothing but the cutting dots is taken out of the line. *)
Lemma split_segments_join (line : pstr) :
  join [46] (split_segments line) = line.
Proof.
  induction line as [|c rest IH]; [reflexivity|].
  cbn [split_segments].
  destruct ((c =? 46) && field_ahead rest) eqn:E.
  - apply andb_true_iff in E as [E _]. apply Z.eqb_eq in E. subst c.
    pose proof (split_segments_nonempty rest) as Hne.
    destruct (split_segments rest) eqn:Es; [congruence|].
    cbn [join app] in *. now rewrite IH.
  - pose proof (split_segments_nonempty rest) as Hne.
    destruct (split_segments rest) as [|seg segs] eqn:Es; [congruence|].
    destruct segs; cbn [join app] in *; now rewrite <- IH.
Qed.

(** Every segment after the first opens with a letter and a colon: a dot
    that is not followed by them never cuts. *)
Lemma split_segments_tail (line : pstr) :
  Forall (fun seg => field_ahead seg = true) (tl (split_segments line)).
Proof.
  induction line as [|c rest IH]; [constructor|].
  cbn [split_segments].
  destruct ((c =? 46) && field_ahead rest) eqn:E.
  - apply andb_true_iff in E as [_ E]. cbn [tl].
    pose proof (split_segments_nonempty rest) as Hne.
    destruct rest as [|x [|y rest]]; try discriminate.
    cbn [split_segments] in *.
    assert (Hx : (x =? 46) = false).
    { cbn in E. apply andb_true_iff in E as [E _].
      unfold is_ascii_letter, is_ascii_upper, is_ascii_lower, in_range in E.
      lia. }
    rewrite Hx in *. cbn [andb] in *.
    assert (Hy : (y =? 46) = false).
    { cbn in E. apply andb_true_iff in E as [_ E]. lia. }
    rewrite Hy in *. cbn [andb] in *.
    destruct (split_segments rest) as [|seg segs]; cbn [tl] in *;
      constructor; auto.
  - destruct (split_segments rest); cbn [tl] in *; auto.
Qed.

Lemma split_segments_whole (line : pstr) :
  (forall a b, line = a ++ 46 :: b -> field_ahead b = false) ->
  split_segments line = [line].
Proof.
  induction line as [|c rest IH]; intros H; [reflexivity|].
  cbn [split_segments].
  destruct ((c =? 46) && field_ahead rest) eqn:E.
  - apply andb_true_iff in E as [E1 E2]. apply Z.eqb_eq in E1. subst c.
    rewrite (H [] rest eq_refl) in E2. discriminate.
  - rewrite IH; [reflexivity|].
    intros a b ->. apply (H (c :: a) b). reflexivity.
Qed.

(** C7. The status line [v:1.3.5.j:9002,0] is cut into [v:1.3.5] and
    [j:9002,0] and parsed to firmware version [1.3.5] and state 9002.  The
    cut is governed by the lookahead alone: a dot followed by a letter and a
    colon cuts, every segment after the first starts with a letter and a
    colon, a line without such a dot stays whole (so [1.3.5] does), and the
    segments put back together with dots give the line. *)
Theorem C7_firmware_version_dot_rule :
  split_segments (str "v:1.3.5.j:9002,0") = [str "v:1.3.5"; str "j:9002,0"]
  /\ firmware_version (parse_status (str "v:1.3.5.j:9002,0")) = str "1.3.5"
  /\ state (parse_status (str "v:1.3.5.j:9002,0")) = 9002
  /\ split_segments (str "1.3.5") = [str "1.3.5"]
  /\ (forall a b, field_ahead b = true ->
        split_segments (a ++ str "." ++ b) = split_segments a ++ split_segments b)
  /\ (forall line,
        (forall a b, line = a ++ str "." ++ b -> field_ahead b = false) ->
        split_segments line = [line])
  /\ (forall line,
        Forall (fun seg => exists c rest,
                  seg = c :: 58 :: rest /\ is_ascii_letter c = true)
               (tl (split_segments line)))
  /\ (forall line, join (str ".") (split_segments line) = line).
Proof.
  repeat split; try reflexivity.
  - intros a b Hb. now apply split_segments_cut.
  - intros line H. now apply split_segments_whole.
  - intros line. eapply Forall_impl; [|apply split_segments_tail].
    intros [|c [|d rest]] H; try discriminate.
    cbn in H. apply andb_true_iff in H as [H1 H2].
    apply Z.eqb_eq in H2. subst d. eauto.
  - intros line. apply split_segments_join.
Qed.

End StatusFacts.

(** ** The print-info extractor *)

Section ExtractFacts.
Import XYZFileConverter.

(** C9. On the empty text the extractor finds no hint and returns the
    fallbacks: 60 seconds, 1000 mm, and no layer. *)
Theorem C9_extract_print_info_empty :
  extract_print_info (str "")
  = Ok {| print_time_sec := 60; filament_mm := PyInt 1000; layer_count := 0 |}.
Proof. reflexivity. Qed.

End ExtractFacts.

(** ** The session *)

Section SessionFacts.
Import XYZProtocol.

Lemma connected_session (self : XYZProtocol) :
  is_connected self = true ->
  exists tx rx calls, self = session tx rx calls.
Proof.
  destruct self as [[[tx rx]|] [|] calls]; cbn; try discriminate.
  intros _. now exists tx, rx, calls.
Qed.

Lemma ascii_app (a b : pstr) : ascii a -> ascii b -> ascii (a ++ b).
Proof. unfold ascii. rewrite forallb_app. now intros -> ->. Qed.

Lemma ascii_encode_ok (s : pstr) : ascii s -> ascii_encode s = Ok s.
Proof. unfold ascii, ascii_encode. now intros ->. Qed.

Lemma uint_chars_digits (d : Decimal.uint) :
  forallb is_digit (uint_chars d) = true.
Proof. induction d; simpl; auto. Qed.

Lemma forallb_impl {A} (f g : A -> bool) (l : list A) :
  (forall x, f x = true -> g x = true) ->
  forallb f l = true -> forallb g l = true.
Proof.
  intros H. induction l as [|x l IH]; simpl; [auto|].
  intros E. apply andb_true_iff in E as [E1 E2].
  now rewrite (H _ E1), IH.
Qed.

Lemma digit_ascii (c : Z) : is_digit c = true -> in_range 0 127 c = true.
Proof. unfold is_digit, in_range. lia. Qed.

Lemma str_of_int_ascii (z : Z) : ascii (str_of_int z).
Proof.
  unfold ascii, str_of_int, nat_digits.
  destruct (z <? 0); cbn [forallb]; rewrite ?andb_true_l;
    refine (forallb_impl _ _ _ digit_ascii (uint_chars_digits _)).
Qed.

Lemma run_unfold (c : command) (self : XYZProtocol) :
  run c self =
  match _send_command (wire c) self with
  | (Ok resp, self') =>
    (Ok (if ok_only c then has_ok resp else has_ok resp || negb (has_E0 resp)), self')
  | (Raise _, self') => (Ok false, self')
  end.
Proof.
  destruct c; cbn [run wire ok_only];
    unfold home, load_filament_start, load_filament_cancel,
      unload_filament_start, unload_filament_cancel, cancel_print,
      pause_print, resume_print, calibrate_start, clean_nozzle_start,
      clean_nozzle_cancel, jog, z_offset_set, auto_level_on, auto_level_off,
      buzzer_on, buzzer_off, try_except, mbind, ret;
    match goal with
    | |- context [_send_command ?w self] =>
      destruct (_send_command w self) as [[resp|e] self']
    end; reflexivity.
Qed.




(** *** Uploads *)

Lemma write_session (d : bytes) tx rx calls :
  serial_write d (session tx rx calls) = (Ok tt, session (tx ++ [d]) rx calls).
Proof. reflexivity. Qed.

Lemma wait_session (t : option Z) tx chunks rx calls :
  _wait_for_ok t (session tx (chunks :: rx) calls)
  = (Ok (wait_loop [] chunks), session tx rx calls).
Proof. reflexivity. Qed.

Lemma wait_session_any (t : option Z) tx rx calls :
  _wait_for_ok t (session tx rx calls)
  = (Ok (wait_loop [] (hd [] rx)), session tx (tl rx) calls).
Proof. reflexivity. Qed.

Lemma upload_command_encode (filename : pstr) (size : Z) :
  ascii filename ->
  ascii_encode (str "XYZv3/upload=" ++ filename ++ str "," ++ str_of_int size)
  = Ok (str "XYZv3/upload=" ++ filename ++ str "," ++ str_of_int size).
Proof.
  intros H. apply ascii_encode_ok.
  repeat apply ascii_app; auto using str_of_int_ascii; reflexivity.
Qed.

(** The method up to the block loop, and from the loop to the end. *)
Lemma upload_file_unfold (filename : pstr) (data : bytes) (cb : bool)
    tx init rx calls :
  ascii filename ->
  wait_loop [] init = true ->
  upload_file filename data cb (session tx (init :: rx) calls)
  = match upload_loop (List.length data) data (len data) cb 0 0
            (session (tx ++ [upload_command filename (len data)]) rx calls) with
    | (Ok true, session') =>
      match session' with
      | {| _serial := Some port; _connected := conn; progress_calls := calls' |} =>
        (Ok true, {| _serial := Some {| tx := XYZProtocol.tx port ++ [upload_finish];
                                        rx := tl (XYZProtocol.rx port) |};
                     _connected := conn; progress_calls := calls' |})
      | _ => (Ok false, session')
      end
    | (_, session') => (Ok false, session')
    end.
Proof.
  intros Hf Hi.
  unfold upload_file. cbn [is_connected session _connected _serial negb andb].
  unfold try_except, mbind at 1.
  unfold lift at 1. rewrite (upload_command_encode filename (len data) Hf).
  unfold mbind at 1. rewrite write_session.
  unfold mbind at 1. rewrite wait_session, Hi. cbn [negb].
  unfold mbind at 1. unfold upload_command. rewrite <- !app_assoc.
  destruct (upload_loop _ _ _ _ _ _ _) as [[[|]|e] s']; try reflexivity.
  cbn [negb]. unfold mbind, serial_write, _wait_for_ok, serial_reads, mbind, ret.
  destruct s' as [[[tx' rx']|] conn calls']; reflexivity.
Qed.

(** C10. With nothing to send, the engine writes the initiation line with
    size 0 and, right after it, the finish line; no frame is written, the
    progress callback is not called (so no ratio is computed), and the
    method returns [True]. *)
Theorem C10_upload_empty_payload (filename : pstr) (cb : bool)
    (self : XYZProtocol) (port : Serial) (init : list bytes) (rest : list (list bytes)) :
  _serial self = Some port ->
  _connected self = true ->
  ascii filename ->
  rx port = init :: rest ->
  wait_loop [] init = true ->
  upload_file filename [] cb self
  = (Ok true,
     {| _serial :=
          Some {| tx := tx port ++ [str "XYZv3/upload=" ++ filename ++ str ",0" ++ [10];
                                    str "XYZv3/uploadDidFinish" ++ [10]];
                  rx := tl rest |};
        _connected := true;
        progress_calls := progress_calls self |}).
Proof.
  intros Hs Hc Hf Hrx Hi.
  destruct self as [ser conn calls]; cbn in Hs, Hc; subst ser conn.
  destruct port as [tx0 rx0]; cbn in Hrx; subst rx0.
  change ({| _serial := Some {| tx := tx0; rx := init :: rest |};
             _connected := true; progress_calls := calls |})
    with (session tx0 (init :: rest) calls).
  rewrite (upload_file_unfold filename [] cb tx0 init rest calls Hf Hi).
  cbn. rewrite <- app_assoc. reflexivity.
Qed.

Lemma C10_upload_empty_payload_witness :
  upload_file (str "t.gcode") [] true (session [] [[str "ok"]; [str "ok"]] [])
  = (Ok true,
     session [str "XYZv3/upload=t.gcode,0" ++ [10];
              str "XYZv3/uploadDidFinish" ++ [10]] [] []).
Proof.
  exact (C10_upload_empty_payload (str "t.gcode") true
           (session [] [[str "ok"]; [str "ok"]] [])
           {| tx := []; rx := [[str "ok"]; [str "ok"]] |}
           [str "ok"] [[str "ok"]]
           eq_refl eq_refl eq_refl eq_refl eq_refl).
Defined.

(** *** Frames *)

Lemma BLOCK_Z : Z.of_nat BLOCK = 8192.
Proof. reflexivity. Qed.

Lemma pack_u32_be_ok (v : Z) : 0 <= v <= U32_MAX -> pack_u32_be v = Ok (be32 v).
Proof.
  intros H. unfold pack_u32_be, in_range.
  replace ((0 <=? v) && (v <=? U32_MAX)) with true; [reflexivity|].
  symmetry. apply andb_true_iff. split; lia.
Qed.

Lemma len_chunk_of (data : bytes) (i : nat) :
  8192 * Z.of_nat i <= len data ->
  len (chunk_of data i) = Z.min 8192 (len data - 8192 * Z.of_nat i).
Proof.
  unfold len, chunk_of. intros H.
  rewrite length_firstn, length_skipn.
  pose proof BLOCK_Z. lia.
Qed.

Lemma slice_chunk_of (data : bytes) (i : nat) :
  slice (8192 * Z.of_nat i) (8192 * Z.of_nat i + 8192) data = chunk_of data i.
Proof.
  unfold slice, chunk_of. f_equal.
  - unfold BLOCK. f_equal. lia.
  - f_equal. pose proof BLOCK_Z. lia.
Qed.

Lemma frame_count_gt (n : Z) (i : nat) :
  (i < frame_count n)%nat <-> 8192 * Z.of_nat i < n.
Proof.
  unfold frame_count. split; intros H.
  - assert (Z.of_nat i < (n + 8191) / 8192) by lia.
    Z.div_mod_to_equations. lia.
  - assert (Z.of_nat i < (n + 8191) / 8192); [|lia].
    Z.div_mod_to_equations. lia.
Qed.

Lemma frame_count_le (n : Z) : 0 <= n -> Z.of_nat (frame_count n) <= n.
Proof.
  intros H. unfold frame_count.
  rewrite Z2Nat.id by (Z.div_mod_to_equations; lia).
  Z.div_mod_to_equations. lia.
Qed.

(** A ratio of at most one is a float. *)
Lemma round64_small (neg : bool) (num den : Z) :
  0 < num <= den -> exists m e, round64 neg num den = FFinite neg m e.
Proof.
  intros H. unfold round64.
  replace (num =? 0) with false by lia.
  pose proof (Z.log2_le_mono num den ltac:(lia)) as Hlog.
  set (e0 := Z.log2 num - Z.log2 den - 52) in *.
  destruct (scale2 num den e0) as [n0 d0].
  set (e1 := if n0 / d0 <? 2 ^ 52 then e0 - 1 else e0).
  assert (He1 : e1 <= -52) by (subst e1 e0; destruct (_ <? _); lia).
  destruct (scale2 num den (Z.max e1 (-1074))) as [n2 d2].
  destruct (round_half_even n2 d2 =? 2 ^ 53).
  - replace (971 <? Z.max e1 (-1074) + 1) with false by lia. eauto.
  - replace (971 <? Z.max e1 (-1074)) with false by lia. eauto.
Qed.

Lemma truediv_small (a b : Z) :
  0 < a <= b -> exists x, truediv a b = Ok x.
Proof.
  intros H. unfold truediv.
  replace (b =? 0) with false by lia.
  rewrite !Z.abs_eq by lia.
  destruct (round64_small (Z.sgn a * Z.sgn b <? 0) a b H) as (m & e & ->).
  eauto.
Qed.

Lemma upload_loop_eq (fuel : nat) data file_size cb offset block_num :
  upload_loop fuel data file_size cb offset block_num
  = if offset <? file_size then
      match fuel with
      | O => raise "RuntimeError"
      | S fuel' =>
        header <-- lift (pack_2u32_be block_num
                           (len (slice offset (offset + 8192) data))) ;;
        serial_write (header ++ slice offset (offset + 8192) data ++ [0; 0; 0; 0]) ;;;
        acked <-- _wait_for_ok (Some UPLOAD_TIMEOUT) ;;
        if negb acked then ret false
        else
          (if cb then
             ratio <-- lift (truediv (offset + len (slice offset (offset + 8192) data))
                                     file_size) ;;
             call_progress (min_pct (fmul_int ratio 100))
           else ret tt) ;;;
          upload_loop fuel' data file_size cb
                      (offset + len (slice offset (offset + 8192) data))
                      (block_num + 1)
      end
    else ret true.
Proof. destruct fuel; reflexivity. Qed.

(** The block loop, from block [i] on, with [r] blocks left to send. *)
Lemma upload_loop_frames (data : bytes) (cb : bool) :
  forall (r i fuel : nat) tx acks rest calls,
    List.length acks = r ->
    Forall acked acks ->
    (r <= fuel)%nat ->
    (i + r)%nat = frame_count (len data) ->
    Z.of_nat (i + r) <= 4294967296 ->
    exists calls',
      upload_loop fuel data (len data) cb
                  (Z.min (8192 * Z.of_nat i) (len data)) (Z.of_nat i)
                  (session tx (acks ++ rest) calls)
      = (Ok true, session (tx ++ map (frame_of data) (seq i r)) rest (calls ++ calls'))
      /\ List.length calls' = (if cb then r else O).
Proof.
  induction r as [|r IH]; intros i fuel tx acks rest calls Hlen Hack Hfuel Hcount Hmax.
  - destruct acks; [|discriminate]. exists []. split; [|now destruct cb].
    rewrite upload_loop_eq.
    assert (Hge : ~ 8192 * Z.of_nat i < len data).
    { rewrite <- frame_count_gt. lia. }
    replace (Z.min (8192 * Z.of_nat i) (len data) <? len data) with false by lia.
    cbn. now rewrite !app_nil_r.
  - destruct acks as [|a acks]; [discriminate|].
    injection Hlen as Hlen. inversion Hack as [|? ? Ha Hack']; subst.
    destruct fuel as [|fuel]; [lia|].
    assert (Hlt : 8192 * Z.of_nat i < len data).
    { rewrite <- frame_count_gt. lia. }
    rewrite upload_loop_eq.
    replace (Z.min (8192 * Z.of_nat i) (len data)) with (8192 * Z.of_nat i) by lia.
    replace (8192 * Z.of_nat i <? len data) with true by lia.
    rewrite slice_chunk_of.
    pose proof (len_chunk_of data i ltac:(lia)) as Hcl.
    unfold mbind at 1. unfold lift at 1, pack_2u32_be.
    rewrite (pack_u32_be_ok (Z.of_nat i)) by (unfold U32_MAX; lia).
    rewrite (pack_u32_be_ok (len (chunk_of data i))) by (unfold U32_MAX; lia).
    cbn [bind].
    unfold mbind at 1. rewrite write_session.
    rewrite <- (app_assoc (be32 (Z.of_nat i))).
    unfold mbind at 1. cbn [app]. rewrite wait_session.
    unfold acked in Ha. rewrite Ha. cbn [negb].
    assert (Hoff : 8192 * Z.of_nat i + len (chunk_of data i)
                   = Z.min (8192 * Z.of_nat (S i)) (len data)) by lia.
    rewrite Hoff.
    replace (Z.of_nat i + 1) with (Z.of_nat (S i)) by lia.
    destruct cb.
    + destruct (truediv_small (Z.min (8192 * Z.of_nat (S i)) (len data)) (len data)
                              ltac:(lia)) as [x Hx].
      unfold mbind at 1. unfold mbind at 1. unfold lift at 1. rewrite Hx.
      unfold call_progress at 1. cbn [session _serial _connected progress_calls].
      fold (session (tx ++ [be32 (Z.of_nat i) ++ be32 (len (chunk_of data i))
                            ++ chunk_of data i ++ [0; 0; 0; 0]])
                    (acks ++ rest) (calls ++ [min_pct (fmul_int x 100)])).
      destruct (IH (S i) fuel
                   (tx ++ [be32 (Z.of_nat i) ++ be32 (len (chunk_of data i))
                           ++ chunk_of data i ++ [0; 0; 0; 0]])
                   acks rest (calls ++ [min_pct (fmul_int x 100)])
                   eq_refl Hack' ltac:(lia) ltac:(lia) ltac:(lia))
        as (calls' & Hrun & Hcalls).
      exists (min_pct (fmul_int x 100) :: calls'). split.
      * etransitivity; [exact Hrun|]. cbn [seq map]. unfold frame_of at 2.
        rewrite <- !app_assoc. reflexivity.
      * cbn [List.length]. now rewrite Hcalls.
    + unfold mbind at 1. unfold ret at 1.
      destruct (IH (S i) fuel
                   (tx ++ [be32 (Z.of_nat i) ++ be32 (len (chunk_of data i))
                           ++ chunk_of data i ++ [0; 0; 0; 0]])
                   acks rest calls
                   eq_refl Hack' ltac:(lia) ltac:(lia) ltac:(lia))
        as (calls' & Hrun & Hcalls).
      exists calls'. split; [|assumption].
      etransitivity; [exact Hrun|]. cbn [seq map]. unfold frame_of at 2.
      rewrite <- !app_assoc. reflexivity.
Qed.

Lemma frames_length (data : bytes) :
  Z.of_nat (List.length (frames data)) = (len data + 8191) / 8192.
Proof.
  unfold frames, frame_count. rewrite length_map, length_seq.
  apply Z2Nat.id. unfold len. Z.div_mod_to_equations. lia.
Qed.

Lemma frames_nth (data : bytes) (i : nat) :
  (i < List.length (frames data))%nat ->
  nth i (frames data) [] = frame_of data i
  /\ (len (chunk_of data i) = 8192
      \/ S i = List.length (frames data)
         /\ len (chunk_of data i) = len data - 8192 * Z.of_nat i
         /\ 0 < len (chunk_of data i) < 8192).
Proof.
  unfold frames. rewrite length_map, length_seq. intros Hi.
  split.
  - rewrite (nth_indep _ [] (frame_of data O)) by (now rewrite length_map, length_seq).
    rewrite (map_nth (frame_of data)), seq_nth by assumption. reflexivity.
  - pose proof (proj1 (frame_count_gt (len data) i) Hi) as Hlt.
    rewrite len_chunk_of by lia.
    destruct (Z_le_gt_dec 8192 (len data - 8192 * Z.of_nat i)) as [Hfull|Hlast].
    + left. lia.
    + right. split; [|lia].
      destruct (Nat.eq_dec (S i) (frame_count (len data))) as [E|E]; [exact E|].
      assert (Hs : (S i < frame_count (len data))%nat) by lia.
      apply frame_count_gt in Hs. lia.
Qed.

Lemma frames_one_block (data : bytes) :
  len data = 8192 ->
  frames data = [[0; 0; 0; 0; 0; 0; 32; 0] ++ data ++ [0; 0; 0; 0]].
Proof.
  intros H. unfold frames. rewrite H.
  change (frame_count 8192) with 1%nat. cbn [seq map].
  unfold frame_of, chunk_of. cbn [Nat.mul skipn].
  rewrite firstn_all2 by (unfold len in H; pose proof BLOCK_Z; lia).
  rewrite H.
  change (be32 (Z.of_nat 0)) with [0; 0; 0; 0].
  change (be32 8192) with [0; 0; 32; 0].
  reflexivity.
Qed.

Lemma frames_two_blocks (data : bytes) :
  len data = 8193 ->
  frames data = [ [0; 0; 0; 0; 0; 0; 32; 0] ++ firstn BLOCK data ++ [0; 0; 0; 0];
                  [0; 0; 0; 1; 0; 0; 0; 1] ++ skipn BLOCK data ++ [0; 0; 0; 0] ].
Proof.
  intros H. unfold frames. rewrite H.
  change (frame_count 8193) with 2%nat. cbn [seq map].
  unfold frame_of.
  rewrite (len_chunk_of data 0), (len_chunk_of data 1), H by lia.
  unfold chunk_of. rewrite Nat.mul_0_l, Nat.mul_1_l. cbn [skipn].
  rewrite (firstn_all2 (n := BLOCK) (skipn BLOCK data)).
  - change (be32 (Z.of_nat 0)) with [0; 0; 0; 0].
    change (be32 (Z.of_nat 1)) with [0; 0; 0; 1].
    change (be32 (Z.min 8192 (8193 - 8192 * Z.of_nat 0))) with [0; 0; 32; 0].
    change (be32 (Z.min 8192 (8193 - 8192 * Z.of_nat 1))) with [0; 0; 0; 1].
    cbn [app]. reflexivity.
  - rewrite length_skipn. unfold len in H. pose proof BLOCK_Z. lia.
Qed.

(** C2. On a connected session whose printer acknowledges the initiation
    and every block, a non-empty payload of [n] bytes goes out as the
    initiation line, then [ceil(n/8192)] frames, then the finish line.
    Frame [i] is the big-endian index [i], the big-endian chunk length, the
    chunk and four zero bytes; every chunk holds 8192 bytes except possibly
    the last.  A payload of 8192 bytes gives one frame of 8204 bytes with
    index 0; a payload of 8193 bytes gives two frames, with indices 0 and 1
    and chunk lengths 8192 and 1. *)
Theorem C2_upload_frames (filename : pstr) (data : bytes) (cb : bool)
    (self : XYZProtocol) (port : Serial)
    (init : list bytes) (acks rest : list (list bytes)) :
  _serial self = Some port ->
  _connected self = true ->
  ascii filename ->
  data <> [] ->
  len data <= 8192 * 4294967296 ->
  rx port = init :: acks ++ rest ->
  acked init ->
  List.length acks = List.length (frames data) ->
  Forall acked acks ->
  (exists calls,
     upload_file filename data cb self
     = (Ok true,
        {| _serial :=
             Some {| tx := tx port ++ [upload_command filename (len data)]
                                   ++ frames data ++ [upload_finish];
                     rx := tl rest |};
           _connected := true;
           progress_calls := progress_calls self ++ calls |}))
  /\ Z.of_nat (List.length (frames data)) = (len data + 8191) / 8192
  /\ (forall i, (i < List.length (frames data))%nat ->
        nth i (frames data) []
        = be32 (Z.of_nat i) ++ be32 (len (chunk_of data i))
          ++ chunk_of data i ++ [0; 0; 0; 0]
        /\ (len (chunk_of data i) = 8192
            \/ S i = List.length (frames data)
               /\ len (chunk_of data i) = len data - 8192 * Z.of_nat i
               /\ 0 < len (chunk_of data i) < 8192))
  /\ (len data = 8192 ->
        frames data = [[0; 0; 0; 0; 0; 0; 32; 0] ++ data ++ [0; 0; 0; 0]]
        /\ len ([0; 0; 0; 0; 0; 0; 32; 0] ++ data ++ [0; 0; 0; 0]) = 8204)
  /\ (len data = 8193 ->
        frames data
        = [ [0; 0; 0; 0; 0; 0; 32; 0] ++ firstn BLOCK data ++ [0; 0; 0; 0];
            [0; 0; 0; 1; 0; 0; 0; 1] ++ skipn BLOCK data ++ [0; 0; 0; 0] ]
        /\ len (firstn BLOCK data) = 8192 /\ len (skipn BLOCK data) = 1).
Proof.
  intros Hs Hc Hf Hne Hmax Hrx Hi Hlen Hack.
  split; [|split; [apply frames_length|split; [apply frames_nth|split]]].
  - destruct self as [ser conn calls]; cbn in Hs, Hc; subst ser conn.
    destruct port as [tx0 rx0]; cbn in Hrx; subst rx0.
    change ({| _serial := Some {| tx := tx0; rx := init :: acks ++ rest |};
               _connected := true; progress_calls := calls |})
      with (session tx0 (init :: acks ++ rest) calls).
    rewrite (upload_file_unfold filename data cb tx0 init (acks ++ rest) calls Hf Hi).
    assert (Hcount : List.length (frames data) = frame_count (len data)).
    { unfold frames. now rewrite length_map, length_seq. }
    destruct (upload_loop_frames data cb (List.length acks) O (List.length data)
                (tx0 ++ [upload_command filename (len data)]) acks rest calls
                eq_refl Hack) as (calls' & Hrun & _).
    + pose proof (frame_count_le (len data)). unfold len in *. lia.
    + now rewrite Hlen.
    + pose proof (frames_length data) as Hfl. rewrite Hlen. cbn [Nat.add].
      rewrite Hfl. Z.div_mod_to_equations. lia.
    + change (Z.of_nat 0) with 0 in Hrun.
      replace (Z.min (8192 * 0) (len data)) with 0 in Hrun by (unfold len; lia).
      rewrite Hrun. exists calls'. cbn [session XYZProtocol.tx XYZProtocol.rx].
      unfold frames. rewrite <- Hcount, <- Hlen, <- !app_assoc. reflexivity.
  - intros H. split; [now apply frames_one_block|].
    unfold len in *. rewrite !length_app. cbn [List.length]. lia.
  - intros H. split; [now apply frames_two_blocks|].
    unfold len in *. rewrite length_firstn, length_skipn.
    pose proof BLOCK_Z. lia.
Qed.

Lemma C2_upload_frames_witness :
  exists calls,
    upload_file (str "t.gcode") (str "ABCDE") true
                (session [] [[str "ok"]; [str "ok"]; [str "ok"]] [])
    = (Ok true,
       session [ str "XYZv3/upload=t.gcode,5" ++ [10];
                 [0; 0; 0; 0; 0; 0; 0; 5; 65; 66; 67; 68; 69; 0; 0; 0; 0];
                 str "XYZv3/uploadDidFinish" ++ [10] ]
               [] calls).
Proof.
  destruct (proj1 (C2_upload_frames (str "t.gcode") (str "ABCDE") true
                     (session [] [[str "ok"]; [str "ok"]; [str "ok"]] [])
                     {| tx := []; rx := [[str "ok"]; [str "ok"]; [str "ok"]] |}
                     [str "ok"] [[str "ok"]] [[str "ok"]]
                     eq_refl eq_refl eq_refl
                     ltac:(discriminate) ltac:(vm_compute; discriminate)
                     eq_refl eq_refl eq_refl
                     (Forall_cons _ (eq_refl : acked [str "ok"]) (Forall_nil _))))
    as [calls H].
  exists calls. exact H.
Defined.

End SessionFacts.

(** ** Trimming, lines and searches *)

Lemma linebreak_is_space (c : Z) : is_linebreak c = true -> is_space c = true.
Proof. unfold is_linebreak, is_space, in_range. lia. Qed.

Lemma nonspace_no_linebreak (c : Z) : is_space c = false -> is_linebreak c = false.
Proof.
  intros H. destruct (is_linebreak c) eqn:E; [|reflexivity].
  apply linebreak_is_space in E. congruence.
Qed.

Lemma lower_cp_space (c : Z) : is_space c = true -> lower_cp c = [c].
Proof.
  unfold is_space, lower_cp, is_ascii_upper, in_range. intros H.
  replace ((65 <=? c) && (c <=? 90)) with false by lia.
  replace (c =? 304) with false by lia.
  replace (c =? 8490) with false by lia.
  replace ((192 <=? c) && (c <=? 222) && negb (c =? 215)) with false by lia.
  reflexivity.
Qed.

Lemma lower_app (a b : pstr) : lower (a ++ b) = lower a ++ lower b.
Proof. apply flat_map_app. Qed.

Lemma lower_spaces (ws : pstr) : spaces ws -> lower ws = ws.
Proof.
  induction 1 as [|c ws Hc _ IH]; [reflexivity|].
  cbn [lower flat_map]. fold (lower ws). now rewrite lower_cp_space, IH.
Qed.

(** *** [lstrip], [rstrip], [strip] *)

Lemma lstrip_split (s : pstr) : exists ws, s = ws ++ lstrip s /\ spaces ws.
Proof.
  induction s as [|c s (ws & E & Hws)]; [now exists []; split; [|constructor]|].
  cbn [lstrip]. destruct (is_space c) eqn:Ec.
  - exists (c :: ws). split; [cbn [app]; now rewrite <- E|now constructor].
  - exists []. split; [reflexivity|constructor].
Qed.

Lemma rstrip_split (s : pstr) : exists ws, s = rstrip s ++ ws /\ spaces ws.
Proof.
  induction s as [|c s (ws & E & Hws)]; [now exists []; split; [|constructor]|].
  cbn [rstrip]. destruct (rstrip s) as [|r rs] eqn:Er.
  - cbn [app] in E. subst ws. destruct (is_space c) eqn:Ec.
    + exists (c :: s). split; [reflexivity|now constructor].
    + exists s. split; [reflexivity|assumption].
  - exists ws. split; [|assumption]. cbn [app] in *. now rewrite <- E.
Qed.

Lemma rstrip_cons (a : Z) (r : pstr) :
  rstrip r = r -> r <> [] -> rstrip (a :: r) = a :: r.
Proof. intros H Hne. cbn [rstrip]. rewrite H. destruct r; congruence. Qed.

Lemma rstrip_cons_inv (a : Z) (r : pstr) :
  rstrip (a :: r) = a :: r -> r <> [] -> rstrip r = r.
Proof.
  cbn [rstrip]. intros H Hne. destruct (rstrip r) eqn:E.
  - destruct (is_space a); [discriminate|]. injection H as <-. congruence.
  - now injection H.
Qed.

Lemma rstrip_idem (s : pstr) : rstrip (rstrip s) = rstrip s.
Proof.
  induction s as [|c s IH]; [reflexivity|].
  cbn [rstrip]. destruct (rstrip s) as [|r rs] eqn:E.
  - destruct (is_space c) eqn:Ec; [reflexivity|]. cbn. now rewrite Ec.
  - apply rstrip_cons; [assumption|discriminate].
Qed.

Lemma rstrip_app (a b : pstr) : rstrip b = b -> b <> [] -> rstrip (a ++ b) = a ++ b.
Proof.
  intros H Hne. induction a as [|x a IH]; [assumption|].
  cbn [app]. apply rstrip_cons; [assumption|]. destruct a; [assumption|discriminate].
Qed.

Lemma rstrip_nonspace (s : pstr) : Forall nonspace s -> rstrip s = s.
Proof.
  induction 1 as [|c s Hc _ IH]; [reflexivity|].
  cbn [rstrip]. rewrite IH. destruct s; [|reflexivity].
  unfold nonspace in Hc. now rewrite Hc.
Qed.

Lemma lstrip_head (c : Z) (s : pstr) : is_space c = false -> lstrip (c :: s) = c :: s.
Proof. intros H. cbn. now rewrite H. Qed.

Lemma lstrip_idem (s : pstr) : lstrip (lstrip s) = lstrip s.
Proof.
  induction s as [|c s IH]; [reflexivity|].
  cbn [lstrip]. destruct (is_space c) eqn:E; [assumption|].
  now apply lstrip_head.
Qed.

Lemma lstrip_rstrip (s : pstr) : lstrip s = s -> lstrip (rstrip s) = rstrip s.
Proof.
  destruct s as [|c s]; [reflexivity|].
  cbn [lstrip]. destruct (is_space c) eqn:E.
  - intros H. exfalso. destruct (lstrip_split s) as (ws & Hs & _).
    apply (f_equal (@List.length Z)) in H, Hs.
    rewrite length_app in Hs. cbn [List.length] in H. lia.
  - intros _. cbn [rstrip]. destruct (rstrip s).
    + rewrite E. now apply lstrip_head.
    + now apply lstrip_head.
Qed.

Lemma strip_lstrip (s : pstr) : lstrip (strip s) = strip s.
Proof. unfold strip. apply lstrip_rstrip, lstrip_idem. Qed.

Lemma strip_rstrip (s : pstr) : rstrip (strip s) = strip s.
Proof. unfold strip. apply rstrip_idem. Qed.

Lemma strip_fixed (s : pstr) : lstrip s = s -> rstrip s = s -> strip s = s.
Proof. unfold strip. now intros -> ->. Qed.

Lemma strip_idem (s : pstr) : strip (strip s) = strip s.
Proof. apply strip_fixed; [apply strip_lstrip|apply strip_rstrip]. Qed.

Lemma strip_split (s : pstr) :
  exists ws1 ws2, s = ws1 ++ strip s ++ ws2 /\ spaces ws1 /\ spaces ws2.
Proof.
  destruct (lstrip_split s) as (ws1 & E1 & H1).
  destruct (rstrip_split (lstrip s)) as (ws2 & E2 & H2).
  exists ws1, ws2. unfold strip. now rewrite <- E2.
Qed.

(** *** Line boundaries *)

Lemma no_linebreak_app (a b : pstr) :
  no_linebreak a -> no_linebreak b -> no_linebreak (a ++ b).
Proof. intros Ha Hb. apply Forall_app. now split. Qed.

Lemma no_linebreak_lstrip (s : pstr) : no_linebreak s -> no_linebreak (lstrip s).
Proof.
  induction 1 as [|c s Hc Hs IH]; [constructor|].
  cbn [lstrip]. destruct (is_space c); [assumption|now constructor].
Qed.

Lemma no_linebreak_rstrip (s : pstr) : no_linebreak s -> no_linebreak (rstrip s).
Proof.
  induction 1 as [|c s Hc Hs IH]; [constructor|].
  cbn [rstrip]. destruct (rstrip s).
  - destruct (is_space c); repeat constructor; assumption.
  - now constructor.
Qed.

Lemma no_linebreak_strip (s : pstr) : no_linebreak s -> no_linebreak (strip s).
Proof. intros H. now apply no_linebreak_rstrip, no_linebreak_lstrip. Qed.

Lemma no_linebreak_skipn (n : nat) (s : pstr) : no_linebreak s -> no_linebreak (skipn n s).
Proof.
  intros H. revert n. induction H as [|c s Hc Hs IH]; intros [|n]; cbn;
    try constructor; auto.
Qed.

Lemma splitlines_no_linebreak (s : pstr) : Forall no_linebreak (splitlines s).
Proof.
  induction s as [|c s IH]; [constructor|].
  cbn [splitlines]. destruct (c =? 13) eqn:E13.
  - destruct s as [|c2 s]; [repeat constructor|].
    destruct (c2 =? 10) eqn:E10; [|constructor; [constructor|assumption]].
    apply Z.eqb_eq in E10. subst c2. cbn in IH.
    constructor; [constructor|]. now inversion IH.
  - destruct (is_linebreak c) eqn:Elb; [constructor; [constructor|assumption]|].
    destruct (splitlines s) as [|l ls]; [repeat constructor; assumption|].
    inversion IH; subst. constructor; [|assumption]. now constructor.
Qed.

Lemma splitlines_line (l rest : pstr) :
  no_linebreak l -> splitlines (l ++ 10 :: rest) = l :: splitlines rest.
Proof.
  induction 1 as [|c l Hc Hl IH]; [reflexivity|].
  cbn [app splitlines]. rewrite Hc, IH.
  replace (c =? 13) with false; [reflexivity|].
  symmetry. apply Z.eqb_neq. intros ->. discriminate Hc.
Qed.

(** The lines of a text put together by [join] are the lines it was made
    of. *)
Lemma splitlines_join (ls : list pstr) :
  ls <> [] -> Forall no_linebreak ls -> splitlines (join [10] ls ++ [10]) = ls.
Proof.
  intros Hne H. induction H as [|l ls Hl Hls IH]; [congruence|].
  destruct ls as [|l2 ls].
  - cbn [join]. now rewrite splitlines_line.
  - change (join [10] (l :: l2 :: ls)) with (l ++ [10] ++ join [10] (l2 :: ls)).
    rewrite <- !app_assoc. cbn [app].
    rewrite splitlines_line by assumption.
    f_equal. apply IH. discriminate.
Qed.

(** *** Searches *)

Lemma contains_skip (n : pstr) (c x : Z) (n' s : pstr) :
  n = c :: n' -> c <> x -> contains n (x :: s) = contains n s.
Proof.
  intros -> Hne. cbn [contains startswith].
  replace (c =? x) with false by lia. reflexivity.
Qed.

Lemma contains_here (n s : pstr) : contains n (n ++ s) = true.
Proof.
  destruct n; [destruct s; reflexivity|]. cbn [contains app].
  change (startswith (z :: n) (z :: n ++ s)) with (startswith (z :: n) ((z :: n) ++ s)).
  now rewrite startswith_app.
Qed.

Lemma contains_after_spaces (n : pstr) (c : Z) (n' ws s : pstr) :
  n = c :: n' -> is_space c = false -> spaces ws ->
  contains n (ws ++ s) = contains n s.
Proof.
  intros Hn Hc Hws. induction Hws as [|w ws Hw _ IH]; [reflexivity|].
  cbn [app]. rewrite (contains_skip n c w n') by (auto; congruence). exact IH.
Qed.

Lemma startswith_before_spaces (n : pstr) :
  n <> [] -> is_space (last n 0) = false ->
  forall s ws, spaces ws -> startswith n (s ++ ws) = true -> startswith n s = true.
Proof.
  induction n as [|a n IH]; [congruence|]. intros _ Hlast s ws Hws.
  destruct n as [|b n].
  - cbn [last] in Hlast. destruct s as [|y s]; cbn [app startswith].
    + destruct Hws as [|w ws Hw _]; [discriminate|].
      cbn [startswith]. intros H. apply andb_true_iff in H as [H _].
      apply Z.eqb_eq in H. congruence.
    + destruct (s ++ ws), s; auto.
  - specialize (IH ltac:(discriminate) Hlast).
    destruct s as [|y s].
    + cbn [app]. destruct Hws as [|w ws Hw Hws]; [discriminate|].
      cbn [startswith]. intros H. apply andb_true_iff in H as [_ H].
      specialize (IH [] ws Hws H). discriminate IH.
    + cbn [app]. cbn [startswith]. intros H. apply andb_true_iff in H as [H1 H2].
      rewrite H1. cbn [andb]. exact (IH s ws Hws H2).
Qed.

Lemma contains_before_spaces (n : pstr) :
  n <> [] -> is_space (last n 0) = false ->
  forall s ws, spaces ws -> contains n (s ++ ws) = true -> contains n s = true.
Proof.
  intros Hne Hlast s ws Hws. induction s as [|y s IH].
  - cbn [app]. intros H. exfalso. induction Hws as [|w ws Hw Hws IHws].
    + destruct n; [congruence|]. discriminate H.
    + cbn [contains] in H. apply orb_true_iff in H as [H|H]; [|auto].
      pose proof (startswith_before_spaces n Hne Hlast [] (w :: ws)
                    (Forall_cons _ Hw Hws) H) as H'.
      destruct n; [congruence|discriminate H'].
  - cbn [app contains]. intros H. apply orb_true_iff in H as [H|H].
    + change (y :: s ++ ws) with ((y :: s) ++ ws) in H.
      now rewrite (startswith_before_spaces n Hne Hlast _ _ Hws H).
    + rewrite (IH H). apply orb_true_r.
Qed.

(** *** Numbers as text *)

Lemma Forall_append {A} (P : A -> Prop) (l1 l2 : list A) :
  Forall P l1 -> Forall P l2 -> Forall P (l1 ++ l2).
Proof. intros H1 H2. apply Forall_app. now split. Qed.

Lemma printable_nonspace (c : Z) : printable c -> nonspace c.
Proof. unfold printable, nonspace, is_space, in_range. lia. Qed.

Lemma printable_scalar (c : Z) : printable c -> scalar c.
Proof. unfold printable, scalar. lia. Qed.

Lemma uint_chars_printable (d : Decimal.uint) : Forall printable (uint_chars d).
Proof.
  induction d; cbn [uint_chars]; constructor; auto; unfold printable; lia.
Qed.

Lemma uint_chars_nonempty (d : Decimal.uint) : d <> Decimal.Nil -> uint_chars d <> [].
Proof. destruct d; cbn; congruence. Qed.

Lemma nat_digits_nonempty (n : Z) : nat_digits n <> [].
Proof.
  unfold nat_digits. apply uint_chars_nonempty.
  destruct (Z.to_N n); [discriminate|]. apply Unsigned.to_uint_nonnil.
Qed.

Lemma str_of_int_printable (z : Z) : Forall printable (str_of_int z).
Proof.
  unfold str_of_int, nat_digits.
  destruct (z <? 0); [constructor; [unfold printable; lia|]|];
    apply uint_chars_printable.
Qed.

Lemma str_of_int_nonempty (z : Z) : str_of_int z <> [].
Proof.
  unfold str_of_int. destruct (z <? 0); [discriminate|apply nat_digits_nonempty].
Qed.

Lemma fmt_1f_printable (x : pyfloat) : Forall printable (fmt_1f x).
Proof.
  destruct x as [neg m e|neg|]; cbn [fmt_1f].
  - repeat apply Forall_append.
    + destruct neg; constructor; [unfold printable; lia|constructor].
    + apply uint_chars_printable.
    + constructor; [unfold printable; lia|].
      constructor; [|constructor]. unfold printable, digit_char.
      match goal with |- context [?n mod 10] =>
        pose proof (Z.mod_pos_bound n 10 ltac:(lia)) end.
      lia.
  - apply Forall_append.
    + destruct neg; constructor; [unfold printable; lia|constructor].
    + change (str "inf") with [105; 110; 102].
      repeat (constructor; [unfold printable; lia|]). constructor.
  - change (str "nan") with [110; 97; 110].
    repeat (constructor; [unfold printable; lia|]). constructor.
Qed.

Lemma fmt_1f_nonempty (x : pyfloat) : fmt_1f x <> [].
Proof.
  destruct x as [neg m e|neg|]; cbn [fmt_1f]; try discriminate.
  - destruct neg; cbn [app]; [discriminate|].
    intros H. apply app_eq_nil in H as [_ H]. discriminate.
  - destruct neg; discriminate.
Qed.

Lemma format_1f_printable (v : pynum) (s : pstr) :
  format_1f v = Ok s -> Forall printable s /\ s <> [].
Proof.
  destruct v as [z|x]; cbn [format_1f].
  - destruct (float_of_int z); cbn [bind]; [|discriminate].
    intros [= <-]. split; [apply fmt_1f_printable|apply fmt_1f_nonempty].
  - intros [= <-]. split; [apply fmt_1f_printable|apply fmt_1f_nonempty].
Qed.

Lemma printable_all_nonspace (s : pstr) : Forall printable s -> Forall nonspace s.
Proof. apply Forall_impl, printable_nonspace. Qed.

Lemma printable_all_scalar (s : pstr) : Forall printable s -> Forall scalar s.
Proof. apply Forall_impl, printable_scalar. Qed.

Lemma str_of_int_nonspace (z : Z) : Forall nonspace (str_of_int z).
Proof. apply printable_all_nonspace, str_of_int_printable. Qed.

Lemma format_1f_nonspace (v : pynum) (s : pstr) :
  format_1f v = Ok s -> Forall nonspace s /\ s <> [].
Proof.
  intros H. destruct (format_1f_printable v s H).
  split; [now apply printable_all_nonspace|assumption].
Qed.

Lemma nonspace_no_linebreaks (s : pstr) : Forall nonspace s -> no_linebreak s.
Proof. apply Forall_impl. intros c. apply nonspace_no_linebreak. Qed.

(** ** The preprocessor *)

Section PreprocessFacts.
Import XYZFileConverter.

(** The three ways through [convert_line]. *)
Lemma convert_line_spec (l : pstr) :
  (exists c rest, (c = 32 \/ c = 9)
                  /\ strip l = 71 :: 48 :: c :: rest
                  /\ convert_line l = 71 :: 49 :: c :: rest)
  \/ (strip l = [71; 48] /\ convert_line l = [71; 49])
  \/ (starts_with_G0_token (strip l) = false /\ convert_line l = strip l).
Proof.
  unfold convert_line, starts_with_G0_token.
  change (str "G0 ") with [71; 48; 32].
  change (str "G0" ++ [TAB]) with [71; 48; 9].
  change (str "G0" ++ [9]) with [71; 48; 9].
  change (str "G0") with [71; 48].
  change (str "G1") with [71; 49].
  destruct (strip l) as [|a [|b [|c rest]]]; cbn [startswith eqb skipn app andb orb];
    rewrite ?andb_true_r, ?andb_false_r, ?orb_false_r; cbn [orb andb].
  - right. right. auto.
  - right. right. auto.
  - destruct ((a =? 71) && (b =? 48)) eqn:E.
    + apply andb_true_iff in E as [Ea Eb].
      apply Z.eqb_eq in Ea, Eb. subst a b. right. left. auto.
    + right. right. auto.
  - destruct ((71 =? a) && ((48 =? b) && (32 =? c))
              || (71 =? a) && ((48 =? b) && (9 =? c))) eqn:E.
    + left. exists c, rest.
      assert (a = 71 /\ b = 48 /\ (c = 32 \/ c = 9)) as (-> & -> & Hc) by lia.
      auto.
    + right. right. auto.
Qed.

(** No line leaves [convert_line] with a [G0] token in front. *)
Lemma convert_line_no_token (l : pstr) :
  starts_with_G0_token (convert_line l) = false.
Proof.
  destruct (convert_line_spec l) as [(c & rest & Hc & _ & ->)|[(_ & ->)|(H & ->)]].
  - reflexivity.
  - reflexivity.
  - assumption.
Qed.

Lemma convert_line_fixed (s : pstr) :
  strip s = s -> starts_with_G0_token s = false -> convert_line s = s.
Proof.
  intros Hs Ht.
  destruct (convert_line_spec s) as [(c & rest & Hc & E & _)|[(E & _)|(_ & ->)]].
  - rewrite Hs in E. subst s. exfalso. revert Ht.
    unfold starts_with_G0_token.
    change (str "G0 ") with [71; 48; 32].
    change (str "G0" ++ [9]) with [71; 48; 9].
    cbn [startswith]. rewrite !Z.eqb_refl. destruct Hc as [-> | ->]; discriminate.
  - rewrite Hs in E. subst s. discriminate Ht.
  - assumption.
Qed.

Lemma convert_line_stripped (l : pstr) : strip (convert_line l) = convert_line l.
Proof.
  destruct (convert_line_spec l) as [(c & rest & Hc & E & ->)|[(_ & ->)|(_ & ->)]].
  - pose proof (strip_rstrip l) as Hr. rewrite E in Hr.
    apply rstrip_cons_inv in Hr; [|discriminate].
    apply rstrip_cons_inv in Hr; [|discriminate].
    apply strip_fixed; [reflexivity|].
    repeat (apply rstrip_cons; [|discriminate]). assumption.
  - reflexivity.
  - apply strip_idem.
Qed.


Lemma convert_line_no_linebreak (l : pstr) :
  no_linebreak l -> no_linebreak (convert_line l).
Proof.
  intros H. apply no_linebreak_strip in H.
  destruct (convert_line_spec l) as [(c & rest & Hc & E & ->)|[(_ & ->)|(_ & ->)]].
  - rewrite E in H. inversion H as [|? ? _ H1]; subst.
    inversion H1 as [|? ? _ H2]; subst.
    constructor; [reflexivity|]. constructor; [reflexivity|]. exact H2.
  - repeat constructor.
  - assumption.
Qed.

Lemma NEEDLE_cons : NEEDLE = 59 :: str " machine".
Proof. reflexivity. Qed.

Lemma needle_strip (l : pstr) :
  contains NEEDLE (lower l) = true -> contains NEEDLE (lower (strip l)) = true.
Proof.
  destruct (strip_split l) as (ws1 & ws2 & E & H1 & H2).
  intros H. rewrite E, !lower_app, (lower_spaces ws1), (lower_spaces ws2) in H by assumption.
  rewrite (contains_after_spaces NEEDLE 59 _ ws1 _ NEEDLE_cons eq_refl H1) in H.
  apply (contains_before_spaces NEEDLE) in H; auto; discriminate.
Qed.

(** The machine comment survives [convert_line]. *)
Lemma convert_line_keeps_needle (l : pstr) :
  contains NEEDLE (lower l) = true ->
  contains NEEDLE (lower (convert_line l)) = true.
Proof.
  intros H. apply needle_strip in H.
  destruct (convert_line_spec l) as [(c & rest & Hc & E & ->)|[(E & ->)|(_ & ->)]].
  - rewrite E in H.
    change (lower (71 :: 48 :: c :: rest)) with (103 :: 48 :: lower (c :: rest)) in H.
    change (lower (71 :: 49 :: c :: rest)) with (103 :: 49 :: lower (c :: rest)).
    rewrite !(contains_skip NEEDLE 59 _ _ _ NEEDLE_cons) in H by lia.
    rewrite !(contains_skip NEEDLE 59 _ _ _ NEEDLE_cons) by lia.
    assumption.
  - rewrite E in H. discriminate H.
  - assumption.
Qed.

Lemma has_machine_convert (lines : list pstr) :
  has_machine lines = true -> has_machine (map convert_line lines) = true.
Proof.
  unfold has_machine. rewrite firstn_map.
  generalize (firstn 50 lines). intros ls.
  induction ls as [|l ls IH]; [discriminate|].
  cbn [existsb map]. intros H. apply orb_true_iff in H as [H|H].
  - fold NEEDLE in *. now rewrite (convert_line_keeps_needle l H).
  - rewrite (IH H). apply orb_true_r.
Qed.

Lemma has_machine_nonempty (lines : list pstr) : has_machine lines = true -> lines <> [].
Proof. destruct lines; [discriminate|discriminate]. Qed.

(** *** The injected header *)

Lemma comment_line_fixed (prefix tail : pstr) :
  rstrip tail = tail -> tail <> [] ->
  convert_line (59 :: prefix ++ tail) = 59 :: prefix ++ tail.
Proof.
  intros Hr Hne. apply convert_line_fixed; [|reflexivity].
  apply strip_fixed; [reflexivity|].
  change (59 :: prefix ++ tail) with ((59 :: prefix) ++ tail).
  now apply rstrip_app.
Qed.

Lemma xyz_header_lines (self : XYZFileConverter) (t : Z) (f : pynum) (hs : list pstr) :
  xyz_header self t f = Ok hs ->
  (no_linebreak (model_number self) -> Forall no_linebreak hs)
  /\ (tidy (model_number self) -> map convert_line hs = hs)
  /\ Forall (fun h => is_comment h = true \/ h = []) hs
  /\ has_machine (hs ++ []) = true
  /\ hs <> [].
Proof.
  unfold xyz_header. destruct (format_1f f) as [ff|e] eqn:Ef; [|discriminate].
  cbn [bind]. intros [= <-].
  destruct (format_1f_nonspace f ff Ef) as [Hff Hffne].
  repeat split.
  - intros HM. repeat constructor.
    + exact HM.
    + apply nonspace_no_linebreaks, str_of_int_nonspace.
    + now apply nonspace_no_linebreaks.
  - intros (Hne & Hr & _). cbn [map].
    apply (f_equal2 (@cons pstr)); [exact (comment_line_fixed (str " machine = ") (model_number self) Hr Hne)|].
    apply (f_equal2 (@cons pstr)); [exact (comment_line_fixed (str " print_time = ") (str_of_int t)
                       (rstrip_nonspace _ (str_of_int_nonspace t))
                       (str_of_int_nonempty t))|].
    apply (f_equal2 (@cons pstr)); [exact (comment_line_fixed (str " total_filament = ") ff
                       (rstrip_nonspace _ Hff) Hffne)|].
    reflexivity.
  - repeat (constructor; [first [left; reflexivity | right; reflexivity]|]).
    constructor.
  - discriminate.
Qed.

Lemma firstn_app_in {A} (n : nat) (x : A) (hs ls : list A) :
  In x (firstn n hs) -> In x (firstn n (hs ++ ls)).
Proof.
  revert hs. induction n as [|n IH]; intros [|h hs]; cbn [firstn app In];
    try contradiction.
  intros [->|Hin]; auto.
Qed.

Lemma has_machine_app (hs ls : list pstr) :
  has_machine (hs ++ []) = true -> has_machine (hs ++ ls) = true.
Proof.
  rewrite app_nil_r. unfold has_machine. intros H.
  apply existsb_exists in H as (l & Hin & Hl).
  apply existsb_exists. exists l. split; [|assumption].
  now apply firstn_app_in.
Qed.

(** What the preprocessor returns: the lines of its result. *)
Lemma preprocess_lines (self : XYZFileConverter) (gcode : pstr) (t : Z) (f : pynum)
    (processed : pstr) :
  _preprocess_gcode self gcode t f = Ok processed ->
  exists hs,
    processed = join [10] (hs ++ map convert_line (splitlines gcode)) ++ [10]
    /\ hs ++ map convert_line (splitlines gcode) <> []
    /\ has_machine (hs ++ map convert_line (splitlines gcode)) = true
    /\ Forall (fun h => is_comment h = true \/ h = []) hs
    /\ (no_linebreak (model_number self) -> Forall no_linebreak hs)
    /\ (tidy (model_number self) -> map convert_line hs = hs).
Proof.
  unfold _preprocess_gcode. destruct (has_machine (splitlines gcode)) eqn:Hm; cbn [negb].
  - cbn [bind]. intros [= <-]. exists []. cbn [app map].
    repeat split; auto.
    + apply has_machine_nonempty in Hm. destruct (splitlines gcode); [congruence|discriminate].
    + now apply has_machine_convert.
  - destruct (xyz_header self t f) as [hs|e] eqn:Eh; [|discriminate].
    cbn [bind]. intros [= <-]. exists hs.
    destruct (xyz_header_lines self t f hs Eh) as (H1 & H2 & H3 & H4 & H5).
    repeat split; auto.
    + destruct hs; [congruence|discriminate].
    + now apply has_machine_app.
Qed.

Lemma preprocess_splitlines (self : XYZFileConverter) (gcode : pstr) (t : Z) (f : pynum)
    (processed : pstr) :
  no_linebreak (model_number self) ->
  _preprocess_gcode self gcode t f = Ok processed ->
  exists hs,
    splitlines processed = hs ++ map convert_line (splitlines gcode)
    /\ processed = join [10] (hs ++ map convert_line (splitlines gcode)) ++ [10]
    /\ has_machine (splitlines processed) = true
    /\ Forall (fun h => is_comment h = true \/ h = []) hs
    /\ (tidy (model_number self) -> map convert_line hs = hs).
Proof.
  intros HM H.
  destruct (preprocess_lines self gcode t f processed H)
    as (hs & E & Hne & Hm & Hc & Hlb & Hfix).
  exists hs.
  assert (Hs : splitlines processed = hs ++ map convert_line (splitlines gcode)).
  { rewrite E. apply splitlines_join; [assumption|].
    apply Forall_append; [auto|].
    apply Forall_forall. intros l Hin. apply in_map_iff in Hin as (l0 & <- & Hin0).
    apply convert_line_no_linebreak.
    pose proof (splitlines_no_linebreak gcode) as Hall.
    rewrite Forall_forall in Hall. auto. }
  rewrite Hs. auto.
Qed.

Lemma miniMaker_tidy : tidy (model_number miniMaker).
Proof.
  split; [discriminate|]. split; [reflexivity|].
  repeat (constructor; [reflexivity|]). constructor.
Qed.

(** A [G0] that runs into the next word is no token of its own: the line
    is left as it is. *)
Example convert_line_G0X10 : convert_line (str "  G0X10 ") = str "G0X10".
Proof. reflexivity. Qed.

Example convert_line_G0_X10 : convert_line (str "  G0 X10 ") = str "G1 X10".
Proof. reflexivity. Qed.

(** C8. No line of the preprocessor's output that is not a comment opens
    with a [G0] token. *)
Theorem C8_no_G0_token_left (self : XYZFileConverter) (gcode : pstr) (t : Z)
    (f : pynum) (processed line : pstr) :
  no_linebreak (model_number self) ->
  _preprocess_gcode self gcode t f = Ok processed ->
  In line (splitlines processed) ->
  is_comment line = false ->
  starts_with_G0_token line = false.
Proof.
  intros HM H Hin _.
  destruct (preprocess_splitlines self gcode t f processed HM H)
    as (hs & Hs & _ & _ & Hc & _).
  rewrite Hs in Hin. apply in_app_or in Hin as [Hin|Hin].
  - rewrite Forall_forall in Hc. destruct (Hc line Hin) as [Hcm| ->]; [|reflexivity].
    destruct line as [|c line]; [reflexivity|].
    unfold is_comment in Hcm. change (str ";") with [59] in Hcm.
    cbn [startswith] in Hcm. apply andb_true_iff in Hcm as [Hcm _].
    apply Z.eqb_eq in Hcm. subst c. reflexivity.
  - apply in_map_iff in Hin as (l0 & <- & _). apply convert_line_no_token.
Qed.

Lemma C8_no_G0_token_left_witness :
  _preprocess_gcode miniMaker sample_gcode 3600 (PyInt 1000) = Ok sample_processed
  /\ In (str "G1 X10 Y20") (splitlines sample_processed)
  /\ is_comment (str "G1 X10 Y20") = false
  /\ starts_with_G0_token (str "G1 X10 Y20") = false.
Proof.
  assert (Hin : In (str "G1 X10 Y20") (splitlines sample_processed))
    by (cbv; do 8 right; left; reflexivity).
  split; [reflexivity|]. split; [exact Hin|]. split; [reflexivity|].
  exact (C8_no_G0_token_left miniMaker sample_gcode 3600 (PyInt 1000)
           sample_processed (str "G1 X10 Y20")
           (proj2 (proj2 miniMaker_tidy)) eq_refl Hin eq_refl).
Defined.



End PreprocessFacts.

(** ** Text codecs *)

Lemma utf8_encode_cp_scalar (c : Z) :
  scalar c -> exists bs, utf8_encode_cp c = Some bs.
Proof.
  unfold scalar. intros H. unfold utf8_encode_cp, in_range.
  replace (c <? 0) with false by lia.
  destruct (c <? 128); [eauto|]. destruct (c <? 2048); [eauto|].
  destruct (c <? 65536) eqn:E.
  - replace ((55296 <=? c) && (c <=? 57343)) with false by lia. eauto.
  - replace (c <? 1114112) with true by lia. eauto.
Qed.

Lemma second_ok_3 (c : Z) :
  2048 <= c < 65536 -> ~ 55296 <= c <= 57343 ->
  second_ok (224 + c / 4096) (128 + (c / 64) mod 64) = true.
Proof.
  intros H1 H2. unfold second_ok, is_cont, in_range.
  destruct (224 + c / 4096 =? 224) eqn:E1;
    [|destruct (224 + c / 4096 =? 237) eqn:E2;
      [|destruct (224 + c / 4096 =? 240) eqn:E3;
        [|destruct (224 + c / 4096 =? 244) eqn:E4]]];
    Z.div_mod_to_equations; lia.
Qed.

Lemma second_ok_4 (c : Z) :
  65536 <= c < 1114112 ->
  second_ok (240 + c / 262144) (128 + (c / 4096) mod 64) = true.
Proof.
  intros H1. unfold second_ok, is_cont, in_range.
  destruct (240 + c / 262144 =? 224) eqn:E1;
    [|destruct (240 + c / 262144 =? 237) eqn:E2;
      [|destruct (240 + c / 262144 =? 240) eqn:E3;
        [|destruct (240 + c / 262144 =? 244) eqn:E4]]];
    Z.div_mod_to_equations; lia.
Qed.

Lemma utf8_decode_replace_cons (b0 : Z) (r0 : bytes) :
  utf8_decode_replace (b0 :: r0) =
    if b0 <? 128 then b0 :: utf8_decode_replace r0
    else if in_range 194 223 b0 then
      match r0 with
      | [] => [REPLACEMENT]
      | b1 :: r1 =>
        if is_cont b1
        then ((b0 - 192) * 64 + (b1 - 128)) :: utf8_decode_replace r1
        else REPLACEMENT :: utf8_decode_replace r0
      end
    else if in_range 224 239 b0 then
      match r0 with
      | [] => [REPLACEMENT]
      | b1 :: r1 =>
        if second_ok b0 b1 then
          match r1 with
          | [] => [REPLACEMENT]
          | b2 :: r2 =>
            if is_cont b2
            then ((b0 - 224) * 4096 + (b1 - 128) * 64 + (b2 - 128))
                   :: utf8_decode_replace r2
            else REPLACEMENT :: utf8_decode_replace r1
          end
        else REPLACEMENT :: utf8_decode_replace r0
      end
    else if in_range 240 244 b0 then
      match r0 with
      | [] => [REPLACEMENT]
      | b1 :: r1 =>
        if second_ok b0 b1 then
          match r1 with
          | [] => [REPLACEMENT]
          | b2 :: r2 =>
            if is_cont b2 then
              match r2 with
              | [] => [REPLACEMENT]
              | b3 :: r3 =>
                if is_cont b3
                then ((b0 - 240) * 262144 + (b1 - 128) * 4096
                      + (b2 - 128) * 64 + (b3 - 128))
                       :: utf8_decode_replace r3
                else REPLACEMENT :: utf8_decode_replace r2
              end
            else REPLACEMENT :: utf8_decode_replace r1
          end
        else REPLACEMENT :: utf8_decode_replace r0
      end
    else REPLACEMENT :: utf8_decode_replace r0.
Proof. reflexivity. Qed.

Lemma some_eq {A} (a b : A) : Some a = Some b -> a = b.
Proof. now intros [= ->]. Qed.

(** Decoding what was encoded gives the code point back. *)
Lemma utf8_decode_encode_cp (c : Z) (bs rest : bytes) :
  utf8_encode_cp c = Some bs ->
  utf8_decode_replace (bs ++ rest) = c :: utf8_decode_replace rest.
Proof.
  unfold utf8_encode_cp. destruct (c <? 0) eqn:E0; [discriminate|].
  destruct (c <? 128) eqn:E1; [|destruct (c <? 2048) eqn:E2;
    [|destruct (c <? 65536) eqn:E3; [|destruct (c <? 1114112) eqn:E4]]].
  - intros H. apply some_eq in H. subst bs. cbn [app]. rewrite utf8_decode_replace_cons. now rewrite E1.
  - intros H. apply some_eq in H. subst bs. cbn [app]. rewrite utf8_decode_replace_cons. cbv beta iota.
    replace (192 + c / 64 <? 128) with false by (Z.div_mod_to_equations; lia).
    replace (in_range 194 223 (192 + c / 64)) with true
      by (unfold in_range; Z.div_mod_to_equations; lia).
    replace (is_cont (128 + c mod 64)) with true
      by (unfold is_cont, in_range; Z.div_mod_to_equations; lia).
    f_equal. Z.div_mod_to_equations. lia.
  - destruct (in_range 55296 57343 c) eqn:Es; [discriminate|].
    intros H. apply some_eq in H. subst bs. cbn [app]. rewrite utf8_decode_replace_cons. cbv beta iota.
    replace (224 + c / 4096 <? 128) with false by (Z.div_mod_to_equations; lia).
    replace (in_range 194 223 (224 + c / 4096)) with false
      by (unfold in_range; Z.div_mod_to_equations; lia).
    replace (in_range 224 239 (224 + c / 4096)) with true
      by (unfold in_range; Z.div_mod_to_equations; lia).
    rewrite second_ok_3 by (unfold in_range in Es; lia).
    replace (is_cont (128 + c mod 64)) with true
      by (unfold is_cont, in_range; Z.div_mod_to_equations; lia).
    f_equal. Z.div_mod_to_equations. lia.
  - intros H. apply some_eq in H. subst bs. cbn [app]. rewrite utf8_decode_replace_cons. cbv beta iota.
    replace (240 + c / 262144 <? 128) with false by (Z.div_mod_to_equations; lia).
    replace (in_range 194 223 (240 + c / 262144)) with false
      by (unfold in_range; Z.div_mod_to_equations; lia).
    replace (in_range 224 239 (240 + c / 262144)) with false
      by (unfold in_range; Z.div_mod_to_equations; lia).
    replace (in_range 240 244 (240 + c / 262144)) with true
      by (unfold in_range; Z.div_mod_to_equations; lia).
    rewrite second_ok_4 by lia.
    replace (is_cont (128 + (c / 64) mod 64)) with true
      by (unfold is_cont, in_range; Z.div_mod_to_equations; lia).
    replace (is_cont (128 + c mod 64)) with true
      by (unfold is_cont, in_range; Z.div_mod_to_equations; lia).
    f_equal. Z.div_mod_to_equations. lia.
  - discriminate.
Qed.

Lemma utf8_decode_encode (s : pstr) (b : bytes) :
  utf8_encode s = Ok b -> utf8_decode_replace b = s.
Proof.
  revert b. induction s as [|c s IH]; intros b; cbn [utf8_encode].
  - now intros [= <-].
  - destruct (utf8_encode_cp c) as [bs|] eqn:Ec; [|discriminate].
    destruct (utf8_encode s) as [r|e]; cbn [bind]; [|discriminate].
    intros [= <-]. rewrite (utf8_decode_encode_cp c bs r Ec). now rewrite (IH r).
Qed.

Lemma utf8_encode_scalar (s : pstr) :
  Forall scalar s -> exists b, utf8_encode s = Ok b.
Proof.
  induction 1 as [|c s Hc _ (r & IH)]; [now exists []|].
  destruct (utf8_encode_cp_scalar c Hc) as [bs Hbs].
  exists (bs ++ r). cbn [utf8_encode]. now rewrite Hbs, IH.
Qed.

Lemma utf8_encode_raises (s : pstr) (e : exn) :
  utf8_encode s = Raise e -> e = "UnicodeEncodeError"%string.
Proof.
  induction s as [|c s IH]; cbn [utf8_encode]; [discriminate|].
  destruct (utf8_encode_cp c); [|now intros [= <-]].
  destruct (utf8_encode s); cbn [bind]; [discriminate|].
  intros [= <-]. now apply IH.
Qed.

(** ** The container *)

Section CodecFacts.
Import XYZFileConverter.

(** *** Packed integers and byte buffers *)

Lemma pack_u32_le_ok (v : Z) : 0 <= v <= U32_MAX -> pack_u32_le v = Ok (le32 v).
Proof.
  intros H. unfold pack_u32_le, in_range.
  replace ((0 <=? v) && (v <=? U32_MAX)) with true by lia. reflexivity.
Qed.

Lemma pack_u32_le_raise (v : Z) :
  ~ 0 <= v <= U32_MAX -> pack_u32_le v = Raise "struct.error".
Proof.
  intros H. unfold pack_u32_le, in_range.
  replace ((0 <=? v) && (v <=? U32_MAX)) with false by lia. reflexivity.
Qed.

Lemma pack_u32_le_cases (v : Z) :
  (0 <= v <= U32_MAX /\ pack_u32_le v = Ok (le32 v))
  \/ (~ 0 <= v <= U32_MAX /\ pack_u32_le v = Raise "struct.error").
Proof.
  destruct (Z_le_dec 0 v); [destruct (Z_le_dec v U32_MAX)|].
  - left. split; [lia|]. apply pack_u32_le_ok. lia.
  - right. split; [lia|]. apply pack_u32_le_raise. lia.
  - right. split; [lia|]. apply pack_u32_le_raise. lia.
Qed.

Lemma le32_value (v : Z) :
  0 <= v <= U32_MAX ->
  v mod 256 + 256 * ((v / 256) mod 256) + 65536 * ((v / 65536) mod 256)
  + 16777216 * ((v / 16777216) mod 256) = v.
Proof. unfold U32_MAX. intros H. Z.div_mod_to_equations. lia. Qed.

Lemma length_set_slice (buf : bytes) (off : nat) (bs : bytes) :
  (off + List.length bs <= List.length buf)%nat ->
  List.length (set_slice buf off bs) = List.length buf.
Proof.
  intros H. unfold set_slice.
  rewrite !length_app, length_firstn, length_skipn. lia.
Qed.

Lemma byte_at_set_slice_other (buf : bytes) (off : nat) (bs : bytes) (i : nat) :
  (i < off \/ off + List.length bs <= i)%nat ->
  (off + List.length bs <= List.length buf)%nat ->
  byte_at (set_slice buf off bs) i = byte_at buf i.
Proof.
  intros Hi H. unfold byte_at, set_slice.
  assert (Hf : List.length (firstn off buf) = off) by (rewrite length_firstn; lia).
  destruct Hi as [Hi|Hi].
  - rewrite app_nth1 by lia. rewrite nth_firstn.
    replace (i <? off)%nat with true; [reflexivity|].
    symmetry. apply Nat.ltb_lt. exact Hi.
  - rewrite app_nth2 by lia. rewrite app_nth2 by lia.
    rewrite nth_skipn, Hf. f_equal. lia.
Qed.

Lemma byte_at_set_slice_in (buf : bytes) (off : nat) (bs : bytes) (i : nat) :
  (off + List.length bs <= List.length buf)%nat ->
  (i < List.length bs)%nat ->
  byte_at (set_slice buf off bs) (off + i) = nth i bs 0.
Proof.
  intros H Hi. unfold byte_at, set_slice.
  assert (Hf : List.length (firstn off buf) = off) by (rewrite length_firstn; lia).
  rewrite app_nth2 by lia. rewrite app_nth1 by lia. f_equal. lia.
Qed.

Lemma unpack_set_slice_other (buf : bytes) (off : nat) (bs : bytes) (k : nat) :
  (k + 4 <= off \/ off + List.length bs <= k)%nat ->
  (off + List.length bs <= List.length buf)%nat ->
  unpack_u32_le (set_slice buf off bs) k = unpack_u32_le buf k.
Proof.
  intros Hk H. unfold unpack_u32_le.
  rewrite !byte_at_set_slice_other by lia. reflexivity.
Qed.

Lemma unpack_set_slice_same (buf : bytes) (off : nat) (v : Z) :
  (off + 4 <= List.length buf)%nat -> 0 <= v <= U32_MAX ->
  unpack_u32_le (set_slice buf off (le32 v)) off = v.
Proof.
  intros H Hv. unfold unpack_u32_le.
  rewrite <- (Nat.add_0_r off) at 2.
  rewrite !byte_at_set_slice_in by (cbn [le32 List.length]; lia).
  cbn [le32 nth]. now apply le32_value.
Qed.

Lemma unpack_app (h e : bytes) (k : nat) :
  (k + 4 <= List.length h)%nat -> unpack_u32_le (h ++ e) k = unpack_u32_le h k.
Proof.
  intros H. unfold unpack_u32_le, byte_at. now rewrite !app_nth1 by lia.
Qed.

Lemma firstn_set_slice_other (buf : bytes) (off : nat) (bs : bytes) (n : nat) :
  (n <= off)%nat -> (off <= List.length buf)%nat ->
  firstn n (set_slice buf off bs) = firstn n buf.
Proof.
  intros Hn H. unfold set_slice.
  rewrite firstn_app, firstn_firstn, length_firstn.
  replace (n - Nat.min off (List.length buf))%nat with 0%nat by lia.
  replace (Nat.min n off) with n by lia.
  cbn [firstn]. apply app_nil_r.
Qed.

Lemma firstn_set_slice_same (buf : bytes) (bs : bytes) :
  firstn (List.length bs) (set_slice buf 0 bs) = bs.
Proof.
  unfold set_slice. cbn [firstn app].
  rewrite firstn_app, firstn_all, Nat.sub_diag. cbn [firstn]. apply app_nil_r.
Qed.

(** *** Padding *)

Lemma pad_len_range (data : bytes) : 1 <= pad_len data <= 16.
Proof. unfold pad_len. Z.div_mod_to_equations. lia. Qed.

Lemma pkcs7_pad_16 (data : bytes) :
  _pkcs7_pad data 16 = data ++ repeat (pad_len data) (Z.to_nat (pad_len data)).
Proof.
  unfold _pkcs7_pad. fold (pad_len data).
  pose proof (pad_len_range data).
  replace (pad_len data =? 0) with false by lia. reflexivity.
Qed.

Lemma len_pkcs7_pad (data : bytes) :
  len (_pkcs7_pad data 16) = len data + pad_len data
  /\ len (_pkcs7_pad data 16) mod 16 = 0.
Proof.
  rewrite pkcs7_pad_16. unfold len. rewrite length_app, repeat_length.
  pose proof (pad_len_range data) as H.
  split; [lia|]. unfold pad_len, len in *.
  rewrite Nat2Z.inj_add, Z2Nat.id by lia.
  Z.div_mod_to_equations. lia.
Qed.

Lemma forallb_repeat (f : Z -> bool) (x : Z) (n : nat) :
  f x = true -> forallb f (repeat x n) = true.
Proof. intros H. induction n; cbn; [reflexivity|]. now rewrite H. Qed.

(** The padding put on by [_pkcs7_pad] is the one the decoder takes off. *)
Lemma strip_padding_pad (data : bytes) :
  strip_padding (_pkcs7_pad data 16) = data.
Proof.
  rewrite pkcs7_pad_16. pose proof (pad_len_range data) as H.
  set (p := pad_len data) in *.
  destruct (Z.to_nat p) as [|k] eqn:Ek; [lia|].
  assert (Hlast : last (data ++ repeat p (S k)) 0 = p).
  { change (repeat p (S k)) with (p :: repeat p k).
    rewrite repeat_cons, app_assoc. apply last_last. }
  unfold strip_padding.
  destruct (data ++ repeat p (S k)) as [|x l] eqn:El.
  { destruct data; discriminate El. }
  rewrite <- El in *. clear El x l. rewrite Hlast.
  unfold last_n, drop_last_n.
  assert (Hskip : (List.length (data ++ repeat p (S k)) - Z.to_nat p
                   = List.length data)%nat).
  { rewrite length_app, repeat_length. lia. }
  rewrite Hskip, skipn_app, skipn_all, Nat.sub_diag.
  cbn [skipn app].
  rewrite forallb_repeat by apply Z.eqb_refl.
  replace ((0 <? p) && (p <=? 16)) with true by lia. cbn [andb].
  rewrite firstn_app, firstn_all, Nat.sub_diag. cbn [firstn]. apply app_nil_r.
Qed.

(** *** The header *)

Lemma build_header_ok (self : XYZFileConverter) (body_size encrypted_size t : Z)
    (f : pynum) (fi : Z) :
  ascii (model_number self) ->
  0 <= encrypted_size <= U32_MAX ->
  0 <= body_size <= U32_MAX ->
  0 <= t <= U32_MAX ->
  int_of_num f = Ok fi ->
  0 <= fi <= U32_MAX ->
  exists h, _build_header self body_size encrypted_size t f = Ok h
            /\ header_fields self body_size encrypted_size t fi h.
Proof.
  intros HM He Hb Ht Hf Hfi.
  unfold _build_header, pack_into_u32.
  rewrite (pack_u32_le_ok 2) by (unfold U32_MAX; lia). cbn [bind].
  rewrite (ascii_encode_ok _ HM). cbn [bind].
  rewrite (pack_u32_le_ok HEADER_SIZE) by (unfold U32_MAX, HEADER_SIZE; lia). cbn [bind].
  rewrite (pack_u32_le_ok encrypted_size) by assumption. cbn [bind].
  rewrite (pack_u32_le_ok body_size) by assumption. cbn [bind].
  rewrite (pack_u32_le_ok t) by assumption. cbn [bind].
  rewrite Hf. cbn [bind].
  rewrite (pack_u32_le_ok fi) by assumption. cbn [bind].
  rewrite (pack_u32_le_ok (if use_ecb self then 2 else 1))
    by (unfold U32_MAX; destruct (use_ecb self); lia).
  cbn [bind].
  eexists. split; [reflexivity|].
  set (h0 := repeat 0 (Z.to_nat HEADER_SIZE)).
  assert (L0 : List.length h0 = Z.to_nat 8192) by apply repeat_length.
  set (h1 := set_slice h0 0 MAGIC).
  assert (LM : List.length MAGIC = 16%nat) by reflexivity.
  assert (L1 : List.length h1 = Z.to_nat 8192)
    by (unfold h1; rewrite length_set_slice; lia).
  set (h2 := set_slice h1 16 (le32 2)).
  assert (L4 : forall v, List.length (le32 v) = 4%nat) by reflexivity.
  assert (L2 : List.length h2 = Z.to_nat 8192)
    by (unfold h2; rewrite length_set_slice; rewrite ?L4; lia).
  set (mb := firstn 32 (model_number self)).
  assert (Lmb : (List.length mb <= 32)%nat) by (unfold mb; rewrite length_firstn; lia).
  set (h3 := set_slice h2 32 mb).
  assert (L3 : List.length h3 = Z.to_nat 8192)
    by (unfold h3; rewrite length_set_slice; lia).
  set (h4 := set_slice h3 80 (le32 HEADER_SIZE)).
  assert (L4' : List.length h4 = Z.to_nat 8192)
    by (unfold h4; rewrite length_set_slice; rewrite ?L4; lia).
  set (h5 := set_slice h4 84 (le32 encrypted_size)).
  assert (L5 : List.length h5 = Z.to_nat 8192)
    by (unfold h5; rewrite length_set_slice; rewrite ?L4; lia).
  set (h6 := set_slice h5 88 (le32 body_size)).
  assert (L6 : List.length h6 = Z.to_nat 8192)
    by (unfold h6; rewrite length_set_slice; rewrite ?L4; lia).
  set (h7 := set_slice h6 96 (le32 t)).
  assert (L7 : List.length h7 = Z.to_nat 8192)
    by (unfold h7; rewrite length_set_slice; rewrite ?L4; lia).
  set (h8 := set_slice h7 100 (le32 fi)).
  assert (L8 : List.length h8 = Z.to_nat 8192)
    by (unfold h8; rewrite length_set_slice; rewrite ?L4; lia).
  set (h9 := set_slice h8 104 (le32 (if use_ecb self then 2 else 1))).
  assert (L9 : List.length h9 = Z.to_nat 8192)
    by (unfold h9; rewrite length_set_slice; rewrite ?L4; lia).
  constructor.
  - exact L9.
  - unfold h9. rewrite firstn_set_slice_other by lia.
    unfold h8. rewrite firstn_set_slice_other by lia.
    unfold h7. rewrite firstn_set_slice_other by lia.
    unfold h6. rewrite firstn_set_slice_other by lia.
    unfold h5. rewrite firstn_set_slice_other by lia.
    unfold h4. rewrite firstn_set_slice_other by lia.
    unfold h3. rewrite firstn_set_slice_other by lia.
    unfold h2. rewrite firstn_set_slice_other by lia.
    unfold h1. rewrite <- LM. apply firstn_set_slice_same.
  - unfold h9. rewrite unpack_set_slice_other by (rewrite ?L4; lia).
    unfold h8. rewrite unpack_set_slice_other by (rewrite ?L4; lia).
    unfold h7. rewrite unpack_set_slice_other by (rewrite ?L4; lia).
    unfold h6. rewrite unpack_set_slice_other by (rewrite ?L4; lia).
    unfold h5. rewrite unpack_set_slice_other by (rewrite ?L4; lia).
    unfold h4. apply unpack_set_slice_same; [lia|unfold U32_MAX, HEADER_SIZE; lia].
  - unfold h9. rewrite unpack_set_slice_other by (rewrite ?L4; lia).
    unfold h8. rewrite unpack_set_slice_other by (rewrite ?L4; lia).
    unfold h7. rewrite unpack_set_slice_other by (rewrite ?L4; lia).
    unfold h6. rewrite unpack_set_slice_other by (rewrite ?L4; lia).
    unfold h5. apply unpack_set_slice_same; [lia|assumption].
  - unfold h9. rewrite unpack_set_slice_other by (rewrite ?L4; lia).
    unfold h8. rewrite unpack_set_slice_other by (rewrite ?L4; lia).
    unfold h7. rewrite unpack_set_slice_other by (rewrite ?L4; lia).
    unfold h6. apply unpack_set_slice_same; [lia|assumption].
  - unfold h9. rewrite unpack_set_slice_other by (rewrite ?L4; lia).
    unfold h8. rewrite unpack_set_slice_other by (rewrite ?L4; lia).
    unfold h7. apply unpack_set_slice_same; [lia|assumption].
  - unfold h9. rewrite unpack_set_slice_other by (rewrite ?L4; lia).
    unfold h8. apply unpack_set_slice_same; [lia|assumption].
  - unfold h9. apply unpack_set_slice_same;
      [lia|unfold U32_MAX; destruct (use_ecb self); lia].
Qed.

(** *** Characters that pass through the preprocessor *)

Lemma Forall_lstrip (P : Z -> Prop) (s : pstr) : Forall P s -> Forall P (lstrip s).
Proof.
  induction 1 as [|c s Hc Hs IH]; [constructor|].
  cbn [lstrip]. destruct (is_space c); [assumption|now constructor].
Qed.

Lemma Forall_rstrip (P : Z -> Prop) (s : pstr) : Forall P s -> Forall P (rstrip s).
Proof.
  induction 1 as [|c s Hc Hs IH]; [constructor|].
  cbn [rstrip]. destruct (rstrip s).
  - destruct (is_space c); repeat constructor; assumption.
  - now constructor.
Qed.

Lemma Forall_strip (P : Z -> Prop) (s : pstr) : Forall P s -> Forall P (strip s).
Proof. intros H. now apply Forall_rstrip, Forall_lstrip. Qed.

Lemma Forall_splitlines (P : Z -> Prop) (s : pstr) :
  Forall P s -> Forall (Forall P) (splitlines s).
Proof.
  induction 1 as [|c s Hc Hs IH]; [constructor|].
  cbn [splitlines]. destruct (c =? 13).
  - destruct s as [|c2 s]; [repeat constructor|].
    destruct (c2 =? 10) eqn:E10; [|constructor; [constructor|assumption]].
    constructor; [constructor|].
    apply Z.eqb_eq in E10. subst c2. cbn in IH. now inversion IH.
  - destruct (is_linebreak c); [constructor; [constructor|assumption]|].
    destruct (splitlines s) as [|l ls]; [repeat constructor; assumption|].
    inversion IH; subst. constructor; [|assumption]. now constructor.
Qed.

Lemma Forall_join (P : Z -> Prop) (sep : pstr) (ls : list pstr) :
  Forall P sep -> Forall (Forall P) ls -> Forall P (join sep ls).
Proof.
  intros Hsep H. induction H as [|l ls Hl Hls IH]; [constructor|].
  destruct ls as [|l2 ls]; [assumption|].
  change (join sep (l :: l2 :: ls)) with (l ++ sep ++ join sep (l2 :: ls)).
  repeat apply Forall_append; assumption.
Qed.

Lemma Forall_convert_line (P : Z -> Prop) (l : pstr) :
  P 71 -> P 49 -> Forall P l -> Forall P (convert_line l).
Proof.
  intros H71 H49 H. apply Forall_strip in H.
  destruct (convert_line_spec l) as [(c & rest & Hc & E & ->)|[(_ & ->)|(_ & ->)]].
  - rewrite E in H. inversion H as [|? ? _ H1]; subst.
    inversion H1 as [|? ? _ H2]; subst.
    constructor; [assumption|]. constructor; assumption.
  - repeat constructor; assumption.
  - assumption.
Qed.

Lemma ascii_scalar (s : pstr) : ascii s -> Forall scalar s.
Proof.
  unfold ascii. induction s as [|c s IH]; [constructor|].
  cbn [forallb]. intros H. apply andb_true_iff in H as [Hc Hs].
  constructor; [|auto]. unfold in_range in Hc. unfold scalar. lia.
Qed.

Lemma ok_eq {A} (a b : A) : Ok a = Ok b -> a = b.
Proof. now intros [= ->]. Qed.

Lemma xyz_header_scalar (self : XYZFileConverter) (t : Z) (f : pynum) (hs : list pstr) :
  Forall scalar (model_number self) ->
  xyz_header self t f = Ok hs -> Forall (Forall scalar) hs.
Proof.
  intros HM. unfold xyz_header.
  destruct (format_1f f) as [ff|e] eqn:Ef; [|discriminate].
  cbn [bind]. intros H. apply ok_eq in H. subst hs.
  destruct (format_1f_printable f ff Ef) as [Hff _].
  apply Forall_cons;
    [apply Forall_append; [apply ascii_scalar; reflexivity|assumption]|].
  apply Forall_cons;
    [apply Forall_append; [apply ascii_scalar; reflexivity|];
     apply printable_all_scalar, str_of_int_printable|].
  apply Forall_cons;
    [apply Forall_append; [apply ascii_scalar; reflexivity|];
     now apply printable_all_scalar|].
  repeat (apply Forall_cons; [apply ascii_scalar; reflexivity|]).
  apply Forall_nil.
Qed.

(** The preprocessor returns, and its text is made of the characters of its
    input and of the header. *)
Lemma preprocess_scalar (self : XYZFileConverter) (gcode : pstr) (t : Z) (f : pynum) :
  (exists ff, format_1f f = Ok ff) ->
  Forall scalar (model_number self) ->
  Forall scalar gcode ->
  exists processed,
    _preprocess_gcode self gcode t f = Ok processed /\ Forall scalar processed.
Proof.
  intros [ff Hff] HM HG. unfold _preprocess_gcode.
  assert (Hlines : Forall (Forall scalar) (map convert_line (splitlines gcode))).
  { apply Forall_forall. intros l Hin. apply in_map_iff in Hin as (l0 & <- & Hin0).
    apply Forall_convert_line; try (unfold scalar; lia).
    pose proof (Forall_splitlines scalar gcode HG) as Hall.
    rewrite Forall_forall in Hall. auto. }
  assert (Hlf : Forall scalar [LF])
    by (constructor; [unfold scalar, LF; lia|constructor]).
  destruct (negb (has_machine (splitlines gcode))).
  - destruct (xyz_header self t f) as [hs|e] eqn:Eh.
    + cbn [bind]. eexists. split; [reflexivity|].
      apply Forall_append; [|assumption].
      apply Forall_join; [assumption|].
      apply Forall_append; [|assumption].
      exact (xyz_header_scalar self t f hs HM Eh).
    + unfold xyz_header in Eh. rewrite Hff in Eh. discriminate Eh.
  - cbn [bind app]. eexists. split; [reflexivity|].
    apply Forall_append; [|assumption].
    apply Forall_join; assumption.
Qed.

Lemma float_of_int_small (z : Z) :
  0 <= z <= U32_MAX -> exists x, float_of_int z = Ok x.
Proof.
  intros H. unfold float_of_int, round64.
  rewrite Z.abs_eq by lia.
  destruct (z =? 0); [eauto|].
  pose proof (Z.log2_le_mono z U32_MAX ltac:(lia)) as Hlog.
  change (Z.log2 U32_MAX) with 31 in Hlog. change (Z.log2 1) with 0.
  set (e0 := Z.log2 z - 0 - 52) in *.
  destruct (scale2 z 1 e0) as [n0 d0].
  set (e1 := if n0 / d0 <? 2 ^ 52 then e0 - 1 else e0).
  assert (He1 : e1 <= -21) by (subst e1 e0; destruct (_ <? _); lia).
  destruct (scale2 z 1 (Z.max e1 (-1074))) as [n2 d2].
  destruct (round_half_even n2 d2 =? 2 ^ 53).
  - replace (971 <? Z.max e1 (-1074) + 1) with false by lia. eauto.
  - replace (971 <? Z.max e1 (-1074)) with false by lia. eauto.
Qed.

Lemma format_1f_ok (f : pynum) (fi : Z) :
  int_of_num f = Ok fi -> 0 <= fi <= U32_MAX -> exists ff, format_1f f = Ok ff.
Proof.
  destruct f as [z|x]; cbn [int_of_num format_1f]; [|eauto].
  intros [= ->] H. destruct (float_of_int_small fi H) as [x ->]. cbn [bind]. eauto.
Qed.

(** *** Encoding and decoding *)

Lemma len_ecb_body (aes : AES) (body : bytes) :
  ecb_lawful aes ->
  len (ecb_body aes body) = len body + pad_len body
  /\ len (ecb_body aes body) mod 16 = 0.
Proof.
  intros Haes. destruct (len_pkcs7_pad body) as [H1 H2].
  destruct (Haes _AES_KEY_256 _ H2) as [_ Hl].
  unfold ecb_body, len in *. rewrite Hl. split; assumption.
Qed.

Lemma convert_ecb (aes : AES) (zip : ZipCodec) (self : XYZFileConverter)
    (gcode : pstr) (t : Z) (f : pynum) (processed : pstr) (body : bytes) :
  use_ecb self = true ->
  _preprocess_gcode self gcode t f = Ok processed ->
  utf8_encode processed = Ok body ->
  convert_gcode_to_3w aes zip self gcode t f
  = (header <- _build_header self (len body) (len (ecb_body aes body)) t f ;;
     Ok (header ++ ecb_body aes body)).
Proof.
  intros He Hp Hb. unfold convert_gcode_to_3w.
  rewrite Hp. cbn [bind]. rewrite Hb. cbn [bind]. rewrite He.
  unfold _encrypt_ecb, cipher_call.
  rewrite (proj2 (len_pkcs7_pad body)). cbn [Z.eqb bind]. reflexivity.
Qed.

Lemma slice_body (h e : bytes) :
  List.length h = Z.to_nat 8192 ->
  slice 8192 (8192 + len e) (h ++ e) = e.
Proof.
  intros Hh. unfold slice, len.
  rewrite <- Hh, skipn_app, skipn_all, Nat.sub_diag. cbn [skipn app].
  replace (Z.to_nat (8192 + Z.of_nat (List.length e) - 8192)) with (List.length e) by lia.
  apply firstn_all.
Qed.

Lemma slice_whole (body : bytes) : slice 0 (len body) body = body.
Proof.
  unfold slice, len. cbn [Z.to_nat skipn].
  rewrite Z.sub_0_r, Nat2Z.id. apply firstn_all.
Qed.

(** A container built for an ECB model decodes to the text of its body. *)
Lemma decrypt_ecb_container (aes : AES) (zip : ZipCodec) (self : XYZFileConverter)
    (body : bytes) (t fi : Z) (h : bytes) (model : pstr) :
  ecb_lawful aes ->
  use_ecb self = true ->
  header_fields self (len body) (len (ecb_body aes body)) t fi h ->
  decrypt_3w_to_gcode aes zip (h ++ ecb_body aes body) model
  = Ok (utf8_decode_replace body).
Proof.
  intros Haes He [Hlen _ Hoff Henc Hbody _ _ Htype].
  unfold decrypt_3w_to_gcode.
  replace (len (h ++ ecb_body aes body) <? 8192) with false
    by (symmetry; apply Z.ltb_ge; unfold len; rewrite length_app; lia).
  rewrite !unpack_app by lia.
  rewrite Hoff, Henc, Hbody, Htype, He. cbn [Z.eqb Pos.eqb].
  rewrite slice_body by assumption.
  unfold cipher_call. rewrite (proj2 (len_ecb_body aes body Haes)).
  cbn [Z.eqb bind]. unfold ecb_body.
  rewrite (proj1 (Haes _AES_KEY_256 _ (proj2 (len_pkcs7_pad body)))).
  rewrite strip_padding_pad.
  destruct (0 <? len body); [rewrite slice_whole|]; reflexivity.
Qed.

Lemma ecb_model_facts (model : pstr) :
  In model _ECB_MODELS ->
  use_ecb (init model) = true /\ ascii model /\ tidy model.
Proof.
  unfold _ECB_MODELS. cbn [In].
  intros H. repeat destruct H as [<-|H]; try contradiction;
    (split; [reflexivity|split; [reflexivity|]]);
    (split; [discriminate|split; [reflexivity|]]);
    repeat (constructor; [reflexivity|]); constructor.
Qed.

(** *** The stand-in backend *)

Lemma toy_aes_lawful : ecb_lawful toy_aes.
Proof.
  intros key data _. cbn [toy_aes ecb_encrypt ecb_decrypt]. unfold xor_cipher.
  split; [|apply length_map].
  rewrite map_map. rewrite <- (map_id data) at 2. apply map_ext.
  intros b. now rewrite Z.lxor_assoc, Z.lxor_nilpotent, Z.lxor_0_r.
Qed.

(** *** Round trip *)

(** A print time of 2^32 seconds, as [extract_print_info] reads it from a
    Cura comment, does not fit the header field: no container is built. *)
Lemma C1_counterexample_print_time :
  extract_print_info (str ";TIME:4294967296")
  = Ok {| print_time_sec := 4294967296; filament_mm := PyInt 1000; layer_count := 0 |}
  /\ _preprocess_gcode miniMaker (str ";TIME:4294967296") 4294967296 (PyInt 1000)
     = Ok (str "; machine = dv1MX0A000
; print_time = 4294967296
; total_filament = 1000.0
; nozzle_diameter = 0.4
; layer_height = 0.2
; filament_diameter = 1.75
; filament_type = PLA

;TIME:4294967296
")
  /\ convert_gcode_to_3w toy_aes stored_zip miniMaker
       (str ";TIME:4294967296") 4294967296 (PyInt 1000)
     = Raise "struct.error"
  /\ ~ roundtrip_for_every_print_info.
Proof.
  assert (Hc : convert_gcode_to_3w toy_aes stored_zip miniMaker
                 (str ";TIME:4294967296") 4294967296 (PyInt 1000)
               = Raise "struct.error") by (vm_compute; reflexivity).
  assert (Hp : exists p, _preprocess_gcode miniMaker (str ";TIME:4294967296")
                            4294967296 (PyInt 1000) = Ok p)
    by (eexists; vm_compute; reflexivity).
  split; [vm_compute; reflexivity|].
  split; [vm_compute; reflexivity|].
  split; [exact Hc|].
  intros H. destruct Hp as [p Hp].
  destruct (H toy_aes stored_zip (str "dv1MX0A000") (str ";TIME:4294967296")
              4294967296 (PyInt 1000) p toy_aes_lawful
              (or_introl eq_refl)
              (ascii_scalar (str ";TIME:4294967296") eq_refl) Hp) as (c & Hconv & _).
  unfold miniMaker in Hc. rewrite Hc in Hconv. discriminate Hconv.
Qed.

Lemma preprocess_ends_with_newline (self : XYZFileConverter) (gcode : pstr) (t : Z)
    (f : pynum) (processed : pstr) :
  _preprocess_gcode self gcode t f = Ok processed ->
  exists text, processed = text ++ [10].
Proof.
  intros H. destruct (preprocess_lines self gcode t f processed H) as (hs & E & _).
  eauto.
Qed.

(** C1 (amended). For an ECB-class model, a G-code text of Unicode scalar
    values, a print time and a truncated filament value that fit 32 bits:
    the preprocessor returns a text that ends in a newline and encodes to
    UTF-8, and, when the padded body is at most 2^32 - 1 bytes long, the
    container is built and decodes to that text. *)
Theorem C1_roundtrip_ecb (aes : AES) (zip : ZipCodec) (model gcode : pstr)
    (t : Z) (f : pynum) (fi : Z) :
  ecb_lawful aes ->
  In model _ECB_MODELS ->
  Forall scalar gcode ->
  0 <= t <= U32_MAX ->
  int_of_num f = Ok fi ->
  0 <= fi <= U32_MAX ->
  exists processed body,
    _preprocess_gcode (init model) gcode t f = Ok processed
    /\ (exists text, processed = text ++ [10])
    /\ utf8_encode processed = Ok body
    /\ (len body + pad_len body <= U32_MAX ->
        exists container,
          convert_gcode_to_3w aes zip (init model) gcode t f = Ok container
          /\ forall model_number,
               decrypt_3w_to_gcode aes zip container model_number = Ok processed).
Proof.
  intros Haes HM HG Ht Hf Hfi.
  destruct (ecb_model_facts model HM) as (Hecb & Hascii & Htidy).
  destruct (preprocess_scalar (init model) gcode t f (format_1f_ok f fi Hf Hfi)
              (ascii_scalar _ Hascii) HG) as (processed & Hp & Hsc).
  destruct (utf8_encode_scalar processed Hsc) as [body Hb].
  exists processed, body.
  split; [assumption|]. split; [eapply preprocess_ends_with_newline; eassumption|].
  split; [assumption|]. intros Hsize.
  destruct (len_ecb_body aes body Haes) as [Hlen _].
  pose proof (pad_len_range body) as Hpad.
  assert (Hnn : 0 <= len body) by (unfold len; lia).
  destruct (build_header_ok (init model) (len body) (len (ecb_body aes body)) t f fi
              Hascii ltac:(lia) ltac:(lia) Ht Hf Hfi) as (h & Hh & Hfields).
  exists (h ++ ecb_body aes body). split.
  - rewrite (convert_ecb aes zip (init model) gcode t f processed body Hecb Hp Hb).
    now rewrite Hh.
  - intros m.
    rewrite (decrypt_ecb_container aes zip (init model) body t fi h m Haes Hecb Hfields).
    now rewrite (utf8_decode_encode processed body Hb).
Qed.

Lemma C1_roundtrip_ecb_witness :
  exists processed body,
    _preprocess_gcode miniMaker (str "G0 X10 Y20") 3600
                      (PyFloat (round64 false 12347 10)) = Ok processed
    /\ (exists text, processed = text ++ [10])
    /\ utf8_encode processed = Ok body
    /\ (len body + pad_len body <= U32_MAX ->
        exists container,
          convert_gcode_to_3w toy_aes stored_zip miniMaker (str "G0 X10 Y20") 3600
                              (PyFloat (round64 false 12347 10)) = Ok container
          /\ forall model_number,
               decrypt_3w_to_gcode toy_aes stored_zip container model_number
               = Ok processed).
Proof.
  exact (C1_roundtrip_ecb toy_aes stored_zip (str "dv1MX0A000") (str "G0 X10 Y20")
           3600 (PyFloat (round64 false 12347 10)) 1234
           toy_aes_lawful (or_introl eq_refl)
           (ascii_scalar (str "G0 X10 Y20") eq_refl)
           ltac:(unfold U32_MAX; lia) eq_refl ltac:(unfold U32_MAX; lia)).
Defined.

(** *** The magic signature *)


Lemma cipher_call_raises (f : bytes -> bytes) (data : bytes) (e : exn) :
  cipher_call f data = Raise e -> e = "ValueError"%string.
Proof. unfold cipher_call. destruct (_ =? _); [discriminate|now intros [= <-]]. Qed.






(** *** The size of the input *)

Lemma format_1f_raises (f : pynum) (e : exn) :
  format_1f f = Raise e -> e = "OverflowError"%string.
Proof.
  destruct f as [z|x]; cbn [format_1f]; [|discriminate].
  unfold float_of_int. destruct (round64 _ _ _); cbn [bind]; try discriminate.
  now intros [= <-].
Qed.

Lemma preprocess_raises (self : XYZFileConverter) (gcode : pstr) (t : Z) (f : pynum)
    (e : exn) :
  _preprocess_gcode self gcode t f = Raise e -> e = "OverflowError"%string.
Proof.
  unfold _preprocess_gcode. destruct (negb _); cbn [bind]; [|discriminate].
  unfold xyz_header. destruct (format_1f f) eqn:E; cbn [bind]; [discriminate|].
  intros [= <-]. eapply format_1f_raises; eassumption.
Qed.

Lemma pack_into_raises (header : bytes) (off : nat) (v : Z) (e : exn) :
  pack_into_u32 header off v = Raise e -> e = "struct.error"%string.
Proof.
  unfold pack_into_u32.
  destruct (pack_u32_le_cases v) as [[_ ->]|[_ ->]]; cbn [bind];
    [discriminate|now intros [= <-]].
Qed.

Lemma int_of_num_raises (f : pynum) (e : exn) :
  int_of_num f = Raise e -> In e raised_by_convert.
Proof.
  destruct f as [z|[neg m x|neg|]]; cbn [int_of_num]; try discriminate;
    intros [= <-]; cbn; auto.
Qed.

Lemma build_header_raises (self : XYZFileConverter) (body_size encrypted_size t : Z)
    (f : pynum) (e : exn) :
  _build_header self body_size encrypted_size t f = Raise e ->
  In e raised_by_convert.
Proof.
  unfold _build_header.
  rewrite (pack_u32_le_ok 2) by (unfold U32_MAX; lia). cbn [bind].
  unfold ascii_encode at 1. destruct (forallb _ _); cbn [bind];
    [|intros [= <-]; cbn; auto].
  repeat match goal with
         | |- bind (pack_into_u32 ?h ?o ?v) _ = _ -> _ =>
           let E := fresh "E" in
           destruct (pack_into_u32 h o v) eqn:E; cbn [bind];
           [|intros [= <-]; apply pack_into_raises in E; subst; cbn; auto]
         | |- bind (int_of_num ?x) _ = _ -> _ =>
           let E := fresh "E" in
           destruct (int_of_num x) eqn:E; cbn [bind];
           [|intros [= <-]; eapply int_of_num_raises; eassumption]
         end.
  discriminate.
Qed.

(** The exceptions that can leave [convert_gcode_to_3w]. *)
Lemma convert_raises (aes : AES) (zip : ZipCodec) (self : XYZFileConverter)
    (gcode : pstr) (t : Z) (f : pynum) (e : exn) :
  convert_gcode_to_3w aes zip self gcode t f = Raise e -> In e raised_by_convert.
Proof.
  unfold convert_gcode_to_3w.
  destruct (_preprocess_gcode self gcode t f) eqn:Ep; cbn [bind];
    [|intros [= <-]; apply preprocess_raises in Ep; subst; cbn; auto].
  destruct (utf8_encode a) eqn:Eu; cbn [bind];
    [|intros [= <-]; apply utf8_encode_raises in Eu; subst; cbn; auto].
  destruct (if use_ecb self then _ else _) eqn:Ee; cbn [bind].
  - destruct (_build_header _ _ _ _ _) eqn:Eh; cbn [bind]; [discriminate|].
    intros [= <-]. eapply build_header_raises; eassumption.
  - intros [= <-]. unfold _encrypt_ecb, _encrypt_cbc_zip in Ee.
    destruct (use_ecb self); apply cipher_call_raises in Ee; subst; cbn; auto.
Qed.

Lemma convert_never_too_large (aes : AES) (zip : ZipCodec) (self : XYZFileConverter)
    (gcode : pstr) (t : Z) (f : pynum) :
  convert_gcode_to_3w aes zip self gcode t f <> Raise "FileTooLargeError".
Proof.
  intros H. apply convert_raises in H. cbn in H.
  repeat destruct H as [H|H]; try discriminate H. exact H.
Qed.

(** The two outcomes of the encoder for an ECB model, by the size of the
    padded body. *)
Lemma convert_ecb_outcome (aes : AES) (zip : ZipCodec) (self : XYZFileConverter)
    (gcode : pstr) (t : Z) (f : pynum) (fi : Z) (processed : pstr) (body : bytes) :
  ecb_lawful aes ->
  use_ecb self = true ->
  ascii (model_number self) ->
  _preprocess_gcode self gcode t f = Ok processed ->
  utf8_encode processed = Ok body ->
  0 <= t <= U32_MAX ->
  int_of_num f = Ok fi ->
  0 <= fi <= U32_MAX ->
  (len body + pad_len body <= U32_MAX ->
   exists container,
     convert_gcode_to_3w aes zip self gcode t f = Ok container
     /\ len container = 8192 + (len body + pad_len body))
  /\ (U32_MAX < len body + pad_len body ->
      convert_gcode_to_3w aes zip self gcode t f = Raise "struct.error").
Proof.
  intros Haes Hecb Hascii Hp Hb Ht Hf Hfi.
  rewrite (convert_ecb aes zip self gcode t f processed body Hecb Hp Hb).
  destruct (len_ecb_body aes body Haes) as [Hlen _].
  pose proof (pad_len_range body) as Hpad.
  assert (Hnn : 0 <= len body) by (unfold len; lia).
  split; intros Hsize.
  - destruct (build_header_ok self (len body) (len (ecb_body aes body)) t f fi
                Hascii ltac:(lia) ltac:(lia) Ht Hf Hfi) as (h & -> & Hfields).
    cbn [bind]. eexists. split; [reflexivity|].
    destruct Hfields as [Hh _ _ _ _ _ _ _].
    unfold len in *. rewrite length_app, Nat2Z.inj_add, Hh. lia.
  - unfold _build_header, pack_into_u32.
    rewrite (pack_u32_le_ok 2) by (unfold U32_MAX; lia). cbn [bind].
    rewrite (ascii_encode_ok _ Hascii). cbn [bind].
    rewrite (pack_u32_le_ok HEADER_SIZE) by (unfold U32_MAX, HEADER_SIZE; lia).
    cbn [bind].
    rewrite (pack_u32_le_raise (len (ecb_body aes body))) by lia.
    reflexivity.
Qed.

(** *** An input of 2^32 - 8191 bytes *)

Lemma big_size_Z : Z.of_nat big_size = 4294959105.
Proof. apply Z2Nat.id. discriminate. Qed.

Global Opaque big_size.

Lemma len_big_gcode : len big_gcode = 4294959105.
Proof. unfold len, big_gcode. rewrite repeat_length. apply big_size_Z. Qed.

Lemma ascii_big_gcode : ascii big_gcode.
Proof. apply forallb_repeat. reflexivity. Qed.

Lemma utf8_encode_ascii (s : pstr) : ascii s -> utf8_encode s = Ok s.
Proof.
  unfold ascii. induction s as [|c s IH]; [reflexivity|].
  cbn [forallb utf8_encode]. intros H. apply andb_true_iff in H as [Hc Hs].
  unfold utf8_encode_cp. unfold in_range in Hc.
  replace (c <? 0) with false by lia. replace (c <? 128) with true by lia.
  rewrite (IH Hs). reflexivity.
Qed.

Lemma splitlines_single (s : pstr) :
  no_linebreak s -> s <> [] -> splitlines s = [s].
Proof.
  induction 1 as [|c s Hc Hs IH]; [congruence|]. intros _.
  cbn [splitlines]. rewrite Hc.
  replace (c =? 13) with false
    by (symmetry; apply Z.eqb_neq; intros ->; discriminate Hc).
  destruct s as [|c2 s]; [reflexivity|].
  now rewrite IH by discriminate.
Qed.

Lemma repeat_a_plain (n : nat) :
  Forall nonspace (repeat 97 n)
  /\ lower (repeat 97 n) = repeat 97 n
  /\ contains NEEDLE (repeat 97 n) = false.
Proof.
  induction n as [|n (H1 & H2 & H3)]; [repeat split; constructor|].
  cbn [repeat]. split; [constructor; [reflexivity|assumption]|]. split.
  - change (lower (97 :: repeat 97 n)) with (97 :: lower (repeat 97 n)).
    now rewrite H2.
  - rewrite (contains_skip NEEDLE 59 97 _ _ NEEDLE_cons) by lia. exact H3.
Qed.

Lemma big_gcode_cons : exists n, big_gcode = 97 :: repeat 97 n.
Proof.
  unfold big_gcode. pose proof big_size_Z as H.
  destruct big_size as [|n]; [discriminate H|].
  now exists n.
Qed.

Lemma convert_line_big : convert_line big_gcode = big_gcode.
Proof.
  destruct (repeat_a_plain big_size) as (Hns & _ & _).
  fold big_gcode in Hns. destruct big_gcode_cons as [n E].
  apply convert_line_fixed.
  - apply strip_fixed; [|now apply rstrip_nonspace].
    rewrite E. reflexivity.
  - rewrite E. reflexivity.
Qed.

Lemma join_snoc (sep : pstr) (ls : list pstr) (x : pstr) :
  ls <> [] -> join sep (ls ++ [x]) = join sep ls ++ sep ++ x.
Proof.
  induction ls as [|l ls IH]; [congruence|]. intros _.
  destruct ls as [|l2 ls]; [reflexivity|].
  change (join sep ((l :: l2 :: ls) ++ [x]))
    with (l ++ sep ++ join sep ((l2 :: ls) ++ [x])).
  rewrite IH by discriminate.
  change (join sep (l :: l2 :: ls)) with (l ++ sep ++ join sep (l2 :: ls)).
  now rewrite <- !app_assoc.
Qed.

Lemma preprocess_big :
  _preprocess_gcode miniMaker big_gcode 60 (PyInt 1000)
  = Ok (join [10] big_header ++ [10] ++ big_gcode ++ [10]).
Proof.
  destruct (repeat_a_plain big_size) as (Hns & Hlow & Hnee).
  fold big_gcode in Hns, Hlow, Hnee.
  unfold _preprocess_gcode.
  rewrite (splitlines_single big_gcode).
  - unfold has_machine. cbn [firstn existsb]. fold NEEDLE.
    rewrite Hlow, Hnee. cbn [orb negb].
    change (xyz_header miniMaker 60 (PyInt 1000)) with (Ok big_header).
    cbn [bind map]. rewrite convert_line_big.
    unfold LF. rewrite join_snoc by discriminate.
    now rewrite <- !app_assoc.
  - now apply nonspace_no_linebreaks.
  - destruct big_gcode_cons as [n ->]. discriminate.
Qed.

Lemma ascii_processed_big : ascii (join [10] big_header ++ [10] ++ big_gcode ++ [10]).
Proof.
  apply ascii_app; [reflexivity|].
  apply ascii_app; [reflexivity|].
  apply ascii_app; [apply ascii_big_gcode|reflexivity].
Qed.

Lemma len_processed_big :
  len (join [10] big_header ++ [10] ++ big_gcode ++ [10]) = 4294959105 + 163.
Proof.
  unfold len. rewrite !length_app.
  change (List.length (join [10] big_header)) with 161%nat.
  pose proof len_big_gcode as H. unfold len in H.
  cbn [List.length]. lia.
Qed.

(** A G-code text of 2^32 - 8191 bytes, more than the bound of the specification,
    is turned into a container. *)
Lemma C6_counterexample_large_input :
  utf8_encode big_gcode = Ok big_gcode
  /\ 4294967296 - 8192 < len big_gcode
  /\ (exists container,
        convert_gcode_to_3w toy_aes stored_zip miniMaker big_gcode 60 (PyInt 1000)
        = Ok container)
  /\ ~ file_too_large_is_raised.
Proof.
  assert (H1 : utf8_encode big_gcode = Ok big_gcode)
    by apply utf8_encode_ascii, ascii_big_gcode.
  assert (H2 : 4294967296 - 8192 < len big_gcode) by (rewrite len_big_gcode; lia).
  split; [exact H1|]. split; [exact H2|]. split.
  - pose proof (pad_len_range (join [10] big_header ++ [10] ++ big_gcode ++ [10])).
    destruct (proj1 (convert_ecb_outcome toy_aes stored_zip miniMaker big_gcode 60
                       (PyInt 1000) 1000 _ _ toy_aes_lawful eq_refl eq_refl
                       preprocess_big (utf8_encode_ascii _ ascii_processed_big)
                       ltac:(unfold U32_MAX; lia) eq_refl
                       ltac:(unfold U32_MAX; lia)))
      as (container & Hc & _).
    + rewrite len_processed_big. unfold U32_MAX. lia.
    + eauto.
  - intros H.
    exact (convert_never_too_large toy_aes stored_zip miniMaker big_gcode 60
             (PyInt 1000) (H _ _ _ _ _ _ _ H1 H2)).
Qed.

(** C6 (amended). The encoder has no size check of its own: it never
    raises [FileTooLargeError].  For a model of the ECB class, with a print
    time and a filament value that fit 32 bits, the container is built
    whenever the padded body is at most 2^32 - 1 bytes long, and packing the
    encrypted size into the header raises [struct.error] when it is
    longer. *)
Theorem C6_encoder_size_limit (aes : AES) (zip : ZipCodec) (self : XYZFileConverter)
    (gcode : pstr) (t : Z) (f : pynum) :
  convert_gcode_to_3w aes zip self gcode t f <> Raise "FileTooLargeError"
  /\ forall (fi : Z) (processed : pstr) (body : bytes),
       ecb_lawful aes ->
       use_ecb self = true ->
       ascii (model_number self) ->
       _preprocess_gcode self gcode t f = Ok processed ->
       utf8_encode processed = Ok body ->
       0 <= t <= U32_MAX ->
       int_of_num f = Ok fi ->
       0 <= fi <= U32_MAX ->
       (len body + pad_len body <= U32_MAX ->
        exists container,
          convert_gcode_to_3w aes zip self gcode t f = Ok container
          /\ len container = 8192 + (len body + pad_len body))
       /\ (U32_MAX < len body + pad_len body ->
           convert_gcode_to_3w aes zip self gcode t f = Raise "struct.error").
Proof.
  split; [apply convert_never_too_large|].
  intros fi processed body. apply convert_ecb_outcome.
Qed.

Lemma C6_encoder_size_limit_witness :
  exists container,
    convert_gcode_to_3w toy_aes stored_zip miniMaker (str "G1 X1") 60 (PyInt 1000)
    = Ok container
    /\ len container = 8192 + 176.
Proof.
  refine (proj1 (proj2 (C6_encoder_size_limit toy_aes stored_zip miniMaker
                          (str "G1 X1") 60 (PyInt 1000))
                   1000
                   (str "; machine = dv1MX0A000
; print_time = 60
; total_filament = 1000.0
; nozzle_diameter = 0.4
; layer_height = 0.2
; filament_diameter = 1.75
; filament_type = PLA

G1 X1
")
                   (str "; machine = dv1MX0A000
; print_time = 60
; total_filament = 1000.0
; nozzle_diameter = 0.4
; layer_height = 0.2
; filament_diameter = 1.75
; filament_type = PLA

G1 X1
")
                   toy_aes_lawful eq_refl eq_refl eq_refl eq_refl
                   ltac:(unfold U32_MAX; lia) eq_refl ltac:(unfold U32_MAX; lia))
            _).
  vm_compute. discriminate.
Defined.

End CodecFacts.

(* ================================================================== *)
(** * Further properties                                               *)
(* ================================================================== *)

(** ** The session without a port *)

Section OfflineFacts.
Import XYZProtocol.

Lemma send_command_offline (cmd : pstr) (self : XYZProtocol) :
  is_connected self = false ->
  _send_command cmd self = (Raise "ConnectionError", self).
Proof. intros H. unfold _send_command. now rewrite H. Qed.

(** X1. On an object that is not connected (no port, or the flag down),
    every command returns [False], [query_status] returns the status of
    [XYZPrinterStatus()], [upload_file] returns [False] and [z_offset_get]
    returns 0; none of them raises and none changes the object. *)
Theorem offline_calls_fail (self : XYZProtocol) :
  is_connected self = false ->
  (forall c, run c self = (Ok false, self))
  /\ query_status self = (Ok new_status, self)
  /\ (forall filename data cb, upload_file filename data cb self = (Ok false, self))
  /\ z_offset_get self = (Ok 0, self).
Proof.
  intros H. repeat split.
  - intros c. rewrite run_unfold, send_command_offline by exact H. reflexivity.
  - unfold query_status, try_except, mbind.
    rewrite send_command_offline by exact H. reflexivity.
  - intros filename data cb. unfold upload_file. now rewrite H.
  - unfold z_offset_get, try_except, mbind.
    rewrite send_command_offline by exact H. reflexivity.
Qed.

Lemma offline_calls_fail_witness :
  is_connected fresh = false
  /\ run Home fresh = (Ok false, fresh)
  /\ upload_file (str "t.gcode") (str "ABCDE") true fresh = (Ok false, fresh).
Proof.
  split; [reflexivity|].
  pose proof (offline_calls_fail fresh eq_refl) as (Hrun & _ & Hup & _).
  split; [apply Hrun | apply Hup].
Defined.

(** X2. [disconnect] never raises and leaves the object not connected,
    whatever it was before; the callback record is kept.  From then on
    every command returns [False] and writes nothing, a status query gives
    the default status, and a second [disconnect] changes nothing. *)
Theorem disconnect_ends_session (self : XYZProtocol) :
  exists self',
    disconnect self = (Ok tt, self')
    /\ is_connected self' = false
    /\ _serial self' = None
    /\ progress_calls self' = progress_calls self
    /\ disconnect self' = (Ok tt, self')
    /\ (forall c, run c self' = (Ok false, self'))
    /\ query_status self' = (Ok new_status, self')
    /\ (forall filename data cb,
          upload_file filename data cb self' = (Ok false, self')).
Proof.
  eexists. split; [reflexivity|].
  set (self' := {| _serial := None; _connected := false;
                   progress_calls := progress_calls self |}).
  assert (H : is_connected self' = false) by reflexivity.
  do 4 (split; [reflexivity|]).
  split; [|split].
  - intros c. rewrite run_unfold, send_command_offline by exact H. reflexivity.
  - unfold query_status, try_except, mbind.
    rewrite send_command_offline by exact H. reflexivity.
  - intros filename data cb. reflexivity.
Qed.

End OfflineFacts.

(** ** One command, one line *)

Section CommandFacts.
Import XYZProtocol.

Lemma send_command_session (cmd : pstr) tx rx calls :
  ascii cmd ->
  _send_command cmd (session tx rx calls)
  = (Ok (response_text (hd [] rx)), session (tx ++ [cmd ++ [10]]) (tl rx) calls).
Proof.
  intros H. unfold _send_command. cbn [is_connected session _connected _serial andb negb].
  unfold mbind at 1. unfold lift at 1. rewrite (ascii_encode_ok cmd H).
  unfold mbind at 1. unfold LF. rewrite write_session.
  unfold mbind at 1. reflexivity.
Qed.

Lemma send_command_not_ascii (cmd : pstr) tx rx calls :
  forallb (in_range 0 127) cmd = false ->
  _send_command cmd (session tx rx calls)
  = (Raise "UnicodeEncodeError", session tx rx calls).
Proof.
  intros H. unfold _send_command. cbn [is_connected session _connected _serial andb negb].
  unfold mbind at 1. unfold lift at 1, ascii_encode. rewrite H. reflexivity.
Qed.

Lemma forallb_app_false {A} (f : A -> bool) (a b c : list A) :
  forallb f b = false -> forallb f (a ++ b ++ c) = false.
Proof.
  intros H. rewrite !forallb_app, H. now rewrite andb_false_r.
Qed.




(** X4. A jog whose axis holds a character outside ASCII returns [False]
    and writes nothing: the encoding error is caught, the port is left as it
    was and the reads that were waiting stay unread. *)
Theorem jog_rejects_non_ascii_axis (axis : pstr) (direction distance : Z) tx rx calls :
  forallb (in_range 0 127) axis = false ->
  run (Jog axis direction distance) (session tx rx calls)
  = (Ok false, session tx rx calls).
Proof.
  intros H. rewrite run_unfold. cbn [wire].
  rewrite send_command_not_ascii; [reflexivity|].
  now apply forallb_app_false.
Qed.

Lemma jog_rejects_non_ascii_axis_witness :
  run (Jog [233] 1 10) (session [] [[str "ok$"]] [])
  = (Ok false, session [] [[str "ok$"]] []).
Proof.
  exact (jog_rejects_non_ascii_axis [233] 1 10 [] [[str "ok$"]] [] eq_refl).
Defined.

Lemma In_strip (x : Z) (s : pstr) : In x (strip s) -> In x s.
Proof.
  intros H. destruct (strip_split s) as (ws1 & ws2 & E & _ & _).
  rewrite E. apply in_or_app. right. apply in_or_app. now left.
Qed.

Lemma response_text_clean (chunks : list bytes) :
  ~ In 36 (response_text chunks)
  /\ strip (response_text chunks) = response_text chunks
  /\ Forall (fun ch => ch < 128 \/ ch = 65533) (response_text chunks).
Proof.
  unfold response_text. split; [|split].
  - intros H. apply In_strip in H. unfold remove_char in H.
    apply filter_In in H. destruct H as [_ H]. discriminate H.
  - apply strip_idem.
  - apply Forall_strip. unfold remove_char.
    apply Forall_forall. intros x Hx. apply filter_In in Hx. destruct Hx as [Hx _].
    unfold ascii_decode_replace in Hx. apply in_map_iff in Hx.
    destruct Hx as (b & <- & _). unfold REPLACEMENT.
    destruct (b <? 128) eqn:E; lia.
Qed.

(** X5. Whenever [_send_command] returns, the object was connected, the
    command was ASCII, one line was written and the reads of one wait were
    taken; the text returned holds no [$], has no whitespace at either end,
    and every byte of the answer outside ASCII shows up as U+FFFD. *)
Theorem send_command_response (cmd : pstr) (self self' : XYZProtocol) (resp : pstr) :
  _send_command cmd self = (Ok resp, self') ->
  (exists tx rx calls,
     self = session tx rx calls
     /\ self' = session (tx ++ [cmd ++ [10]]) (tl rx) calls
     /\ resp = response_text (hd [] rx))
  /\ ascii cmd
  /\ ~ In 36 resp
  /\ strip resp = resp
  /\ Forall (fun ch => ch < 128 \/ ch = 65533) resp.
Proof.
  intros H.
  destruct (is_connected self) eqn:Hc.
  2: { rewrite send_command_offline in H by exact Hc. discriminate H. }
  destruct (connected_session self Hc) as (tx & rx & calls & ->).
  destruct (forallb (in_range 0 127) cmd) eqn:Ha.
  2: { rewrite send_command_not_ascii in H by exact Ha. discriminate H. }
  rewrite (send_command_session cmd tx rx calls Ha) in H.
  injection H as <- <-.
  split; [exists tx, rx, calls; repeat split|].
  split; [exact Ha|]. apply response_text_clean.
Qed.

Lemma send_command_response_witness :
  _send_command (str "XYZv3/query=a") (session [] [[str " j:9511,11"; str "$ "]] [])
  = (Ok (str "j:9511,11"), session [str "XYZv3/query=a" ++ [10]] [] [])
  /\ ~ In 36 (str "j:9511,11")
  /\ strip (str "j:9511,11") = str "j:9511,11".
Proof.
  split; [reflexivity|].
  pose proof (send_command_response (str "XYZv3/query=a")
                (session [] [[str " j:9511,11"; str "$ "]] [])
                (session [str "XYZv3/query=a" ++ [10]] [] [])
                (str "j:9511,11") eq_refl) as (_ & _ & Hd & Hs & _).
  split; assumption.
Defined.

End CommandFacts.

(** ** Uploads that stop early, and the progress reports *)

Section UploadFacts.
Import XYZProtocol.

Lemma mapM_length {A B} (f : A -> result B) (l : list A) (bs : list B) :
  mapM f l = Ok bs -> List.length bs = List.length l.
Proof.
  revert bs. induction l as [|a l IH]; intros bs H.
  - injection H as <-. reflexivity.
  - cbn [mapM] in H. destruct (f a); [|discriminate H]. cbn [bind] in H.
    destruct (mapM f l); [|discriminate H]. cbn [bind] in H.
    injection H as <-. cbn [List.length]. f_equal. now apply IH.
Qed.

Lemma mapM_Forall {A B} (f : A -> result B) (P : B -> Prop) (l : list A) (bs : list B) :
  (forall a b, f a = Ok b -> P b) -> mapM f l = Ok bs -> Forall P bs.
Proof.
  intros HP. revert bs. induction l as [|a l IH]; intros bs H.
  - injection H as <-. constructor.
  - cbn [mapM] in H. destruct (f a) eqn:E; [|discriminate H]. cbn [bind] in H.
    destruct (mapM f l); [|discriminate H]. cbn [bind] in H.
    injection H as <-. constructor; [eapply HP; exact E|now apply IH].
Qed.

Lemma mapM_last {A B} (f : A -> result B) (l : list A) (x : A) (bs : list B) (d : B) :
  mapM f (l ++ [x]) = Ok bs -> f x = Ok (last bs d).
Proof.
  revert bs. induction l as [|a l IH]; intros bs H.
  - cbn [app mapM] in H. destruct (f x); [|discriminate H]. cbn [bind] in H.
    injection H as <-. reflexivity.
  - cbn [app mapM] in H. destruct (f a); [|discriminate H]. cbn [bind] in H.
    destruct (mapM f (l ++ [x])) as [bs'|] eqn:E; [|discriminate H]. cbn [bind] in H.
    injection H as <-. rewrite (IH bs' eq_refl).
    destruct bs' as [|b' bs']; [|reflexivity].
    apply mapM_length in E. rewrite length_app in E. cbn in E. lia.
Qed.

Lemma pct_after_ok (data : bytes) (i : nat) :
  data <> [] -> (0 < i)%nat -> exists pct, pct_after data i = Ok pct.
Proof.
  intros Hd Hi. unfold pct_after.
  assert (0 < len data) by (unfold len; destruct data; [congruence|cbn; lia]).
  destruct (truediv_small (Z.min (8192 * Z.of_nat i) (len data)) (len data)
                          ltac:(lia)) as [x ->].
  cbn [bind]. eauto.
Qed.

(** One round of the loop on an open port. *)
Lemma upload_loop_step (data : bytes) (cb : bool) (i fuel : nat) tx rx calls :
  8192 * Z.of_nat i < len data ->
  Z.of_nat i <= U32_MAX ->
  exists pct,
    pct_after data (S i) = Ok pct
    /\ upload_loop (S fuel) data (len data) cb
                   (Z.min (8192 * Z.of_nat i) (len data)) (Z.of_nat i)
                   (session tx rx calls)
       = if wait_loop [] (hd [] rx)
         then upload_loop fuel data (len data) cb
                          (Z.min (8192 * Z.of_nat (S i)) (len data)) (Z.of_nat (S i))
                          (session (tx ++ [frame_of data i]) (tl rx)
                                   (calls ++ if cb then [pct] else []))
         else (Ok false, session (tx ++ [frame_of data i]) (tl rx) calls).
Proof.
  intros Hlt Hmax.
  assert (Hd : data <> []).
  { intros ->. change (len (@nil Z)) with 0 in Hlt. lia. }
  destruct (pct_after_ok data (S i) Hd ltac:(lia)) as [pct Hpct].
  exists pct. split; [exact Hpct|].
  rewrite upload_loop_eq.
  replace (Z.min (8192 * Z.of_nat i) (len data)) with (8192 * Z.of_nat i) by lia.
  replace (8192 * Z.of_nat i <? len data) with true by lia.
  rewrite slice_chunk_of.
  pose proof (len_chunk_of data i ltac:(lia)) as Hcl.
  unfold mbind at 1. unfold lift at 1, pack_2u32_be.
  rewrite (pack_u32_be_ok (Z.of_nat i)) by (split; [lia|exact Hmax]).
  rewrite (pack_u32_be_ok (len (chunk_of data i))) by (unfold U32_MAX; lia).
  cbn [bind].
  unfold mbind at 1. rewrite write_session.
  rewrite <- (app_assoc (be32 (Z.of_nat i))).
  fold (frame_of data i).
  unfold mbind at 1. rewrite wait_session_any.
  destruct (wait_loop [] (hd [] rx)); cbn [negb]; [|reflexivity].
  assert (Hoff : 8192 * Z.of_nat i + len (chunk_of data i)
                 = Z.min (8192 * Z.of_nat (S i)) (len data)) by lia.
  rewrite Hoff.
  replace (Z.of_nat i + 1) with (Z.of_nat (S i)) by lia.
  destruct cb.
  - unfold pct_after in Hpct.
    destruct (truediv (Z.min (8192 * Z.of_nat (S i)) (len data)) (len data))
      as [x|e] eqn:Hx; [|discriminate Hpct].
    cbn [bind] in Hpct. injection Hpct as <-.
    unfold mbind at 1. unfold mbind at 1. unfold lift at 1.
    unfold call_progress at 1. cbn [session _serial _connected progress_calls].
    reflexivity.
  - unfold mbind at 1. unfold ret at 1. now rewrite app_nil_r.
Qed.

(** The rounds that are acknowledged. *)
Lemma upload_loop_acked (data : bytes) (cb : bool) :
  forall (r i fuel : nat) tx acks rest calls,
    List.length acks = r ->
    Forall acked acks ->
    (i + r <= frame_count (len data))%nat ->
    Z.of_nat (i + r) <= 4294967296 ->
    exists pcts,
      mapM (pct_after data) (seq (S i) r) = Ok pcts
      /\ upload_loop (r + fuel) data (len data) cb
                     (Z.min (8192 * Z.of_nat i) (len data)) (Z.of_nat i)
                     (session tx (acks ++ rest) calls)
         = upload_loop fuel data (len data) cb
                       (Z.min (8192 * Z.of_nat (i + r)) (len data)) (Z.of_nat (i + r))
                       (session (tx ++ map (frame_of data) (seq i r)) rest
                                (calls ++ if cb then pcts else [])).
Proof.
  induction r as [|r IH]; intros i fuel tx acks rest calls Hlen Hack Hcount Hmax.
  - destruct acks; [|discriminate]. exists []. split; [reflexivity|].
    cbn [seq map app Nat.add]. rewrite Nat.add_0_r, !app_nil_r.
    now destruct cb; rewrite ?app_nil_r.
  - destruct acks as [|a acks]; [discriminate|].
    injection Hlen as Hlen. inversion Hack as [|? ? Ha Hack']; subst.
    assert (Hlt : 8192 * Z.of_nat i < len data).
    { rewrite <- frame_count_gt. lia. }
    destruct (upload_loop_step data cb i (List.length acks + fuel) tx
                               (a :: acks ++ rest) calls
                               Hlt ltac:(unfold U32_MAX; lia))
      as (pct & Hpct & Hstep).
    cbn [hd tl] in Hstep. unfold acked in Ha. rewrite Ha in Hstep.
    destruct (IH (S i) fuel (tx ++ [frame_of data i]) acks rest
                 (calls ++ if cb then [pct] else [])
                 eq_refl Hack' ltac:(lia) ltac:(lia))
      as (pcts & Hpcts & Hrun).
    exists (pct :: pcts). split.
    + cbn [seq mapM]. rewrite Hpct. cbn [bind].
      change (mapM (pct_after data) (seq (S (S i)) (List.length acks)))
        with (mapM (pct_after data) (seq (S (S i)) (List.length acks))).
      rewrite Hpcts. reflexivity.
    + cbn [app Nat.add]. etransitivity; [exact Hstep|].
      etransitivity; [exact Hrun|].
      replace (S i + List.length acks)%nat with (i + S (List.length acks))%nat by lia.
      cbn [seq map]. rewrite <- !app_assoc. cbn [app].
      now destruct cb.
Qed.

(** X6. A file name with a character outside ASCII makes [upload_file]
    return [False] before anything is written: the encoding error of the
    first line is caught, and neither the port nor the callback record
    changes. *)
Theorem upload_rejects_non_ascii_name (filename : pstr) (data : bytes) (cb : bool)
    tx rx calls :
  forallb (in_range 0 127) filename = false ->
  upload_file filename data cb (session tx rx calls) = (Ok false, session tx rx calls).
Proof.
  intros H. unfold upload_file.
  cbn [is_connected session _connected _serial andb negb].
  unfold try_except, mbind at 1. unfold lift at 1, ascii_encode.
  rewrite !forallb_app, H. now rewrite andb_false_r.
Qed.

Lemma upload_rejects_non_ascii_name_witness :
  upload_file (str "caf" ++ [233] ++ str ".gcode") (str "ABCDE") true
              (session [] [[str "ok"]; [str "ok"]; [str "ok"]] [])
  = (Ok false, session [] [[str "ok"]; [str "ok"]; [str "ok"]] []).
Proof.
  exact (upload_rejects_non_ascii_name (str "caf" ++ [233] ++ str ".gcode")
           (str "ABCDE") true [] [[str "ok"]; [str "ok"]; [str "ok"]] [] eq_refl).
Defined.

(** X7. When the printer does not acknowledge the first line (an error
    answer, or no [ok] before the deadline), [upload_file] returns [False]
    after that one line: no frame and no closing line is written, and the
    callback is not called. *)
Theorem upload_refused_at_start (filename : pstr) (data : bytes) (cb : bool)
    tx init rx calls :
  ascii filename ->
  wait_loop [] init = false ->
  upload_file filename data cb (session tx (init :: rx) calls)
  = (Ok false, session (tx ++ [upload_command filename (len data)]) rx calls).
Proof.
  intros Ha Hn. unfold upload_file.
  cbn [is_connected session _connected _serial andb negb].
  unfold try_except, mbind at 1. unfold lift at 1.
  rewrite (upload_command_encode filename (len data) Ha).
  unfold mbind at 1. rewrite write_session.
  unfold mbind at 1. rewrite wait_session, Hn. cbn [negb].
  unfold ret, upload_command, LF. now rewrite <- !app_assoc.
Qed.

Lemma upload_refused_at_start_witness :
  upload_file (str "t.gcode") (str "ABCDE") true
              (session [] [[str "E4$"; str "error"]; [str "ok"]] [])
  = (Ok false, session [str "XYZv3/upload=t.gcode,5" ++ [10]] [[str "ok"]] []).
Proof.
  exact (upload_refused_at_start (str "t.gcode") (str "ABCDE") true []
           [str "E4$"; str "error"] [[str "ok"]] [] eq_refl eq_refl).
Defined.

Lemma frame_count_fuel (data : bytes) (r : nat) :
  (r <= frame_count (len data))%nat ->
  exists fuel, List.length data = (r + fuel)%nat
               /\ ((r < frame_count (len data))%nat -> (0 < fuel)%nat).
Proof.
  intros H. pose proof (frame_count_le (len data) ltac:(unfold len; lia)) as Hle.
  unfold len in Hle at 2.
  exists (List.length data - r)%nat. split; lia.
Qed.

(** X8. When the printer acknowledges the first line and [k] blocks but
    not the block after them (an error answer, no [ok] before the
    deadline, or silence), [upload_file] returns [False]: the frames 0 to
    [k] are on the wire, the closing line is not, and the callback was
    called once for each acknowledged block. *)
Theorem upload_stops_at_missing_ack (filename : pstr) (data : bytes) (cb : bool)
    tx init acks rest calls :
  ascii filename ->
  len data <= 8192 * 4294967296 ->
  acked init ->
  Forall acked acks ->
  wait_loop [] (hd [] rest) = false ->
  (List.length acks < frame_count (len data))%nat ->
  exists pcts,
    upload_file filename data cb (session tx (init :: acks ++ rest) calls)
    = (Ok false,
       session (tx ++ [upload_command filename (len data)]
                   ++ map (frame_of data) (seq 0 (S (List.length acks))))
               (tl rest) (calls ++ pcts))
    /\ List.length pcts = (if cb then List.length acks else O).
Proof.
  intros Ha Hsize Hinit Hacks Hnack Hk.
  set (k := List.length acks) in *.
  assert (Hcount : Z.of_nat (frame_count (len data)) <= 4294967296).
  { unfold frame_count. rewrite Z2Nat.id by (unfold len; Z.div_mod_to_equations; lia).
    Z.div_mod_to_equations. lia. }
  destruct (frame_count_fuel data k ltac:(lia)) as (fuel & Hfuel & Hpos).
  specialize (Hpos Hk). destruct fuel as [|fuel]; [lia|].
  rewrite (upload_file_unfold filename data cb tx init _ calls Ha Hinit).
  rewrite Hfuel.
  destruct (upload_loop_acked data cb k 0 (S fuel)
              (tx ++ [upload_command filename (len data)]) acks rest calls
              eq_refl Hacks ltac:(lia) ltac:(lia))
    as (pcts & Hpcts & Hrun).
  replace (Z.min (8192 * Z.of_nat 0) (len data)) with 0 in Hrun by (unfold len; lia).
  change (Z.of_nat 0) with 0 in Hrun.
  rewrite Hrun. cbn [Nat.add].
  destruct (upload_loop_step data cb k fuel
              (tx ++ [upload_command filename (len data)]
                  ++ map (frame_of data) (seq 0 k))
              rest (calls ++ if cb then pcts else [])
              (proj1 (frame_count_gt (len data) k) Hk) ltac:(unfold U32_MAX; lia))
    as (pct & _ & Hstep).
  rewrite Hnack in Hstep.
  rewrite <- app_assoc in Hrun |- *.
  rewrite Hstep.
  exists (if cb then pcts else []). split.
  - rewrite seq_S, map_app. cbn [Nat.add map]. now rewrite <- !app_assoc.
  - destruct cb; [|reflexivity].
    apply mapM_length in Hpcts. now rewrite length_seq in Hpcts.
Qed.

Lemma upload_stops_at_missing_ack_witness :
  exists pcts,
    upload_file (str "t.gcode") (repeat 65 (Z.to_nat 10000)) true
                (session [] [[str "ok"]; [str "ok"]; []; [str "ok"]] [])
    = (Ok false,
       session ([] ++ [upload_command (str "t.gcode") (len (repeat 65 (Z.to_nat 10000)))]
                   ++ map (frame_of (repeat 65 (Z.to_nat 10000))) (seq 0 2))
               [[str "ok"]] ([] ++ pcts))
    /\ List.length pcts = 1%nat.
Proof.
  refine (upload_stops_at_missing_ack (str "t.gcode") (repeat 65 (Z.to_nat 10000)) true
            [] [str "ok"] [[str "ok"]] [[]; [str "ok"]] []
            eq_refl _ eq_refl _ eq_refl _).
  - vm_compute. discriminate.
  - constructor; [reflexivity|constructor].
  - vm_compute. lia.
Defined.

(** The quotient of a positive integer by itself is the float 1.0. *)
Lemma round64_self (n : Z) :
  0 < n -> round64 false n n = FFinite false (2 ^ 52) (-52).
Proof.
  intros H. unfold round64.
  replace (n =? 0) with false by lia.
  replace (Z.log2 n - Z.log2 n - 52) with (-52) by lia.
  unfold scale2. change (0 <=? -52) with false. cbv beta iota.
  change (- -52) with 52.
  rewrite (Z.mul_comm n (2 ^ 52)), Z.div_mul by lia.
  rewrite Z.ltb_irrefl.
  change (Z.max (-52) (-1074)) with (-52). change (0 <=? -52) with false.
  cbv beta iota. change (- -52) with 52.
  unfold round_half_even.
  rewrite !(Z.mul_comm n (2 ^ 52)), !Z.div_mul, !Z.mod_mul by lia.
  replace (2 * 0 >? n) with false by lia.
  replace (2 * 0 =? n) with false by lia.
  cbn [andb]. reflexivity.
Qed.

Lemma truediv_self (n : Z) :
  0 < n -> truediv n n = Ok (FFinite false (2 ^ 52) (-52)).
Proof.
  intros H. unfold truediv.
  replace (n =? 0) with false by lia.
  replace (Z.sgn n * Z.sgn n <? 0) with false by lia.
  rewrite Z.abs_eq by lia. now rewrite round64_self.
Qed.

Lemma pct_after_all (data : bytes) :
  data <> [] -> pct_after data (frame_count (len data)) = Ok (PyFloat hundred).
Proof.
  intros Hd.
  assert (0 < len data) by (unfold len; destruct data; [congruence|cbn; lia]).
  unfold pct_after.
  replace (Z.min (8192 * Z.of_nat (frame_count (len data))) (len data)) with (len data).
  - rewrite truediv_self by assumption. reflexivity.
  - unfold frame_count. rewrite Z2Nat.id by (Z.div_mod_to_equations; lia).
    Z.div_mod_to_equations. lia.
Qed.

Lemma min_pct_capped (x : pyfloat) : num_lt (PyInt 100) (min_pct x) = false.
Proof.
  unfold min_pct. destruct (num_lt (PyInt 100) (PyFloat x)) eqn:E; [reflexivity|exact E].
Qed.

Lemma pct_after_capped (data : bytes) (i : nat) (pct : pynum) :
  pct_after data i = Ok pct -> num_lt (PyInt 100) pct = false.
Proof.
  unfold pct_after. destruct (truediv _ _); [|discriminate].
  cbn [bind]. intros [= <-]. apply min_pct_capped.
Qed.

Lemma frame_count_max (data : bytes) :
  len data <= 8192 * 4294967296 -> Z.of_nat (frame_count (len data)) <= 4294967296.
Proof.
  intros Hsize. unfold frame_count.
  rewrite Z2Nat.id by (unfold len; Z.div_mod_to_equations; lia).
  Z.div_mod_to_equations. lia.
Qed.

(** The run in which every wait ends in an acknowledgement. *)
Lemma upload_all_acked (filename : pstr) (data : bytes) (cb : bool)
    tx init acks rest calls :
  ascii filename ->
  len data <= 8192 * 4294967296 ->
  acked init ->
  List.length acks = frame_count (len data) ->
  Forall acked acks ->
  exists pcts,
    mapM (pct_after data) (seq 1 (frame_count (len data))) = Ok pcts
    /\ upload_file filename data cb (session tx (init :: acks ++ rest) calls)
       = (Ok true,
          session (tx ++ [upload_command filename (len data)] ++ frames data
                      ++ [upload_finish])
                  (tl rest) (calls ++ if cb then pcts else [])).
Proof.
  intros Ha Hsize Hinit Hlen Hacks.
  pose proof (frame_count_max data Hsize) as Hcount.
  destruct (frame_count_fuel data (frame_count (len data)) ltac:(lia))
    as (fuel & Hfuel & _).
  rewrite (upload_file_unfold filename data cb tx init _ calls Ha Hinit).
  rewrite Hfuel.
  destruct (upload_loop_acked data cb (frame_count (len data)) 0 fuel
              (tx ++ [upload_command filename (len data)]) acks rest calls
              Hlen Hacks ltac:(lia) ltac:(lia))
    as (pcts & Hpcts & Hloop).
  replace (Z.min (8192 * Z.of_nat 0) (len data)) with 0 in Hloop by (unfold len; lia).
  change (Z.of_nat 0) with 0 in Hloop.
  exists pcts. split; [exact Hpcts|].
  rewrite Hloop. cbn [Nat.add].
  rewrite upload_loop_eq.
  assert (Hall : len data <= 8192 * Z.of_nat (frame_count (len data))).
  { unfold frame_count. rewrite Z2Nat.id by (unfold len; Z.div_mod_to_equations; lia).
    Z.div_mod_to_equations. lia. }
  replace (Z.min (8192 * Z.of_nat (frame_count (len data))) (len data) <? len data)
    with false by lia.
  unfold ret, session, frames. cbn [XYZProtocol.tx XYZProtocol.rx].
  now rewrite <- !app_assoc.
Qed.

(** X9. An upload that is acknowledged throughout calls the progress
    callback once after every block, with [min(offset / size * 100, 100)]
    for the offset reached: no value is above 100 and the last one is the
    float 100.0.  Without a callback nothing is recorded. *)
Theorem upload_progress_reports (filename : pstr) (data : bytes)
    tx init acks rest calls :
  ascii filename ->
  data <> [] ->
  len data <= 8192 * 4294967296 ->
  acked init ->
  List.length acks = frame_count (len data) ->
  Forall acked acks ->
  (exists pcts,
     upload_file filename data true (session tx (init :: acks ++ rest) calls)
     = (Ok true,
        session (tx ++ [upload_command filename (len data)] ++ frames data
                    ++ [upload_finish])
                (tl rest) (calls ++ pcts))
     /\ mapM (pct_after data) (seq 1 (frame_count (len data))) = Ok pcts
     /\ List.length pcts = List.length (frames data)
     /\ Forall (fun pct => num_lt (PyInt 100) pct = false) pcts
     /\ last pcts (PyInt 0) = PyFloat hundred)
  /\ upload_file filename data false (session tx (init :: acks ++ rest) calls)
     = (Ok true,
        session (tx ++ [upload_command filename (len data)] ++ frames data
                    ++ [upload_finish])
                (tl rest) calls).
Proof.
  intros Ha Hd Hsize Hinit Hlen Hacks.
  pose proof (fun cb => upload_all_acked filename data cb tx init acks rest calls
                          Ha Hsize Hinit Hlen Hacks) as Hrun.
  split.
  - destruct (Hrun true) as (pcts & Hpcts & Hup).
    exists pcts. split; [exact Hup|]. split; [exact Hpcts|]. split; [|split].
    + apply mapM_length in Hpcts. rewrite Hpcts.
      unfold frames. now rewrite length_map, !length_seq.
    + eapply mapM_Forall; [|exact Hpcts]. intros i pct. apply pct_after_capped.
    + assert (Hpos : (0 < frame_count (len data))%nat).
      { apply frame_count_gt. unfold len. destruct data; [congruence|cbn; lia]. }
      destruct (frame_count (len data)) as [|n] eqn:En; [lia|].
      rewrite seq_S in Hpcts.
      apply (mapM_last _ _ _ _ (PyInt 0)) in Hpcts.
      cbn [Nat.add] in Hpcts. rewrite <- En, pct_after_all in Hpcts by exact Hd.
      now injection Hpcts as <-.
  - destruct (Hrun false) as (pcts & _ & Hup). rewrite Hup. now rewrite app_nil_r.
Qed.

Lemma upload_progress_reports_witness :
  upload_file (str "t.gcode") (repeat 65 (Z.to_nat 10000)) true
              (session [] [[str "ok"]; [str "ok"]; [str "ok"]; [str "ok"]] [])
  = (Ok true,
     session ([upload_command (str "t.gcode") 10000]
                ++ frames (repeat 65 (Z.to_nat 10000)) ++ [upload_finish])
             []
             [PyFloat (FFinite false 5764607523034235 (-46)); PyFloat hundred]).
Proof.
  destruct (upload_progress_reports (str "t.gcode") (repeat 65 (Z.to_nat 10000))
              [] [str "ok"] [[str "ok"]; [str "ok"]] [[str "ok"]] [])
    as [(pcts & Hup & Hpcts & _) _].
  - reflexivity.
  - discriminate.
  - vm_compute. discriminate.
  - reflexivity.
  - reflexivity.
  - repeat constructor.
  - vm_compute in Hpcts. injection Hpcts as <-. exact Hup.
Defined.

(** Either the first [n] waits all end in an acknowledgement, or there is a
    first one among them that does not. *)
Lemma acked_prefix (n : nat) :
  forall l : list (list bytes),
    ((n <= List.length l)%nat /\ Forall acked (firstn n l))
    \/ exists acks rest,
         l = acks ++ rest /\ (List.length acks < n)%nat /\ Forall acked acks
         /\ wait_loop [] (hd [] rest) = false.
Proof.
  induction n as [|n IH]; intros l.
  - left. split; [lia|constructor].
  - destruct l as [|a l].
    + right. exists [], []. repeat split; [cbn; lia|constructor].
    + destruct (wait_loop [] a) eqn:Ea.
      * destruct (IH l) as [[Hlen Hall]|(acks & rest & -> & Hlen & Hall & Hn)].
        -- left. split; [cbn; lia|]. cbn [firstn]. now constructor.
        -- right. exists (a :: acks), rest.
           repeat split; [cbn; lia|now constructor|exact Hn].
      * right. exists [], (a :: l). repeat split; [cbn; lia|constructor|exact Ea].
Qed.

Lemma upload_never_raises (filename : pstr) (data : bytes) (cb : bool)
    (self : XYZProtocol) :
  fst (upload_file filename data cb self) = Ok true
  \/ fst (upload_file filename data cb self) = Ok false.
Proof.
  unfold upload_file. destruct (negb (is_connected self)); [now right|].
  unfold try_except.
  match goal with |- context [match ?body self with _ => _ end] =>
    destruct (body self) as [[[|]|e] s] end; cbn [fst ret]; tauto.
Qed.

(** An upload returns [True] only when every wait but the last ended in an
    acknowledgement. *)
Lemma upload_true_inv (filename : pstr) (data : bytes) (cb : bool) tx rx calls :
  len data <= 8192 * 4294967296 ->
  fst (upload_file filename data cb (session tx rx calls)) = Ok true ->
  ascii filename
  /\ acked (hd [] rx)
  /\ (frame_count (len data) <= List.length (tl rx))%nat
  /\ Forall acked (firstn (frame_count (len data)) (tl rx)).
Proof.
  intros Hsize.
  destruct (forallb (in_range 0 127) filename) eqn:Ha.
  2: { unfold upload_file.
       cbn [is_connected session _connected _serial andb negb].
       unfold try_except, mbind at 1. unfold lift at 1, ascii_encode.
       rewrite !forallb_app, Ha. rewrite andb_false_r. discriminate. }
  destruct rx as [|init rx].
  { unfold upload_file.
    cbn [is_connected session _connected _serial andb negb].
    unfold try_except, mbind at 1. unfold lift at 1.
    rewrite (upload_command_encode filename (len data) Ha).
    unfold mbind at 1. rewrite write_session.
    unfold mbind at 1. rewrite wait_session_any. discriminate. }
  cbn [hd tl].
  destruct (wait_loop [] init) eqn:Hinit.
  2: { unfold upload_file.
       cbn [is_connected session _connected _serial andb negb].
       unfold try_except, mbind at 1. unfold lift at 1.
       rewrite (upload_command_encode filename (len data) Ha).
       unfold mbind at 1. rewrite write_session.
       unfold mbind at 1. rewrite wait_session, Hinit. discriminate. }
  destruct (acked_prefix (frame_count (len data)) rx)
    as [[Hlen Hall]|(acks & rest & -> & Hlen & Hall & Hn)].
  { intros _. repeat split; assumption. }
  pose proof (frame_count_max data Hsize) as Hcount.
  destruct (frame_count_fuel data (List.length acks) ltac:(lia))
    as (fuel & Hfuel & Hpos).
  specialize (Hpos Hlen). destruct fuel as [|fuel]; [lia|].
  rewrite (upload_file_unfold filename data cb tx init _ calls Ha Hinit).
  rewrite Hfuel.
  destruct (upload_loop_acked data cb (List.length acks) 0 (S fuel)
              (tx ++ [upload_command filename (len data)]) acks rest calls
              eq_refl Hall ltac:(lia) ltac:(lia))
    as (pcts & _ & Hrun).
  replace (Z.min (8192 * Z.of_nat 0) (len data)) with 0 in Hrun by (unfold len; lia).
  change (Z.of_nat 0) with 0 in Hrun.
  rewrite Hrun. cbn [Nat.add].
  destruct (upload_loop_step data cb (List.length acks) fuel
              ((tx ++ [upload_command filename (len data)])
                 ++ map (frame_of data) (seq 0 (List.length acks)))
              rest (calls ++ if cb then pcts else [])
              (proj1 (frame_count_gt (len data) (List.length acks)) Hlen)
              ltac:(unfold U32_MAX; lia))
    as (pct & _ & Hstep).
  rewrite Hn in Hstep. rewrite Hstep. discriminate.
Qed.

Lemma tl_skipn {A} (n : nat) (l : list A) : tl (skipn n l) = skipn (S n) l.
Proof.
  revert l. induction n as [|n IH]; intros l.
  - destruct l; reflexivity.
  - destruct l as [|x l]; [reflexivity|]. cbn [skipn]. rewrite IH. reflexivity.
Qed.

(** What is on the wire after an upload that returned [True]. *)
Lemma upload_true_wire (filename : pstr) (data : bytes) (cb : bool) tx rx calls :
  len data <= 8192 * 4294967296 ->
  fst (upload_file filename data cb (session tx rx calls)) = Ok true ->
  exists calls',
    upload_file filename data cb (session tx rx calls)
    = (Ok true,
       session (tx ++ [upload_command filename (len data)] ++ frames data
                   ++ [upload_finish])
               (skipn (S (frame_count (len data))) (tl rx)) calls').
Proof.
  intros Hsize H.
  destruct (upload_true_inv filename data cb tx rx calls Hsize H)
    as (Ha & Hinit & Hlen & Hall).
  destruct rx as [|init rx]; [discriminate Hinit|]. cbn [hd tl] in *.
  destruct (upload_all_acked filename data cb tx init
              (firstn (frame_count (len data)) rx)
              (skipn (frame_count (len data)) rx) calls
              Ha Hsize Hinit ltac:(rewrite length_firstn; lia) Hall)
    as (pcts & _ & E).
  rewrite firstn_skipn, tl_skipn in E. eauto.
Qed.

(** X21. For a payload of at most 8192 * 2^32 bytes on an open port,
    [upload_file] returns [True] exactly when the file name is ASCII, the
    first line is acknowledged and so is every one of the
    [ceil(size / 8192)] blocks; it never raises.  The answer to the closing
    line plays no part.  When it returns [True], the first line, every
    frame and the closing line are on the wire, in this order. *)
Theorem upload_succeeds_iff (filename : pstr) (data : bytes) (cb : bool) tx rx calls :
  len data <= 8192 * 4294967296 ->
  (fst (upload_file filename data cb (session tx rx calls)) = Ok true
   <-> ascii filename
       /\ acked (hd [] rx)
       /\ (frame_count (len data) <= List.length (tl rx))%nat
       /\ Forall acked (firstn (frame_count (len data)) (tl rx)))
  /\ (fst (upload_file filename data cb (session tx rx calls)) = Ok true
      \/ fst (upload_file filename data cb (session tx rx calls)) = Ok false)
  /\ (fst (upload_file filename data cb (session tx rx calls)) = Ok true ->
      exists calls',
        snd (upload_file filename data cb (session tx rx calls))
        = session (tx ++ [upload_command filename (len data)] ++ frames data
                      ++ [upload_finish])
                  (skipn (S (frame_count (len data))) (tl rx)) calls').
Proof.
  intros Hsize. split; [|split].
  - split; [now apply upload_true_inv|].
    intros (Ha & Hinit & Hlen & Hall).
    destruct rx as [|init rx]; [discriminate Hinit|]. cbn [hd tl] in *.
    destruct (upload_all_acked filename data cb tx init
                (firstn (frame_count (len data)) rx)
                (skipn (frame_count (len data)) rx) calls
                Ha Hsize Hinit ltac:(rewrite length_firstn; lia) Hall)
      as (pcts & _ & E).
    rewrite firstn_skipn in E. now rewrite E.
  - apply upload_never_raises.
  - intros H. destruct (upload_true_wire filename data cb tx rx calls Hsize H)
      as [calls' E].
    exists calls'. now rewrite E.
Qed.

Lemma upload_succeeds_iff_witness :
  fst (upload_file (str "t.gcode") (str "ABCDE") false
         (session [] [[str "ok"]; [str "o"; str "k"]; [str "error"]] []))
  = Ok true.
Proof.
  apply (proj1 (upload_succeeds_iff (str "t.gcode") (str "ABCDE") false []
                  [[str "ok"]; [str "o"; str "k"]; [str "error"]] []
                  ltac:(vm_compute; discriminate))).
  split; [reflexivity|]. split; [reflexivity|]. split; [vm_compute; lia|].
  repeat constructor.
Defined.

End UploadFacts.

(** ** Integers as text, and back *)







Lemma strip_nonspace (s : pstr) : Forall nonspace s -> strip s = s.
Proof.
  intros H. apply strip_fixed; [|now apply rstrip_nonspace].
  destruct s as [|c s]; [reflexivity|]. inversion H; subst. now apply lstrip_head.
Qed.


(** ** What every parsed status satisfies *)

Section StatusInvariants.
Import XYZProtocol.

Lemma assign_ints_well_formed fields (st : XYZPrinterStatus) :
  Forall (fun f => numeric (snd f)) fields ->
  well_formed st -> well_formed (assign_ints fields st).
Proof.
  intros Hf. revert st. induction Hf as [|[text set] fields Hset Hf IH]; intros st Hst.
  - exact Hst.
  - cbn [assign_ints]. destruct (int_of_str text); [|exact Hst].
    apply IH. now apply Hset.
Qed.

Lemma db_lookup_name (key : pstr) (info : PrinterInfo) :
  db_lookup key PRINTER_DB = Some info -> In (name info) catalogue_names.
Proof.
  unfold catalogue_names. generalize PRINTER_DB. intros db.
  induction db as [|[k v] db IH]; [discriminate|].
  cbn [db_lookup map In snd]. destruct (eqb k key).
  - intros [= ->]. now left.
  - intros H. right. now apply IH.
Qed.

Lemma parse_segment_well_formed (st : XYZPrinterStatus) (seg : pstr) :
  well_formed st -> well_formed (parse_segment st seg).
Proof.
  intros Hst. unfold parse_segment.
  destruct (strip seg) as [|key [|colon val]]; try exact Hst.
  assert (Hnum : forall fields, Forall (fun f => numeric (snd f)) fields ->
                                well_formed (assign_ints fields st)).
  { intros fields Hf. now apply assign_ints_well_formed. }
  assert (Hsetters :
    numeric set_state /\ numeric set_sub_state /\ numeric set_extruder_temp
    /\ numeric set_bed_temp /\ numeric set_extruder_target /\ numeric set_error_code
    /\ numeric set_print_pct /\ numeric set_print_elapsed_min
    /\ numeric set_print_remaining_min /\ numeric set_filament_remaining_mm
    /\ numeric set_z_offset).
  { repeat apply conj; intros ? ? Hs; exact Hs. }
  destruct Hsetters as (? & ? & ? & ? & ? & ? & ? & ? & ? & ? & ?).
  destruct Hst as (Hb & Hm & Hn & Hs & Hv).
  repeat match goal with
         | |- context [if ?c then _ else _] => destruct c
         end;
    try (apply Hnum; repeat (constructor; try assumption));
    try (repeat split; assumption).
  - destruct (db_lookup _ PRINTER_DB) as [info|] eqn:E.
    + repeat split; try assumption; cbn.
      * right. eapply db_lookup_name. exact E.
      * apply strip_idem.
    + repeat split; try assumption. apply strip_idem.
  - repeat split; try assumption. apply strip_idem.
  - repeat split; try assumption. apply strip_idem.
Qed.

(** X10. Whatever the printer answers, the status [query_status] builds
    from it has a bed target of 0 (no field of the report is stored there),
    a machine name that is empty or one of the database, and a model
    number, serial number and firmware version without whitespace at
    their ends. *)
Theorem parsed_status_well_formed (response : pstr) :
  well_formed (parse_status response)
  /\ forall self st self',
       query_status self = (Ok st, self') -> well_formed st.
Proof.
  assert (Hnew : well_formed new_status) by (repeat split; now left).
  assert (Hall : forall r, well_formed (parse_status r)).
  { intros r. unfold parse_status.
    generalize (splitlines r) new_status Hnew.
    intros lines. induction lines as [|line lines IH]; intros st Hst; [exact Hst|].
    cbn [fold_left]. apply IH. unfold parse_line.
    destruct (strip line) eqn:E; [exact Hst|]. rewrite <- E.
    generalize (split_segments (strip line)) st Hst. clear.
    intros segs. induction segs as [|seg segs IH]; intros st Hst; [exact Hst|].
    cbn [fold_left]. apply IH. now apply parse_segment_well_formed. }
  split; [apply Hall|].
  intros self st self'. unfold query_status, try_except, mbind.
  destruct (_send_command (str "XYZv3/query=a") self) as [[resp|e] s].
  - unfold ret. intros [= <- _]. apply Hall.
  - unfold ret. intros [= <- _]. exact Hnew.
Qed.

End StatusInvariants.

(** ** The numbers of a status report *)

Section StatusNumbers.
Import XYZProtocol.







Lemma ints_single (z : Z) : ints [z] = str_of_int z.
Proof. reflexivity. Qed.





End StatusNumbers.

(** ** Reading the z-offset *)

Section ZOffsetFacts.
Import XYZProtocol.
Import XYZFileConverter.









End ZOffsetFacts.

(** ** Scanning the serial ports *)

Section PortFacts.
Import XYZProtocol.

Lemma port_entry_device (p : PortInfo) (entry : pstr * pstr) :
  port_entry p = Some entry -> fst entry = device p.
Proof.
  unfold port_entry.
  repeat match goal with
         | |- context [if ?c then _ else _] => destruct c
         end; intros [= <-] || discriminate; reflexivity.
Qed.

Lemma port_entry_vid (p : PortInfo) :
  vid p = Some XYZ_VID -> exists entry, port_entry p = Some entry.
Proof.
  intros H. unfold port_entry. rewrite H.
  change (is_num (Some XYZ_VID) XYZ_VID) with true. cbn [andb].
  repeat match goal with
         | |- context [if ?c then _ else _] => destruct c
         end; eauto.
Qed.

Lemma length_entries (ports : list PortInfo) :
  (List.length (flat_map (fun p => match port_entry p with
                                   | Some entry => [entry]
                                   | None => []
                                   end) ports)
   <= List.length ports)%nat.
Proof.
  induction ports as [|p ports IH]; [apply le_n|].
  cbn [flat_map]. rewrite length_app. destruct (port_entry p); cbn [List.length]; lia.
Qed.

(** X13. With a port list that stays the same between the two scans,
    [detect_xyz_ports] returns nothing only when there is no port at all;
    every port with the XYZ vendor id is in the result; every entry names
    the device of a port that was listed, and there is at most one entry
    for each port.  When the first loop matches no port, all ports are
    returned, each with its description, or its device name when it has
    none. *)
Theorem detect_xyz_ports_lists (ports : list PortInfo) :
  (detect_xyz_ports (Ok ports) (Ok ports) = [] <-> ports = [])
  /\ (forall p, In p ports -> vid p = Some XYZ_VID ->
        In (device p) (map fst (detect_xyz_ports (Ok ports) (Ok ports))))
  /\ (forall entry, In entry (detect_xyz_ports (Ok ports) (Ok ports)) ->
        exists p, In p ports /\ fst entry = device p)
  /\ (List.length (detect_xyz_ports (Ok ports) (Ok ports)) <= List.length ports)%nat
  /\ ((forall p, In p ports -> port_entry p = None) ->
        detect_xyz_ports (Ok ports) (Ok ports)
        = map (fun p => (device p, or_text (description p) (device p))) ports).
Proof.
  unfold detect_xyz_ports.
  pose proof (length_entries ports) as Hlen.
  set (entries := flat_map (fun p => match port_entry p with
                                     | Some entry => [entry]
                                     | None => []
                                     end) ports) in *.
  assert (Hin : forall entry, In entry entries ->
                  exists p, In p ports /\ port_entry p = Some entry).
  { intros entry H. apply in_flat_map in H. destruct H as (p & Hp & H).
    exists p. split; [exact Hp|].
    destruct (port_entry p); [|contradiction].
    destruct H as [->|[]]. reflexivity. }
  split; [|split; [|split; [|split]]].
  - split.
    + destruct entries; [|discriminate]. apply map_eq_nil.
    + intros ->. reflexivity.
  - intros p Hp Hv. destruct (port_entry_vid p Hv) as [entry He].
    assert (Hentry : In entry entries).
    { apply in_flat_map. exists p. split; [exact Hp|]. rewrite He. now left. }
    destruct entries as [|e es]; [contradiction|].
    rewrite <- (port_entry_device p entry He). now apply in_map.
  - intros entry H. destruct entries as [|e es].
    + apply in_map_iff in H. destruct H as (p & <- & Hp). now exists p.
    + destruct (Hin entry H) as (p & Hp & He). exists p.
      split; [exact Hp|]. now apply port_entry_device.
  - destruct entries; [now rewrite length_map|exact Hlen].
  - intros Hnone. destruct entries as [|e es]; [reflexivity|].
    destruct (Hin e (or_introl eq_refl)) as (p & Hp & He).
    rewrite (Hnone p Hp) in He. discriminate He.
Qed.

End PortFacts.

(** ** The header, byte by byte *)

Section HeaderFacts.
Import XYZFileConverter.

Lemma set_slice_skip (a rest : bytes) (off : nat) (bs : bytes) :
  (List.length a <= off)%nat ->
  set_slice (a ++ rest) off bs = a ++ set_slice rest (off - List.length a) bs.
Proof.
  intros H. unfold set_slice.
  rewrite firstn_app, firstn_all2 by exact H.
  rewrite skipn_app, skipn_all2 by lia.
  rewrite <- app_assoc. cbn [app].
  replace (off + List.length bs - List.length a)%nat
    with (off - List.length a + List.length bs)%nat by lia.
  reflexivity.
Qed.

Lemma set_slice_here (b c : bytes) (off : nat) (bs : bytes) :
  off = O -> List.length b = List.length bs ->
  set_slice (b ++ c) off bs = bs ++ c.
Proof.
  intros -> H. unfold set_slice. cbn [firstn app Nat.add].
  rewrite <- H, skipn_app, skipn_all, Nat.sub_diag. reflexivity.
Qed.

Lemma header_blocks (ver mb b80 b84 b88 b96 b100 b104 : bytes) :
  List.length ver = 4%nat -> (List.length mb <= 32)%nat ->
  List.length b80 = 4%nat -> List.length b84 = 4%nat -> List.length b88 = 4%nat ->
  List.length b96 = 4%nat -> List.length b100 = 4%nat -> List.length b104 = 4%nat ->
  set_slice
    (set_slice
       (set_slice
          (set_slice
             (set_slice
                (set_slice
                   (set_slice
                      (set_slice
                         (set_slice (repeat 0 (Z.to_nat HEADER_SIZE)) 0 MAGIC)
                         16 ver)
                      32 mb)
                   80 b80)
                84 b84)
             88 b88)
          96 b96)
       100 b100)
    104 b104
  = MAGIC ++ ver ++ repeat 0 12 ++ mb ++ repeat 0 (48 - List.length mb)
    ++ b80 ++ b84 ++ b88 ++ repeat 0 4 ++ b96 ++ b100 ++ b104
    ++ repeat 0 (Z.to_nat 8192 - 108).
Proof.
  intros Lver Lmb L80 L84 L88 L96 L100 L104.
  assert (LM : List.length MAGIC = 16%nat) by reflexivity.
  replace (repeat 0 (Z.to_nat HEADER_SIZE))
    with (repeat 0 16 ++ repeat 0 4 ++ repeat 0 12 ++ repeat 0 (List.length mb)
          ++ repeat 0 (48 - List.length mb)
          ++ repeat 0 4 ++ repeat 0 4 ++ repeat 0 4 ++ repeat 0 4
          ++ repeat 0 4 ++ repeat 0 4 ++ repeat 0 4
          ++ repeat 0 (Z.to_nat 8192 - 108)).
  2: { rewrite <- !repeat_app. f_equal. unfold HEADER_SIZE. lia. }
  repeat first [ rewrite set_slice_here by (rewrite ?repeat_length; lia)
               | rewrite set_slice_skip by (rewrite ?repeat_length; lia) ].
  reflexivity.
Qed.

Lemma header_layout_length (self : XYZFileConverter) (body_size encrypted_size t fi : Z) :
  List.length (header_layout self body_size encrypted_size t fi) = Z.to_nat 8192.
Proof.
  unfold header_layout, le32, MAGIC.
  rewrite !length_app, !repeat_length. cbn [List.length str map list_ascii_of_string].
  assert (List.length (firstn 32 (model_number self)) <= 32)%nat
    by (rewrite length_firstn; lia).
  lia.
Qed.

(** When the header is built, its inputs were in range. *)
Lemma build_header_ranges (self : XYZFileConverter) (body_size encrypted_size t : Z)
    (f : pynum) (h : bytes) :
  _build_header self body_size encrypted_size t f = Ok h ->
  exists fi,
    int_of_num f = Ok fi
    /\ ascii (model_number self)
    /\ 0 <= encrypted_size <= U32_MAX
    /\ 0 <= body_size <= U32_MAX
    /\ 0 <= t <= U32_MAX
    /\ 0 <= fi <= U32_MAX.
Proof.
  unfold _build_header, pack_into_u32.
  rewrite (pack_u32_le_ok 2) by (unfold U32_MAX; lia). cbn [bind].
  rewrite (pack_u32_le_ok HEADER_SIZE) by (unfold U32_MAX, HEADER_SIZE; lia).
  unfold ascii_encode.
  destruct (forallb (in_range 0 127) (model_number self)) eqn:HM; [|discriminate].
  cbn [bind].
  destruct (pack_u32_le_cases encrypted_size) as [[He ->]|[_ ->]]; [|discriminate].
  cbn [bind].
  destruct (pack_u32_le_cases body_size) as [[Hb ->]|[_ ->]]; [|discriminate].
  cbn [bind].
  destruct (pack_u32_le_cases t) as [[Ht ->]|[_ ->]]; [|discriminate].
  cbn [bind].
  destruct (int_of_num f) as [fi|e]; [|discriminate]. cbn [bind].
  destruct (pack_u32_le_cases fi) as [[Hfi ->]|[_ ->]]; [|discriminate].
  intros _. exists fi. split; [reflexivity|].
  repeat (split; [assumption|]). assumption.
Qed.

(** With inputs in range the header is the layout. *)
Lemma build_header_in_range (self : XYZFileConverter) (body_size encrypted_size t : Z)
    (f : pynum) (fi : Z) :
  int_of_num f = Ok fi ->
  ascii (model_number self) ->
  0 <= encrypted_size <= U32_MAX ->
  0 <= body_size <= U32_MAX ->
  0 <= t <= U32_MAX ->
  0 <= fi <= U32_MAX ->
  _build_header self body_size encrypted_size t f
  = Ok (header_layout self body_size encrypted_size t fi).
Proof.
  intros Hf HM He Hb Ht Hfi.
  assert (L4 : forall v, List.length (le32 v) = 4%nat) by reflexivity.
  assert (Lmb : (List.length (firstn 32 (model_number self)) <= 32)%nat)
    by (rewrite length_firstn; lia).
  unfold _build_header, pack_into_u32.
  rewrite (pack_u32_le_ok 2) by (unfold U32_MAX; lia). cbn [bind].
  rewrite (pack_u32_le_ok HEADER_SIZE) by (unfold U32_MAX, HEADER_SIZE; lia).
  rewrite (pack_u32_le_ok (if use_ecb self then 2 else 1))
    by (unfold U32_MAX; destruct (use_ecb self); lia).
  rewrite (ascii_encode_ok _ HM). cbn [bind].
  rewrite (pack_u32_le_ok encrypted_size) by assumption. cbn [bind].
  rewrite (pack_u32_le_ok body_size) by assumption. cbn [bind].
  rewrite (pack_u32_le_ok t) by assumption. cbn [bind].
  rewrite Hf. cbn [bind].
  rewrite (pack_u32_le_ok fi) by assumption. cbn [bind].
  f_equal. apply header_blocks; try apply L4; exact Lmb.
Qed.

(** X14. [_build_header] returns exactly when the model number is ASCII
    and the two sizes, the print time and [int(filament_mm)] fit in 32
    bits, and what it returns is then known byte by byte: the signature,
    version 2 at offset 16, the model number cut to 32 bytes at offset 32,
    the six little-endian fields from offset 80 on, and zeros everywhere
    else, 8192 bytes in all. *)
Theorem build_header_layout (self : XYZFileConverter) (body_size encrypted_size t : Z)
    (f : pynum) (h : bytes) :
  (_build_header self body_size encrypted_size t f = Ok h <->
   exists fi,
     int_of_num f = Ok fi
     /\ ascii (model_number self)
     /\ 0 <= encrypted_size <= U32_MAX
     /\ 0 <= body_size <= U32_MAX
     /\ 0 <= t <= U32_MAX
     /\ 0 <= fi <= U32_MAX
     /\ h = header_layout self body_size encrypted_size t fi)
  /\ forall fi,
       List.length (header_layout self body_size encrypted_size t fi) = Z.to_nat 8192.
Proof.
  split; [|intros fi; apply header_layout_length].
  split.
  - intros H.
    destruct (build_header_ranges _ _ _ _ _ _ H) as (fi & Hf & HM & He & Hb & Ht & Hfi).
    exists fi. repeat (split; [assumption|]).
    rewrite (build_header_in_range _ _ _ _ _ _ Hf HM He Hb Ht Hfi) in H.
    now injection H as <-.
  - intros (fi & Hf & HM & He & Hb & Ht & Hfi & ->).
    now apply build_header_in_range.
Qed.

End HeaderFacts.

(** ** Padding *)

Section PaddingFacts.
Import XYZFileConverter.

Lemma last_n_app_long {A} (a t : list A) (n : Z) :
  List.length t = Z.to_nat n ->
  last_n n (a ++ t) = t /\ drop_last_n n (a ++ t) = a.
Proof.
  intros H. unfold last_n, drop_last_n. rewrite length_app, <- H.
  replace (List.length a + List.length t - List.length t)%nat
    with (List.length a) by lia.
  split.
  - rewrite skipn_app, skipn_all, Nat.sub_diag. reflexivity.
  - rewrite firstn_app, firstn_all, Nat.sub_diag. cbn [firstn]. apply app_nil_r.
Qed.

Lemma last_n_short {A} (l : list A) (n : Z) :
  (List.length l <= Z.to_nat n)%nat ->
  last_n n l = l /\ drop_last_n n l = [].
Proof.
  intros H. unfold last_n, drop_last_n.
  replace (List.length l - Z.to_nat n)%nat with O by lia. split; reflexivity.
Qed.

Lemma last_n_split {A} (l : list A) (n : Z) : l = drop_last_n n l ++ last_n n l.
Proof. unfold last_n, drop_last_n. symmetry. apply firstn_skipn. Qed.

Lemma length_last_n {A} (l : list A) (n : Z) :
  List.length (last_n n l) = Nat.min (Z.to_nat n) (List.length l).
Proof. unfold last_n. rewrite length_skipn. lia. Qed.

Lemma forallb_eq_repeat (p : Z) (l : bytes) :
  forallb (fun b => b =? p) l = true -> l = repeat p (List.length l).
Proof.
  induction l as [|x l IH]; [reflexivity|].
  cbn [forallb List.length repeat]. intros H. apply andb_true_iff in H.
  destruct H as [Hx Hl]. apply Z.eqb_eq in Hx. subst x. f_equal. now apply IH.
Qed.

(** What the removal of the padding does to any buffer. *)
Lemma strip_padding_cases (d : bytes) :
  (strip_padding d = d
   /\ ((0 <? last d 0) && (last d 0 <=? 16)
       && forallb (fun b => b =? last d 0) (last_n (last d 0) d) = false \/ d = []))
  \/ (strip_padding d = drop_last_n (last d 0) d
      /\ 1 <= last d 0 <= 16
      /\ last_n (last d 0) d = repeat (last d 0) (List.length (last_n (last d 0) d))).
Proof.
  unfold strip_padding. destruct d as [|x d]; [left; split; [reflexivity|now right]|].
  set (l := x :: d). set (p := last l 0).
  destruct ((0 <? p) && (p <=? 16) && forallb (fun b => b =? p) (last_n p l)) eqn:E.
  - right. apply andb_true_iff in E. destruct E as [E1 E2].
    apply andb_true_iff in E1. split; [reflexivity|]. split; [lia|].
    now apply forallb_eq_repeat.
  - left. split; [reflexivity|now left].
Qed.

Lemma strip_padding_repeat (data : bytes) (n : Z) :
  1 <= n <= 16 -> strip_padding (data ++ repeat n (Z.to_nat n)) = data.
Proof.
  intros H.
  destruct (Z.to_nat n) as [|k] eqn:Ek; [lia|].
  assert (Hlast : last (data ++ repeat n (S k)) 0 = n).
  { change (repeat n (S k)) with (n :: repeat n k).
    rewrite repeat_cons, app_assoc. apply last_last. }
  destruct (last_n_app_long data (repeat n (S k)) n) as [Hl Hd].
  { rewrite repeat_length. lia. }
  unfold strip_padding.
  destruct (data ++ repeat n (S k)) as [|x l] eqn:El.
  { destruct data; discriminate El. }
  rewrite <- El in *. clear El x l. rewrite Hlast, Hl, Hd.
  rewrite forallb_repeat by apply Z.eqb_refl.
  replace ((0 <? n) && (n <=? 16)) with true by lia. reflexivity.
Qed.

(** X15. [_pkcs7_pad] appends [n] bytes of value [n], where [n] is the
    block size less the length modulo the block size: at least one byte,
    a whole block when the data is aligned already, so the test for a
    padding of zero never fires.  The padded length is a multiple of the
    block size, and for blocks of up to 16 bytes the padding removal of the
    decoder gives the data back. *)
Theorem pkcs7_pad_shape (data : bytes) (block_size : Z) :
  0 < block_size <= 255 ->
  exists n,
    n = block_size - len data mod block_size
    /\ 1 <= n <= block_size
    /\ _pkcs7_pad data block_size = data ++ repeat n (Z.to_nat n)
    /\ len (_pkcs7_pad data block_size) = len data + n
    /\ len (_pkcs7_pad data block_size) mod block_size = 0
    /\ (block_size <= 16 -> strip_padding (_pkcs7_pad data block_size) = data).
Proof.
  intros H. exists (block_size - len data mod block_size).
  set (n := block_size - len data mod block_size).
  assert (Hn : 1 <= n <= block_size).
  { subst n. pose proof (Z.mod_pos_bound (len data) block_size ltac:(lia)). lia. }
  assert (Hpad : _pkcs7_pad data block_size = data ++ repeat n (Z.to_nat n)).
  { unfold _pkcs7_pad. fold n. replace (n =? 0) with false by lia. reflexivity. }
  assert (Hlen : len (_pkcs7_pad data block_size) = len data + n).
  { rewrite Hpad. unfold len. rewrite length_app, repeat_length. lia. }
  split; [reflexivity|]. split; [exact Hn|]. split; [exact Hpad|].
  split; [exact Hlen|]. split.
  - rewrite Hlen. subst n.
    replace (len data + (block_size - len data mod block_size))
      with (len data - len data mod block_size + 1 * block_size) by lia.
    rewrite Z.mod_add by lia.
    rewrite Zminus_mod, Zmod_mod, Z.sub_diag. apply Zmod_0_l.
  - intros H16. rewrite Hpad. apply strip_padding_repeat. lia.
Qed.

Lemma pkcs7_pad_shape_witness :
  _pkcs7_pad (str "0123456789abcdef") 16
  = str "0123456789abcdef" ++ repeat 16 (Z.to_nat 16)
  /\ strip_padding (_pkcs7_pad (str "0123456789abcdef") 16) = str "0123456789abcdef".
Proof.
  destruct (pkcs7_pad_shape (str "0123456789abcdef") 16 ltac:(lia))
    as (n & Hn & _ & Hpad & _ & _ & Hstrip).
  split; [|apply Hstrip; lia].
  rewrite Hpad, Hn. reflexivity.
Defined.


End PaddingFacts.

(** ** The CBC container *)

Section CbcFacts.
Import XYZFileConverter.

Lemma utf8_encode_split (s1 s2 : pstr) (b : bytes) :
  utf8_encode (s1 ++ s2) = Ok b ->
  exists b1 b2, utf8_encode s1 = Ok b1 /\ utf8_encode s2 = Ok b2 /\ b = b1 ++ b2.
Proof.
  revert b. induction s1 as [|c s1 IH]; intros b H.
  - exists [], b. repeat split. exact H.
  - cbn [app utf8_encode] in H |- *.
    destruct (utf8_encode_cp c) as [bc|]; [|discriminate H].
    destruct (utf8_encode (s1 ++ s2)) as [r|] eqn:E; [|discriminate H].
    cbn [bind] in H. injection H as <-.
    destruct (IH r eq_refl) as (b1 & b2 & -> & H2 & ->).
    exists (bc ++ b1), b2. cbn [bind]. repeat split; [exact H2|apply app_assoc].
Qed.

Lemma utf8_encode_join (s1 s2 : pstr) (b1 b2 : bytes) :
  utf8_encode s1 = Ok b1 -> utf8_encode s2 = Ok b2 ->
  utf8_encode (s1 ++ s2) = Ok (b1 ++ b2).
Proof.
  revert b1. induction s1 as [|c s1 IH]; intros b1 H1 H2.
  - injection H1 as <-. exact H2.
  - cbn [app utf8_encode] in H1 |- *.
    destruct (utf8_encode_cp c) as [bc|]; [|discriminate H1].
    destruct (utf8_encode s1) as [r|]; [|discriminate H1].
    cbn [bind] in H1. injection H1 as <-.
    rewrite (IH r eq_refl H2). cbn [bind]. now rewrite app_assoc.
Qed.

Lemma utf8_encode_lf (k : nat) : utf8_encode (repeat 10 k) = Ok (repeat 10 k).
Proof.
  induction k as [|k IH]; [reflexivity|].
  cbn [repeat utf8_encode]. change (utf8_encode_cp 10) with (Some [10]).
  rewrite IH. reflexivity.
Qed.

(** The last byte of the encoding of a code point is below 128 only for a
    code point below 128, which is then that byte. *)
Lemma utf8_cp_last (c : Z) (bc : bytes) :
  utf8_encode_cp c = Some bc ->
  exists bc0 l, bc = bc0 ++ [l] /\ (l < 128 -> bc0 = [] /\ l = c).
Proof.
  unfold utf8_encode_cp.
  destruct (c <? 0); [discriminate|].
  destruct (c <? 128); [intros [= <-]; exists [], c; now split|].
  destruct (c <? 2048).
  { intros [= <-]. exists [192 + c / 64], (128 + c mod 64). split; [reflexivity|].
    pose proof (Z.mod_pos_bound c 64 ltac:(lia)). lia. }
  destruct (c <? 65536).
  { destruct (in_range 55296 57343 c); [discriminate|]. intros [= <-].
    exists [224 + c / 4096; 128 + (c / 64) mod 64], (128 + c mod 64).
    split; [reflexivity|]. pose proof (Z.mod_pos_bound c 64 ltac:(lia)). lia. }
  destruct (c <? 1114112); [|discriminate]. intros [= <-].
  exists [240 + c / 262144; 128 + (c / 4096) mod 64; 128 + (c / 64) mod 64],
         (128 + c mod 64).
  split; [reflexivity|]. pose proof (Z.mod_pos_bound c 64 ltac:(lia)). lia.
Qed.

Lemma utf8_encode_nil (s : pstr) : utf8_encode s = Ok [] -> s = [].
Proof.
  destruct s as [|c s]; [reflexivity|]. cbn [utf8_encode].
  destruct (utf8_encode_cp c) as [bc|] eqn:E; [|discriminate].
  destruct (utf8_encode s); [|discriminate]. cbn [bind]. intros [= H].
  destruct (utf8_cp_last c bc E) as (bc0 & l & -> & _).
  destruct bc0; discriminate H.
Qed.

(** Line feeds at the end of the bytes are line feeds at the end of the
    text. *)
Lemma utf8_lf_suffix (k : nat) :
  forall (s : pstr) (b0 : bytes),
    utf8_encode s = Ok (b0 ++ repeat 10 k) ->
    exists s0, s = s0 ++ repeat 10 k /\ utf8_encode s0 = Ok b0.
Proof.
  induction k as [|k IH]; intros s b0 H.
  - exists s. cbn [repeat] in *. rewrite !app_nil_r in *. now split.
  - change (repeat 10 (S k)) with (10 :: repeat 10 k) in *.
    rewrite repeat_cons in H |- *. rewrite app_assoc in H.
    destruct (exists_last (l := s)) as (s' & c & ->).
    { intros ->. cbn in H. injection H as H.
      destruct (b0 ++ repeat 10 k); discriminate H. }
    destruct (utf8_encode_split s' [c] _ H) as (b1 & b2 & H1 & H2 & E).
    cbn [utf8_encode] in H2.
    destruct (utf8_encode_cp c) as [bc|] eqn:Ec; [|discriminate H2].
    cbn [bind] in H2. injection H2 as <-. rewrite app_nil_r in E.
    destruct (utf8_cp_last c bc Ec) as (bc0 & l & -> & Hl).
    rewrite app_assoc in E. apply app_inj_tail in E. destruct E as [E <-].
    destruct (Hl ltac:(lia)) as [-> <-]. rewrite app_nil_r in E. subst b1.
    destruct (IH s' b0 H1) as (s0 & -> & H0).
    exists s0. split; [now rewrite app_assoc|exact H0].
Qed.

(** The test for ten line feeds at the end gives the same on a text and on
    its bytes, and so does their removal. *)
Lemma utf8_lf_tail (s : pstr) (b : bytes) :
  utf8_encode s = Ok b ->
  forallb (fun x => x =? 10) (last_n 10 b) = forallb (fun x => x =? 10) (last_n 10 s)
  /\ (forallb (fun x => x =? 10) (last_n 10 b) = true ->
      utf8_decode_replace (drop_last_n 10 b) = drop_last_n 10 s).
Proof.
  intros H.
  assert (Hb : forallb (fun x => x =? 10) (last_n 10 b) = true ->
               forallb (fun x => x =? 10) (last_n 10 s) = true
               /\ utf8_decode_replace (drop_last_n 10 b) = drop_last_n 10 s).
  { intros Hall. apply forallb_eq_repeat in Hall.
    pose proof (last_n_split b 10) as Eb. rewrite Hall in Eb.
    rewrite length_last_n in Eb.
    rewrite Eb in H.
    destruct (utf8_lf_suffix _ s _ H) as (s0 & Es & H0).
    destruct (Nat.le_gt_cases (Z.to_nat 10) (List.length b)) as [Hlong|Hshort].
    - replace (Nat.min (Z.to_nat 10) (List.length b)) with (Z.to_nat 10) in * by lia.
      destruct (last_n_app_long s0 (repeat 10 (Z.to_nat 10)) 10 (repeat_length _ _))
        as [Hl Hd].
      rewrite Es, Hl, Hd. split; [reflexivity|].
      now apply utf8_decode_encode.
    - destruct (last_n_short b 10 ltac:(lia)) as [_ Hd]. rewrite Hd in *.
      apply utf8_encode_nil in H0. subst s0. cbn [app] in Es.
      destruct (last_n_short s 10) as [Hl' Hd'].
      { rewrite Es, repeat_length. lia. }
      rewrite Hl', Hd', Es. split; [|reflexivity].
      apply forallb_repeat. reflexivity. }
  assert (Hs : forallb (fun x => x =? 10) (last_n 10 s) = true ->
               forallb (fun x => x =? 10) (last_n 10 b) = true).
  { intros Hall. apply forallb_eq_repeat in Hall.
    pose proof (last_n_split s 10) as Es. rewrite Hall in Es.
    rewrite length_last_n in Es.
    remember (Nat.min (Z.to_nat 10) (List.length s)) as k eqn:Hk.
    rewrite Es in H.
    destruct (utf8_encode_split _ _ _ H) as (b1 & b2 & H1 & H2 & ->).
    rewrite utf8_encode_lf in H2. injection H2 as <-.
    destruct (Nat.le_gt_cases (Z.to_nat 10) (List.length s)) as [Hlong|Hshort].
    - destruct (last_n_app_long b1 (repeat 10 k) 10) as [Hl _].
      { rewrite repeat_length. lia. }
      rewrite Hl. apply forallb_repeat. reflexivity.
    - destruct (last_n_short s 10 ltac:(lia)) as [_ Hd]. rewrite Hd in H1.
      injection H1 as <-. cbn [app].
      destruct (last_n_short (repeat 10 k) 10) as [Hl _].
      { rewrite repeat_length. lia. }
      rewrite Hl. apply forallb_repeat. reflexivity. }
  split.
  - destruct (forallb (fun x => x =? 10) (last_n 10 b)) eqn:E1.
    + symmetry. now apply Hb.
    + destruct (forallb (fun x => x =? 10) (last_n 10 s)) eqn:E2; [|reflexivity].
      now apply Hs.
  - intros Hall. now apply Hb.
Qed.

Lemma len_cbc_body (aes : AES) (zip : ZipCodec) (body : bytes) :
  cbc_lawful aes -> len (cbc_body aes zip body) mod 16 = 0.
Proof.
  intros Haes.
  pose proof (proj2 (len_pkcs7_pad (zip_writestr zip (str "model.gcode") body))) as H.
  destruct (Haes _AES_KEY_BASE _AES_IV _ H) as [_ Hl].
  unfold cbc_body, len in *. now rewrite Hl.
Qed.

Lemma convert_cbc (aes : AES) (zip : ZipCodec) (self : XYZFileConverter)
    (gcode : pstr) (t : Z) (f : pynum) (processed : pstr) (body : bytes) :
  use_ecb self = false ->
  _preprocess_gcode self gcode t f = Ok processed ->
  utf8_encode processed = Ok body ->
  convert_gcode_to_3w aes zip self gcode t f
  = (header <- _build_header self (len body) (len (cbc_body aes zip body)) t f ;;
     Ok (header ++ cbc_body aes zip body)).
Proof.
  intros He Hp Hb. unfold convert_gcode_to_3w.
  rewrite Hp. cbn [bind]. rewrite Hb. cbn [bind]. rewrite He.
  unfold _encrypt_cbc_zip, cipher_call.
  rewrite (proj2 (len_pkcs7_pad _)). cbn [Z.eqb bind]. reflexivity.
Qed.

Lemma strip_padding_length (d : bytes) :
  (List.length (strip_padding d) <= List.length d)%nat.
Proof.
  destruct (strip_padding_cases d) as [[-> _]|[-> _]]; [lia|].
  unfold drop_last_n. rewrite length_firstn. lia.
Qed.

(** A container built for a CBC model decodes to the text of its body
    after the removal of what looks like padding at its end. *)
Lemma decrypt_cbc_container (aes : AES) (zip : ZipCodec) (self : XYZFileConverter)
    (body : bytes) (t fi : Z) (h : bytes) (model : pstr) :
  cbc_lawful aes ->
  zip_lawful zip ->
  use_ecb self = false ->
  header_fields self (len body) (len (cbc_body aes zip body)) t fi h ->
  decrypt_3w_to_gcode aes zip (h ++ cbc_body aes zip body) model
  = Ok (utf8_decode_replace (strip_padding body)).
Proof.
  intros Haes Hzip He [Hlen _ Hoff Henc Hbody _ _ Htype].
  unfold decrypt_3w_to_gcode.
  replace (len (h ++ cbc_body aes zip body) <? 8192) with false
    by (symmetry; apply Z.ltb_ge; unfold len; rewrite length_app; lia).
  rewrite !unpack_app by lia.
  rewrite Hoff, Henc, Hbody, Htype, He. cbn [Z.eqb Pos.eqb].
  rewrite slice_body by assumption.
  unfold cipher_call. rewrite (len_cbc_body aes zip body Haes).
  cbn [Z.eqb bind]. unfold cbc_body.
  rewrite (proj1 (Haes _AES_KEY_BASE _AES_IV _ (proj2 (len_pkcs7_pad _)))).
  rewrite Hzip. cbn [bind].
  destruct (0 <? len body); [|reflexivity].
  unfold slice. cbn [Z.to_nat skipn]. rewrite Z.sub_0_r.
  rewrite firstn_all2; [reflexivity|].
  pose proof (strip_padding_length body). unfold len. lia.
Qed.

Lemma strip_padding_lf (d : bytes) :
  d <> [] -> last d 0 = 10 ->
  strip_padding d
  = if forallb (fun b => b =? 10) (last_n 10 d) then drop_last_n 10 d else d.
Proof.
  intros Hne Hlast. unfold strip_padding. destruct d as [|x d]; [congruence|].
  rewrite Hlast. reflexivity.
Qed.

Lemma toy_aes_cbc_lawful : cbc_lawful toy_aes.
Proof.
  intros key iv data _. cbn [toy_aes cbc_encrypt cbc_decrypt]. unfold xor_cipher.
  split; [|apply length_map].
  rewrite map_map. rewrite <- (map_id data) at 2. apply map_ext.
  intros b. now rewrite Z.lxor_assoc, Z.lxor_nilpotent, Z.lxor_0_r.
Qed.

Lemma padded_zip_lawful : zip_lawful padded_zip.
Proof. intros name data. cbn [padded_zip zip_read_first zip_writestr]. now rewrite strip_padding_pad. Qed.

(** X16. For a model of the CBC class, with a CBC cipher that undoes
    itself and an archive reader that finds the entry before the padding:
    when the header fields fit, the container is built, and decoding it
    gives the preprocessed text back, unless that text ends in ten line
    feeds.  The decoder looks for padding after unpacking the archive
    too, takes the ten line feeds for it and returns the text without
    them. *)
Theorem cbc_roundtrip (aes : AES) (zip : ZipCodec) (self : XYZFileConverter)
    (gcode : pstr) (t : Z) (f : pynum) (fi : Z) (processed : pstr) (body : bytes) :
  cbc_lawful aes ->
  zip_lawful zip ->
  use_ecb self = false ->
  ascii (model_number self) ->
  _preprocess_gcode self gcode t f = Ok processed ->
  utf8_encode processed = Ok body ->
  0 <= t <= U32_MAX ->
  int_of_num f = Ok fi ->
  0 <= fi <= U32_MAX ->
  len body <= U32_MAX ->
  len (cbc_body aes zip body) <= U32_MAX ->
  exists container,
    convert_gcode_to_3w aes zip self gcode t f = Ok container
    /\ len container = 8192 + len (cbc_body aes zip body)
    /\ forall model,
         decrypt_3w_to_gcode aes zip container model
         = Ok (if forallb (fun c => c =? 10) (last_n 10 processed)
               then drop_last_n 10 processed
               else processed).
Proof.
  intros Haes Hzip He HM Hp Hb Ht Hf Hfi Hbody Henc.
  destruct (build_header_ok self (len body) (len (cbc_body aes zip body)) t f fi
              HM ltac:(unfold len in *; lia) ltac:(unfold len in *; lia) Ht Hf Hfi)
    as (h & Hh & Hfields).
  exists (h ++ cbc_body aes zip body). split; [|split].
  - rewrite (convert_cbc aes zip self gcode t f processed body He Hp Hb), Hh.
    reflexivity.
  - unfold len. rewrite length_app, (hf_length _ _ _ _ _ _ Hfields). lia.
  - intros model.
    rewrite (decrypt_cbc_container aes zip self body t fi h model Haes Hzip He Hfields).
    destruct (preprocess_ends_with_newline self gcode t f processed Hp) as [text ->].
    destruct (utf8_encode_split text [10] body Hb) as (b1 & b2 & H1 & H2 & ->).
    injection H2 as <-.
    rewrite strip_padding_lf
      by (try apply last_last; intros E; apply app_eq_nil in E; destruct E; discriminate).
    destruct (utf8_lf_tail _ _ Hb) as [Hsame Hdrop].
    rewrite <- Hsame.
    destruct (forallb (fun b => b =? 10) (last_n 10 (b1 ++ [10]))).
    + f_equal. now apply Hdrop.
    + f_equal. now apply utf8_decode_encode.
Qed.

Lemma cbc_roundtrip_witness :
  exists container,
    convert_gcode_to_3w toy_aes padded_zip junior
      (str "G1 X1" ++ repeat 10 (Z.to_nat 10)) 60 (PyInt 1000) = Ok container
    /\ decrypt_3w_to_gcode toy_aes padded_zip container []
       = Ok (str "; machine = dv1JP0A000
; print_time = 60
; total_filament = 1000.0
; nozzle_diameter = 0.4
; layer_height = 0.2
; filament_diameter = 1.75
; filament_type = PLA

G1 X1").
Proof.
  destruct (cbc_roundtrip toy_aes padded_zip junior
              (str "G1 X1" ++ repeat 10 (Z.to_nat 10)) 60 (PyInt 1000) 1000
              (str "; machine = dv1JP0A000
; print_time = 60
; total_filament = 1000.0
; nozzle_diameter = 0.4
; layer_height = 0.2
; filament_diameter = 1.75
; filament_type = PLA

G1 X1" ++ repeat 10 (Z.to_nat 10))
              (str "; machine = dv1JP0A000
; print_time = 60
; total_filament = 1000.0
; nozzle_diameter = 0.4
; layer_height = 0.2
; filament_diameter = 1.75
; filament_type = PLA

G1 X1" ++ repeat 10 (Z.to_nat 10))
              toy_aes_cbc_lawful padded_zip_lawful eq_refl eq_refl eq_refl eq_refl
              ltac:(unfold U32_MAX; lia) eq_refl ltac:(unfold U32_MAX; lia)
              ltac:(vm_compute; discriminate) ltac:(vm_compute; discriminate))
    as (container & Hc & _ & Hd).
  exists container. split; [exact Hc|]. exact (Hd []).
Defined.


End CbcFacts.

(** ** What the print info can be *)

Section PrintInfoFacts.
Import XYZFileConverter.

Lemma span_class (f : Z -> bool) (s a b : pstr) :
  span f s = (a, b) -> forallb f a = true /\ s = a ++ b.
Proof.
  revert a b. induction s as [|c s IH]; intros a b H.
  - injection H as <- <-. now split.
  - cbn [span] in H. destruct (f c) eqn:Hc.
    + destruct (span f s) as [a' b'] eqn:E. injection H as <- <-.
      destruct (IH a' b' eq_refl) as [Ha ->]. cbn [forallb app]. now rewrite Hc, Ha.
    + injection H as <- <-. now split.
Qed.

Lemma run1_class (f : Z -> bool) (s : pstr) (g : pstr * pstr) :
  run1 f s = Some g -> forallb f (fst g) = true /\ fst g <> [] /\ s = fst g ++ snd g.
Proof.
  unfold run1. destruct (span f s) as [a b] eqn:E.
  destruct (span_class f s a b E) as [Ha Hs].
  destruct a as [|x a]; [discriminate|]. intros [= <-]. cbn [fst snd].
  repeat split; [exact Ha|discriminate|exact Hs].
Qed.

Lemma digits_fold_nonneg (ds : pstr) :
  forallb is_digit ds = true ->
  forall acc, 0 <= acc -> 0 <= fold_left (fun a d => a * 10 + (d - 48)) ds acc.
Proof.
  induction ds as [|d ds IH]; intros H acc Hacc; [exact Hacc|].
  cbn [forallb] in H. apply andb_true_iff in H. destruct H as [Hd Hds].
  cbn [fold_left]. apply IH; [exact Hds|].
  unfold is_digit, in_range in Hd. lia.
Qed.

Lemma digits_value_nonneg (ds : pstr) :
  forallb is_digit ds = true -> 0 <= digits_value ds.
Proof. intros H. apply digits_fold_nonneg; [exact H|lia]. Qed.

Lemma search_amount_digits (unit : Z) (s g : pstr) :
  search_amount unit s = Some g -> forallb is_digit g = true.
Proof.
  induction s as [|c s IH]; [discriminate|].
  cbn [search_amount].
  destruct (run1 is_digit (c :: s)) as [[ds r]|] eqn:E; [|exact IH].
  destruct (lstrip r) as [|x r']; [exact IH|].
  destruct (x =? unit); [|exact IH].
  intros [= <-]. exact (proj1 (run1_class _ _ _ E)).
Qed.

Lemma scale2_sign (num den e : Z) :
  0 <= num -> 0 < den -> 0 <= fst (scale2 num den e) /\ 0 < snd (scale2 num den e).
Proof.
  intros Hn Hd. unfold scale2. destruct (0 <=? e) eqn:E; cbn [fst snd].
  - split; [exact Hn|]. apply Z.mul_pos_pos; [exact Hd|]. apply Z.pow_pos_nonneg; lia.
  - split; [|exact Hd]. apply Z.mul_nonneg_nonneg; [exact Hn|]. apply Z.pow_nonneg. lia.
Qed.

Lemma round_half_even_nonneg (num den : Z) :
  0 <= num -> 0 < den -> 0 <= round_half_even num den.
Proof.
  intros Hn Hd. unfold round_half_even.
  pose proof (Z.div_pos num den Hn Hd).
  destruct (2 * (num mod den) >? den); [lia|].
  destruct ((2 * (num mod den) =? den) && Z.odd (num / den)); lia.
Qed.

(** Rounding a fraction that is not negative gives an amount. *)
Lemma round64_amount (num den : Z) :
  0 <= num -> 0 < den -> amount (PyFloat (round64 false num den)).
Proof.
  intros Hn Hd. unfold round64, amount.
  destruct (num =? 0); [right; left; exists 0, 0; split; [reflexivity|lia]|].
  set (e0 := Z.log2 num - Z.log2 den - 52).
  pose proof (scale2_sign num den e0 Hn Hd) as H0.
  destruct (scale2 num den e0) as [n0 d0].
  set (e2 := Z.max (if n0 / d0 <? 2 ^ 52 then e0 - 1 else e0) (-1074)).
  pose proof (scale2_sign num den e2 Hn Hd) as H2.
  destruct (scale2 num den e2) as [n2 d2]. cbn [fst snd] in H2.
  pose proof (round_half_even_nonneg n2 d2 (proj1 H2) (proj2 H2)) as Hm.
  destruct (round_half_even n2 d2 =? 2 ^ 53).
  - destruct (971 <? e2 + 1); [now right; right|].
    right; left. eexists _, _. split; [reflexivity|lia].
  - destruct (971 <? e2); [now right; right|].
    right; left. eexists _, _. split; [reflexivity|exact Hm].
Qed.

Lemma float_of_str_amount (s : pstr) (x : pyfloat) :
  float_of_str s = Ok x -> amount (PyFloat x).
Proof.
  unfold float_of_str.
  destruct (split 46 s) as [|ip [|fp [|? ?]]]; try discriminate.
  - destruct (forallb is_digit ip && negb (eqb ip [])) eqn:E; [|discriminate].
    intros [= <-]. apply andb_true_iff in E. destruct E as [E _].
    apply round64_amount; [now apply digits_value_nonneg|lia].
  - destruct (forallb is_digit (ip ++ fp) && negb (eqb (ip ++ fp) [])) eqn:E;
      [|discriminate].
    intros [= <-]. apply andb_true_iff in E. destruct E as [E _].
    apply round64_amount; [now apply digits_value_nonneg|].
    apply Z.pow_pos_nonneg; [lia|]. unfold len. lia.
Qed.

Lemma float_of_str_raises (s : pstr) (e : exn) :
  float_of_str s = Raise e -> e = "ValueError"%string.
Proof.
  unfold float_of_str.
  destruct (split 46 s) as [|ip [|fp [|? ?]]];
    repeat match goal with
           | |- context [if ?c then _ else _] => destruct c
           end; congruence.
Qed.

Lemma fmul_int_amount (x : pyfloat) (k : Z) :
  0 <= k -> amount (PyFloat x) -> amount (PyFloat (fmul_int x k)).
Proof.
  intros Hk [H|[(m & e & H & Hm)|H]]; [discriminate H| |].
  - injection H as ->. cbn [fmul_int].
    pose proof (scale2_sign (m * k) 1 (- e) ltac:(lia) ltac:(lia)) as Hs.
    destruct (scale2 (m * k) 1 (- e)) as [n d]. cbn [fst snd] in Hs.
    apply round64_amount; tauto.
  - injection H as ->. cbn [fmul_int]. now right; right.
Qed.

(** An amount that does not compare equal to 0 is above it. *)
Lemma amount_positive (v : pynum) :
  amount v -> num_eq v (PyInt 0) = false -> num_gt v (PyInt 0) = true.
Proof.
  intros [H|[(m & e & H & Hm)|H]]; subst v; [discriminate| |reflexivity].
  unfold num_eq, num_gt, num_compare, float_of_num, signed.
  change (0 <? 0) with false. change (Z.abs 0) with 0. cbv beta iota.
  rewrite Z.mul_0_l.
  assert (Hp : 0 < 2 ^ (e - Z.min e 0)) by (apply Z.pow_pos_nonneg; lia).
  destruct (Z.compare_spec (m * 2 ^ (e - Z.min e 0)) 0) as [H|H|H];
    [discriminate|nia|reflexivity].
Qed.

Lemma re_time_digits (line g : pstr) :
  re_time line = Some g -> forallb is_digit g = true.
Proof.
  unfold re_time, obind.
  destruct (comment_start line); [|discriminate].
  destruct (lit_ci (str "TIME") _); [|discriminate].
  destruct (sep_colon_eq _); [|discriminate].
  destruct (run1 is_digit _) as [r|] eqn:E; [|discriminate].
  intros [= <-]. exact (proj1 (run1_class _ _ _ E)).
Qed.

Lemma re_layer_count_digits (line g : pstr) :
  re_layer_count line = Some g -> forallb is_digit g = true.
Proof.
  unfold re_layer_count, obind.
  destruct (comment_start line); [|discriminate].
  destruct (lit_ci (str "LAYER") _); [|discriminate].
  destruct (lit_ci (str "COUNT") _); [|discriminate].
  destruct (sep_colon_eq _); [|discriminate].
  destruct (run1 is_digit _) as [r|] eqn:E; [|discriminate].
  intros [= <-]. exact (proj1 (run1_class _ _ _ E)).
Qed.

Lemma scan_line_scanned (st st' : PrintInfo) (line : pstr) :
  scanned st -> scan_line st line = Ok st' -> scanned st'.
Proof.
  intros (Ht & Hf & Hl). unfold scan_line.
  destruct (re_time (strip line)) as [g|] eqn:Et.
  { intros [= <-]. repeat split; cbn; try assumption.
    apply digits_value_nonneg. now apply re_time_digits in Et. }
  destruct (re_estimated (strip line)) as [time_str|] eqn:Ee.
  { intros [= <-]. repeat split; cbn [print_time_sec filament_mm layer_count];
      try assumption.
    assert (Hpart : forall unit factor, 0 <= factor ->
              0 <= match search_amount unit time_str with
                   | Some g => digits_value g * factor
                   | None => 0
                   end).
    { intros unit factor Hfac.
      destruct (search_amount unit time_str) as [g|] eqn:Es; [|lia].
      apply Z.mul_nonneg_nonneg; [|exact Hfac].
      apply digits_value_nonneg. now apply search_amount_digits in Es. }
    pose proof (Hpart 104 3600 ltac:(lia)).
    pose proof (Hpart 109 60 ltac:(lia)).
    pose proof (Hpart 115 1 ltac:(lia)). lia. }
  destruct (re_filament (strip line)) as [[g1 g2]|] eqn:Ef.
  { destruct (float_of_str g1) as [val|e] eqn:Ev; [|discriminate].
    cbn [bind]. intros [= <-].
    repeat split; cbn [print_time_sec filament_mm layer_count]; try assumption.
    pose proof (float_of_str_amount g1 val Ev) as Hval.
    destruct (eqb _ _); [apply fmul_int_amount; [lia|exact Hval]|exact Hval]. }
  destruct (re_layer_count (strip line)) as [g|] eqn:El.
  { intros [= <-]. repeat split; cbn; try assumption.
    apply digits_value_nonneg. now apply re_layer_count_digits in El. }
  destruct (re_layer (strip line)); intros [= <-]; repeat split; cbn; try assumption.
  lia.
Qed.

Lemma scan_line_raises (st : PrintInfo) (line : pstr) (e : exn) :
  scan_line st line = Raise e ->
  e = "ValueError"%string
  /\ exists number unit,
       re_filament (strip line) = Some (number, unit)
       /\ float_of_str number = Raise "ValueError".
Proof.
  unfold scan_line.
  destruct (re_time (strip line)); [discriminate|].
  destruct (re_estimated (strip line)); [discriminate|].
  destruct (re_filament (strip line)) as [[g1 g2]|].
  { destruct (float_of_str g1) as [|e1] eqn:Ev; [discriminate|].
    cbn [bind]. intros [= <-].
    pose proof (float_of_str_raises g1 e1 Ev) as ->.
    split; [reflexivity|]. now exists g1, g2. }
  destruct (re_layer_count (strip line)); [discriminate|].
  destruct (re_layer (strip line)); discriminate.
Qed.

Lemma scan_lines_scanned (lines : list pstr) :
  forall st st', scanned st -> scan_lines st lines = Ok st' -> scanned st'.
Proof.
  induction lines as [|line lines IH]; intros st st' Hst H.
  - injection H as <-. exact Hst.
  - cbn [scan_lines] in H. destruct (scan_line st line) as [st1|] eqn:E; [|discriminate].
    cbn [bind] in H. eapply IH; [|exact H]. eapply scan_line_scanned; eassumption.
Qed.

Lemma scan_lines_raises (lines : list pstr) :
  forall st e,
    scan_lines st lines = Raise e ->
    e = "ValueError"%string
    /\ exists line number unit,
         In line lines
         /\ re_filament (strip line) = Some (number, unit)
         /\ float_of_str number = Raise "ValueError".
Proof.
  induction lines as [|line lines IH]; intros st e H; [discriminate|].
  cbn [scan_lines] in H. destruct (scan_line st line) as [st1|e1] eqn:E.
  - cbn [bind] in H. destruct (IH st1 e H) as (He & l & n & u & Hin & Hl).
    split; [exact He|]. exists l, n, u. split; [now right|exact Hl].
  - cbn [bind] in H. injection H as <-.
    destruct (scan_line_raises st line e1 E) as (He & n & u & Hl).
    split; [exact He|]. exists line, n, u. split; [now left|exact Hl].
Qed.

Lemma max_e_shape (lines : list pstr) :
  forall acc,
    (acc = PyInt 0 \/ exists x, acc = PyFloat x /\ amount (PyFloat x)) ->
    fold_left max_e_step lines acc = PyInt 0
    \/ exists x, fold_left max_e_step lines acc = PyFloat x /\ amount (PyFloat x).
Proof.
  induction lines as [|line lines IH]; intros acc Hacc; [exact Hacc|].
  cbn [fold_left]. apply IH. unfold max_e_step.
  destruct (re_search_e line) as [g|]; [|exact Hacc].
  destruct (float_of_str g) as [e_val|] eqn:E; [|exact Hacc].
  destruct (num_gt (PyFloat e_val) acc); [|exact Hacc].
  right. exists e_val. split; [reflexivity|]. now apply float_of_str_amount in E.
Qed.

(** What holds of every print info that is returned. *)
Lemma extract_print_info_shape (gcode : pstr) (info : PrintInfo) :
  extract_print_info gcode = Ok info ->
  1 <= print_time_sec info
  /\ num_gt (filament_mm info) (PyInt 0) = true
  /\ 0 <= layer_count info
  /\ filament_value (filament_mm info).
Proof.
  unfold extract_print_info.
  destruct (scan_lines _ (splitlines gcode)) as [st|] eqn:E; [|discriminate].
  cbn [bind]. intros [= <-]. cbn [print_time_sec filament_mm layer_count].
  assert (Hst : scanned st).
  { eapply scan_lines_scanned; [|exact E].
    split; [cbn; lia|split; [now left|cbn; lia]]. }
  destruct Hst as (Ht & Hf & Hl).
  split; [|split; [|split]].
  - destruct (print_time_sec st =? 0) eqn:E0; lia.
  - destruct (num_eq (filament_mm st) (PyInt 0)) eqn:Eq.
    + destruct (num_gt (fold_left max_e_step (splitlines gcode) (PyInt 0)) (PyInt 0)) eqn:Eg;
        [exact Eg|reflexivity].
    + now apply amount_positive.
  - exact Hl.
  - destruct (num_eq (filament_mm st) (PyInt 0)) eqn:Eq.
    + destruct (max_e_shape (splitlines gcode) (PyInt 0) (or_introl eq_refl))
        as [E0|(x & Ex & Hx)].
      * rewrite E0. now left.
      * rewrite Ex. destruct (num_gt (PyFloat x) (PyInt 0)); [|now left].
        right. now exists x.
    + destruct Hf as [H|[(m & e & H & Hm)|H]].
      * rewrite H in Eq. discriminate Eq.
      * right. exists (FFinite false m e). split; [exact H|].
        right; left. now exists m, e.
      * right. exists (FInf false). split; [exact H|]. now right; right.
Qed.

(** X19. Whatever the G-code, the print info that [extract_print_info]
    returns has a print time of at least one second, a filament length
    above zero and a layer count that is not negative: a time or a filament
    value of 0 in a comment is replaced by the estimate, which is at least
    60 seconds and, without a positive [E] value, 1000 mm. *)
Theorem extract_print_info_bounds (gcode : pstr) (info : PrintInfo) :
  extract_print_info gcode = Ok info ->
  1 <= print_time_sec info
  /\ num_gt (filament_mm info) (PyInt 0) = true
  /\ 0 <= layer_count info
  /\ (forall st, scan_lines {| print_time_sec := 0; filament_mm := PyInt 0;
                               layer_count := 0 |} (splitlines gcode) = Ok st ->
        (print_time_sec st = 0 -> 60 <= print_time_sec info)
        /\ (0 < print_time_sec st -> print_time_sec info = print_time_sec st)).
Proof.
  intros H.
  destruct (extract_print_info_shape gcode info H) as (Ht & Hf & Hl & _).
  split; [exact Ht|]. split; [exact Hf|]. split; [exact Hl|].
  unfold extract_print_info in H.
  intros st Hst. rewrite Hst in H. cbn [bind] in H. injection H as <-.
  cbn [print_time_sec]. split; intros H0.
  - rewrite H0. cbn [Z.eqb]. lia.
  - replace (print_time_sec st =? 0) with false by lia. reflexivity.
Qed.

Lemma extract_print_info_bounds_witness :
  extract_print_info (str ";TIME:0
;Filament used: 1.5m
;LAYER:0
;LAYER:1
G1 X1 E2.5")
  = Ok {| print_time_sec := 60;
          filament_mm := PyFloat (FFinite false 6597069766656000 (-42));
          layer_count := 2 |}
  /\ 1 <= 60
  /\ num_gt (PyFloat (FFinite false 6597069766656000 (-42))) (PyInt 0) = true.
Proof.
  split; [reflexivity|].
  pose proof (extract_print_info_bounds
                (str ";TIME:0
;Filament used: 1.5m
;LAYER:0
;LAYER:1
G1 X1 E2.5")
                {| print_time_sec := 60;
                   filament_mm := PyFloat (FFinite false 6597069766656000 (-42));
                   layer_count := 2 |} eq_refl) as (Ht & Hf & _).
  split; [exact Ht|exact Hf].
Defined.



End PrintInfoFacts.

(** ** Text read from a file *)

Section ReadFacts.
Import App.

Lemma in_range_true (lo hi c : Z) : in_range lo hi c = true -> lo <= c <= hi.
Proof. unfold in_range. intros H. apply andb_true_iff in H. lia. Qed.

Lemma second_ok_range (b0 b1 : Z) :
  second_ok b0 b1 = true ->
  128 <= b1 <= 191
  /\ (b0 = 224 -> 160 <= b1)
  /\ (b0 = 237 -> b1 <= 159)
  /\ (b0 = 240 -> 144 <= b1)
  /\ (b0 = 244 -> b1 <= 143).
Proof.
  unfold second_ok, is_cont.
  destruct (b0 =? 224) eqn:Ea; [intros H; apply in_range_true in H; lia|].
  destruct (b0 =? 237) eqn:Eb; [intros H; apply in_range_true in H; lia|].
  destruct (b0 =? 240) eqn:Ec; [intros H; apply in_range_true in H; lia|].
  destruct (b0 =? 244) eqn:Ed; intros H; apply in_range_true in H; lia.
Qed.

(** Decoding with [errors="replace"] gives code points that UTF-8 can
    carry, whatever the bytes. *)
Lemma utf8_decode_replace_scalar (n : nat) :
  forall raw : bytes,
    (List.length raw <= n)%nat -> Forall octet raw ->
    Forall scalar (utf8_decode_replace raw).
Proof.
  assert (Hrep : scalar REPLACEMENT) by (unfold scalar, REPLACEMENT; lia).
  induction n as [|n IH]; intros raw Hlen Hraw.
  - destruct raw; [constructor|cbn in Hlen; lia].
  - destruct raw as [|b0 r0]; [constructor|].
    cbn [List.length] in Hlen.
    inversion Hraw as [|? ? Hb0 Hr0]; subst.
    assert (IH0 : Forall scalar (utf8_decode_replace r0)) by (apply IH; [lia|exact Hr0]).
    rewrite utf8_decode_replace_cons. unfold octet in Hb0.
    destruct (b0 <? 128) eqn:E0.
    { constructor; [unfold scalar; lia|exact IH0]. }
    destruct (in_range 194 223 b0) eqn:E2.
    { apply in_range_true in E2.
      destruct r0 as [|b1 r1]; [now repeat constructor|].
      cbn [List.length] in Hlen. inversion Hr0 as [|? ? Hb1 Hr1]; subst.
      destruct (is_cont b1) eqn:C1; [|now constructor].
      apply in_range_true in C1.
      constructor; [|apply IH; [lia|exact Hr1]].
      unfold scalar. lia. }
    destruct (in_range 224 239 b0) eqn:E3.
    { apply in_range_true in E3.
      destruct r0 as [|b1 r1]; [now repeat constructor|].
      cbn [List.length] in Hlen. inversion Hr0 as [|? ? Hb1 Hr1]; subst.
      destruct (second_ok b0 b1) eqn:S1; [|now constructor].
      apply second_ok_range in S1.
      destruct r1 as [|b2 r2]; [now repeat constructor|].
      cbn [List.length] in Hlen. inversion Hr1 as [|? ? Hb2 Hr2]; subst.
      destruct (is_cont b2) eqn:C2.
      - apply in_range_true in C2.
        constructor; [|apply IH; [lia|exact Hr2]].
        unfold scalar. lia.
      - constructor; [exact Hrep|]. apply IH; [cbn [List.length]; lia|exact Hr1]. }
    destruct (in_range 240 244 b0) eqn:E4.
    { apply in_range_true in E4.
      destruct r0 as [|b1 r1]; [now repeat constructor|].
      cbn [List.length] in Hlen. inversion Hr0 as [|? ? Hb1 Hr1]; subst.
      destruct (second_ok b0 b1) eqn:S1; [|now constructor].
      apply second_ok_range in S1.
      destruct r1 as [|b2 r2]; [now repeat constructor|].
      cbn [List.length] in Hlen. inversion Hr1 as [|? ? Hb2 Hr2]; subst.
      destruct (is_cont b2) eqn:C2.
      2: { constructor; [exact Hrep|]. apply IH; [cbn [List.length]; lia|exact Hr1]. }
      apply in_range_true in C2.
      destruct r2 as [|b3 r3]; [now repeat constructor|].
      cbn [List.length] in Hlen. inversion Hr2 as [|? ? Hb3 Hr3]; subst.
      destruct (is_cont b3) eqn:C3.
      - apply in_range_true in C3.
        constructor; [|apply IH; [lia|exact Hr3]].
        unfold scalar. lia.
      - constructor; [exact Hrep|]. apply IH; [cbn [List.length]; lia|exact Hr2]. }
    constructor; [exact Hrep|exact IH0].
Qed.

Lemma universal_newlines_spec (P : Z -> Prop) (n : nat) :
  P 10 ->
  forall s : pstr,
    (List.length s <= n)%nat -> Forall P s ->
    Forall P (universal_newlines s) /\ ~ In 13 (universal_newlines s).
Proof.
  intros H10. induction n as [|n IH]; intros s Hlen Hs.
  - destruct s; [split; [constructor|intros []]|cbn in Hlen; lia].
  - destruct s as [|c s]; [split; [constructor|intros []]|].
    cbn [List.length] in Hlen. inversion Hs as [|? ? Hc Hs']; subst.
    cbn [universal_newlines]. destruct (c =? 13) eqn:E.
    + destruct s as [|c2 s2]; [split; [now repeat constructor|intros [H|[]]; lia]|].
      cbn [List.length] in Hlen. inversion Hs' as [|? ? Hc2 Hs2]; subst.
      destruct (c2 =? 10).
      * destruct (IH s2 ltac:(lia) Hs2) as [Hf Hn].
        split; [now constructor|]. intros [H|H]; [lia|contradiction].
      * destruct (IH (c2 :: s2) ltac:(cbn [List.length]; lia) Hs') as [Hf Hn].
        split; [now constructor|]. intros [H|H]; [lia|contradiction].
    + destruct (IH s ltac:(lia) Hs') as [Hf Hn].
      split; [now constructor|]. intros [H|H]; [lia|contradiction].
Qed.

Lemma read_gcode_scalar (raw : bytes) :
  Forall octet raw -> Forall scalar (read_gcode raw) /\ ~ In 13 (read_gcode raw).
Proof.
  intros H. unfold read_gcode.
  apply (universal_newlines_spec scalar (List.length (utf8_decode_replace raw)));
    [unfold scalar; lia|apply le_n|].
  now apply (utf8_decode_replace_scalar (List.length raw)).
Qed.

End ReadFacts.

(** ** The conversion stage of a job *)

Section JobFacts.
Import XYZProtocol.
Import XYZFileConverter.
Import App.

Lemma extract_raises_value (gcode : pstr) (e : exn) :
  extract_print_info gcode = Raise e -> e = "ValueError"%string.
Proof.
  unfold extract_print_info.
  destruct (scan_lines _ (splitlines gcode)) as [st|e1] eqn:E; [discriminate|].
  cbn [bind]. intros [= <-]. exact (proj1 (scan_lines_raises _ _ _ E)).
Qed.

Lemma filament_value_format (f : pynum) :
  filament_value f -> exists ff, format_1f f = Ok ff.
Proof.
  intros [->|(x & -> & _)]; [|cbn [format_1f]; eauto].
  eexists. vm_compute. reflexivity.
Qed.

Lemma job_converter_ascii (model : pstr) :
  ascii model -> ascii (model_number (job_converter model)).
Proof. intros H. destruct model; [reflexivity|exact H]. Qed.

(** With an ASCII model number, what stops the header from being built. *)
Lemma build_header_raises_ascii (self : XYZFileConverter)
    (body_size encrypted_size t : Z) (f : pynum) (e : exn) :
  ascii (model_number self) ->
  _build_header self body_size encrypted_size t f = Raise e ->
  In e raised_by_stage.
Proof.
  intros HM. unfold _build_header, pack_into_u32.
  rewrite (pack_u32_le_ok 2) by (unfold U32_MAX; lia). cbn [bind].
  rewrite (pack_u32_le_ok HEADER_SIZE) by (unfold U32_MAX, HEADER_SIZE; lia).
  rewrite (pack_u32_le_ok (if use_ecb self then 2 else 1))
    by (unfold U32_MAX; destruct (use_ecb self); lia).
  rewrite (ascii_encode_ok _ HM). cbn [bind].
  assert (Hstruct : In "struct.error"%string raised_by_stage) by (cbn; tauto).
  destruct (pack_u32_le_cases encrypted_size) as [[_ ->]|[_ ->]];
    [|cbn [bind]; intros [= <-]; exact Hstruct].
  cbn [bind].
  destruct (pack_u32_le_cases body_size) as [[_ ->]|[_ ->]];
    [|cbn [bind]; intros [= <-]; exact Hstruct].
  cbn [bind].
  destruct (pack_u32_le_cases t) as [[_ ->]|[_ ->]];
    [|cbn [bind]; intros [= <-]; exact Hstruct].
  cbn [bind].
  destruct f as [z|[neg m ex|neg|]]; cbn [int_of_num bind];
    try (intros [= <-]; cbn; tauto);
    match goal with
    | |- context [pack_u32_le ?v] =>
      destruct (pack_u32_le_cases v) as [[_ ->]|[_ ->]];
        cbn [bind]; [discriminate|intros [= <-]; exact Hstruct]
    end.
Qed.

(** The two ways the conversion stage can end. *)
Lemma convert_stage_cases (aes : AES) (zip : ZipCodec) (model : pstr)
    (raw : bytes) :
  Forall octet raw ->
  ascii model ->
  (forall e,
     convert_stage aes zip model (read_gcode raw) = Raise e -> In e raised_by_stage)
  /\ (forall info three_w,
        convert_stage aes zip model (read_gcode raw) = Ok (info, three_w) ->
        extract_print_info (read_gcode raw) = Ok info
        /\ 1 <= print_time_sec info <= U32_MAX
        /\ 8192 <= len three_w <= 8192 + U32_MAX
        /\ exists processed body fi,
             _preprocess_gcode (job_converter model) (read_gcode raw)
                               (print_time_sec info) (filament_mm info) = Ok processed
             /\ utf8_encode processed = Ok body
             /\ int_of_num (filament_mm info) = Ok fi
             /\ 0 <= fi <= U32_MAX
             /\ firstn (Z.to_nat 8192) three_w
                = header_layout (job_converter model) (len body) (len three_w - 8192)
                                (print_time_sec info) fi
             /\ (ecb_lawful aes -> use_ecb (job_converter model) = true ->
                 forall m, decrypt_3w_to_gcode aes zip three_w m = Ok processed)).
Proof.
  intros Hraw HM.
  destruct (read_gcode_scalar raw Hraw) as [Hs _].
  set (gcode := read_gcode raw) in *.
  pose proof (job_converter_ascii model HM) as HMA.
  unfold convert_stage. fold (job_converter model).
  set (self := job_converter model) in *.
  destruct (extract_print_info gcode) as [info|e0] eqn:Ex; cbn [bind].
  2: { split; [|discriminate]. intros e [= <-].
       rewrite (extract_raises_value gcode e0 Ex). cbn. tauto. }
  destruct (extract_print_info_shape gcode info Ex) as (Ht & _ & _ & Hf).
  destruct (preprocess_scalar self gcode (print_time_sec info) (filament_mm info)
              (filament_value_format _ Hf) (ascii_scalar _ HMA) Hs)
    as (processed & Hp & Hps).
  destruct (utf8_encode_scalar processed Hps) as [body Hb].
  assert (Henc : exists encrypted,
             (if use_ecb self then _encrypt_ecb aes body
              else _encrypt_cbc_zip aes zip body) = Ok encrypted
             /\ (use_ecb self = true -> encrypted = ecb_body aes body)).
  { destruct (use_ecb self).
    - exists (ecb_body aes body). split; [|reflexivity].
      unfold _encrypt_ecb, cipher_call. now rewrite (proj2 (len_pkcs7_pad body)).
    - eexists. split; [|discriminate].
      unfold _encrypt_cbc_zip, cipher_call. now rewrite (proj2 (len_pkcs7_pad _)). }
  destruct Henc as (encrypted & Henc & Hecb).
  unfold convert_gcode_to_3w. rewrite Hp. cbn [bind]. rewrite Hb. cbn [bind].
  rewrite Henc. cbn [bind].
  destruct (_build_header self (len body) (len encrypted) (print_time_sec info)
                          (filament_mm info)) as [h|e1] eqn:Eh; cbn [bind].
  2: { split; [|discriminate]. intros e [= <-].
       exact (build_header_raises_ascii _ _ _ _ _ _ HMA Eh). }
  split; [discriminate|].
  intros info' three_w [= <- <-].
  destruct (build_header_ranges _ _ _ _ _ _ Eh) as (fi & Hfi & _ & He & Hbz & Htr & Hfr).
  pose proof (build_header_in_range _ _ _ _ _ _ Hfi HMA He Hbz Htr Hfr) as El.
  rewrite El in Eh. injection Eh as <-.
  pose proof (header_layout_length self (len body) (len encrypted)
                                   (print_time_sec info) fi) as Hlen.
  set (h := header_layout self (len body) (len encrypted) (print_time_sec info) fi)
    in *.
  assert (Hl : len (h ++ encrypted) = 8192 + len encrypted)
    by (unfold len; rewrite length_app, Hlen; lia).
  split; [reflexivity|]. split; [lia|]. split; [lia|].
  exists processed, body, fi.
  repeat (split; [assumption|]). split.
  - replace (len (h ++ encrypted) - 8192) with (len encrypted) by lia.
    fold h. rewrite <- Hlen, firstn_app, firstn_all, Nat.sub_diag.
    cbn [firstn]. apply app_nil_r.
  - intros Haes Huse m. rewrite (Hecb Huse) in *.
    destruct (build_header_ok self (len body) (len (ecb_body aes body))
                (print_time_sec info) (filament_mm info) fi HMA He Hbz Htr Hfi Hfr)
      as (h' & Hh & Hfields).
    rewrite El in Hh. injection Hh as <-.
    rewrite (decrypt_ecb_container aes zip self body (print_time_sec info) fi _ m
               Haes Huse Hfields).
    f_equal. now apply utf8_decode_encode.
Qed.

(** X22. The conversion stage of a job, run on the text of a file that was
    read with [errors="replace"] and for an ASCII model number (or none,
    which selects the miniMaker): it can end in [ValueError],
    [OverflowError] or [struct.error] only, never in an encoding error.
    When it returns, the print time is between 1 and 2^32 - 1, the first
    8192 bytes of the container are the header for the sizes, the time and
    the filament of the print info, and for a model of the ECB class the
    container decodes to the preprocessed text. *)
Theorem convert_stage_outcome (aes : AES) (zip : ZipCodec) (model : pstr)
    (raw : bytes) :
  Forall octet raw ->
  ascii model ->
  (forall e,
     convert_stage aes zip model (read_gcode raw) = Raise e -> In e raised_by_stage)
  /\ (forall info three_w,
        convert_stage aes zip model (read_gcode raw) = Ok (info, three_w) ->
        extract_print_info (read_gcode raw) = Ok info
        /\ 1 <= print_time_sec info <= U32_MAX
        /\ exists processed body fi,
             _preprocess_gcode (job_converter model) (read_gcode raw)
                               (print_time_sec info) (filament_mm info) = Ok processed
             /\ utf8_encode processed = Ok body
             /\ int_of_num (filament_mm info) = Ok fi
             /\ 0 <= fi <= U32_MAX
             /\ firstn (Z.to_nat 8192) three_w
                = header_layout (job_converter model) (len body) (len three_w - 8192)
                                (print_time_sec info) fi
             /\ (ecb_lawful aes -> use_ecb (job_converter model) = true ->
                 forall m, decrypt_3w_to_gcode aes zip three_w m = Ok processed)).
Proof.
  intros Hraw HM.
  destruct (convert_stage_cases aes zip model raw Hraw HM) as [Hraise Hok].
  split; [exact Hraise|].
  intros info three_w H.
  destruct (Hok info three_w H) as (Hex & Ht & _ & Hrest).
  split; [exact Hex|]. split; [exact Ht|exact Hrest].
Qed.

Lemma convert_stage_outcome_witness :
  exists info three_w,
    convert_stage toy_aes stored_zip [] (read_gcode (str "G0 X1" ++ [13; 10; 255]))
    = Ok (info, three_w)
    /\ decrypt_3w_to_gcode toy_aes stored_zip three_w []
       = Ok (str "; machine = dv1MX0A000
; print_time = 60
; total_filament = 1000.0
; nozzle_diameter = 0.4
; layer_height = 0.2
; filament_diameter = 1.75
; filament_type = PLA

G1 X1
" ++ [65533; 10]).
Proof.
  destruct (convert_stage toy_aes stored_zip []
              (read_gcode (str "G0 X1" ++ [13; 10; 255])))
    as [[info three_w]|e] eqn:E.
  2: { exfalso. vm_compute in E. discriminate E. }
  exists info, three_w. split; [reflexivity|].
  destruct (convert_stage_outcome toy_aes stored_zip [] (str "G0 X1" ++ [13; 10; 255]))
    as [_ H].
  - repeat (constructor; [vm_compute; split; [discriminate|reflexivity]|]).
    constructor.
  - reflexivity.
  - destruct (H info three_w E)
      as (Hex & _ & processed & body & fi & Hp & _ & _ & _ & _ & Hdec).
    rewrite (Hdec toy_aes_lawful eq_refl []). f_equal.
    vm_compute in Hex. injection Hex as <-.
    vm_compute in Hp. injection Hp as <-. reflexivity.
Defined.

(** X23. A job never raises.  When it ends in the stage [done] on an open
    port, the conversion stage returned a container, the file name is
    ASCII, and the printer has been sent the upload line with the size of
    the container, every frame of the container and the closing line;
    every wait but the last ended in an acknowledgement. *)
Theorem send_gcode_done (aes : AES) (zip : ZipCodec) (model : pstr) (raw : bytes)
    (filename : pstr) tx rx calls (self' : XYZProtocol) :
  Forall octet raw ->
  ascii model ->
  _do_send_gcode aes zip model raw filename (session tx rx calls) = (Ok Done, self') ->
  exists info three_w calls',
    convert_stage aes zip model (read_gcode raw) = Ok (info, three_w)
    /\ ascii filename
    /\ acked (hd [] rx)
    /\ Forall acked (firstn (frame_count (len three_w)) (tl rx))
    /\ self' = session (tx ++ [upload_command filename (len three_w)]
                           ++ frames three_w ++ [upload_finish])
                       (skipn (S (frame_count (len three_w))) (tl rx)) calls'.
Proof.
  intros Hraw HM. unfold _do_send_gcode.
  destruct (convert_stage_cases aes zip model raw Hraw HM) as [_ Hok].
  destruct (convert_stage aes zip model (read_gcode raw)) as [[info three_w]|e];
    [|discriminate].
  destruct (Hok info three_w eq_refl) as (_ & _ & Hlen & _).
  assert (Hsize : len three_w <= 8192 * 4294967296) by (unfold U32_MAX in Hlen; lia).
  destruct (upload_file filename three_w true (session tx rx calls))
    as [[[|]|e] s] eqn:Eu; try discriminate.
  intros [= <-].
  assert (Ht : fst (upload_file filename three_w true (session tx rx calls)) = Ok true)
    by now rewrite Eu.
  destruct (upload_true_inv filename three_w true tx rx calls Hsize Ht)
    as (Ha & Hinit & _ & Hall).
  destruct (upload_true_wire filename three_w true tx rx calls Hsize Ht) as [calls' Ew].
  rewrite Ew in Eu. injection Eu as <-.
  exists info, three_w, calls'. repeat split; assumption.
Qed.

Lemma send_gcode_done_witness :
  exists info three_w calls',
    convert_stage toy_aes stored_zip [] (read_gcode (str "G0 X1")) = Ok (info, three_w)
    /\ ascii (str "t.gcode")
    /\ acked (hd [] [[str "ok"]; [str "ok"]; [str "ok"]; []])
    /\ Forall acked (firstn (frame_count (len three_w))
                            (tl [[str "ok"]; [str "ok"]; [str "ok"]; []]))
    /\ snd (_do_send_gcode toy_aes stored_zip [] (str "G0 X1") (str "t.gcode")
              (session [] [[str "ok"]; [str "ok"]; [str "ok"]; []] []))
       = session ([] ++ [upload_command (str "t.gcode") (len three_w)]
                     ++ frames three_w ++ [upload_finish])
                 (skipn (S (frame_count (len three_w)))
                        (tl [[str "ok"]; [str "ok"]; [str "ok"]; []])) calls'.
Proof.
  apply (send_gcode_done toy_aes stored_zip [] (str "G0 X1") (str "t.gcode") []
           [[str "ok"]; [str "ok"]; [str "ok"]; []] []).
  - repeat (constructor; [vm_compute; split; [discriminate|reflexivity]|]).
    constructor.
  - reflexivity.
  - vm_compute. reflexivity.
Defined.

End JobFacts.

(** ** The preprocessor, line by line *)

Section LineFacts.
Import XYZFileConverter.

(** X24. The preprocessor works line by line: the lines of its output are
    the lines of the input, each one stripped and with a leading [G0]
    token turned into [G1], in the same order and none dropped, blank
    lines included; in front of them stand the eight header lines when
    none of the first 50 input lines holds a machine comment, and nothing
    otherwise. *)
Theorem preprocess_line_by_line (self : XYZFileConverter) (gcode : pstr) (t : Z)
    (f : pynum) (processed : pstr) :
  no_linebreak (model_number self) ->
  _preprocess_gcode self gcode t f = Ok processed ->
  exists hs,
    splitlines processed = hs ++ map convert_line (splitlines gcode)
    /\ (if has_machine (splitlines gcode)
        then hs = []
        else xyz_header self t f = Ok hs /\ List.length hs = 8%nat)
    /\ List.length (splitlines processed)
       = (List.length (splitlines gcode)
          + if has_machine (splitlines gcode) then 0 else 8)%nat
    /\ (forall i, (i < List.length (splitlines gcode))%nat ->
          nth (List.length hs + i) (splitlines processed) []
          = convert_line (nth i (splitlines gcode) []))
    /\ Forall (fun l => strip l = l) (map convert_line (splitlines gcode)).
Proof.
  intros HM H.
  assert (Hlines : Forall no_linebreak (map convert_line (splitlines gcode))).
  { apply Forall_forall. intros l Hin. apply in_map_iff in Hin as (l0 & <- & Hin0).
    apply convert_line_no_linebreak.
    pose proof (splitlines_no_linebreak gcode) as Hall.
    rewrite Forall_forall in Hall. auto. }
  assert (Hhs : exists hs,
             processed = join [10] (hs ++ map convert_line (splitlines gcode)) ++ [10]
             /\ hs ++ map convert_line (splitlines gcode) <> []
             /\ Forall no_linebreak hs
             /\ (if has_machine (splitlines gcode)
                 then hs = []
                 else xyz_header self t f = Ok hs /\ List.length hs = 8%nat)).
  { unfold _preprocess_gcode in H.
    destruct (has_machine (splitlines gcode)) eqn:Hm; cbn [negb] in H.
    - cbn [bind] in H. injection H as <-. exists []. cbn [app].
      repeat split; [|constructor].
      apply has_machine_nonempty in Hm.
      destruct (splitlines gcode); [congruence|discriminate].
    - destruct (xyz_header self t f) as [hs|e] eqn:Eh; [|discriminate H].
      cbn [bind] in H. injection H as <-. exists hs.
      destruct (xyz_header_lines self t f hs Eh) as (H1 & _ & _ & _ & H5).
      repeat split; [|now apply H1|].
      + destruct hs; [congruence|discriminate].
      + unfold xyz_header in Eh. destruct (format_1f f); [|discriminate Eh].
        cbn [bind] in Eh. injection Eh as <-. reflexivity. }
  destruct Hhs as (hs & E & Hne & Hnl & Hcase).
  assert (Hs : splitlines processed = hs ++ map convert_line (splitlines gcode)).
  { rewrite E. apply splitlines_join; [exact Hne|]. now apply Forall_append. }
  exists hs. split; [exact Hs|]. split; [exact Hcase|]. split; [|split].
  - rewrite Hs, length_app, length_map.
    destruct (has_machine (splitlines gcode)).
    + subst hs. cbn [List.length]. lia.
    + destruct Hcase as [_ ->]. lia.
  - intros i Hi. rewrite Hs, app_nth2 by lia.
    replace (List.length hs + i - List.length hs)%nat with i by lia.
    rewrite <- (map_nth convert_line). f_equal.
  - apply Forall_forall. intros l Hin. apply in_map_iff in Hin as (l0 & <- & _).
    apply convert_line_stripped.
Qed.

Lemma preprocess_line_by_line_witness :
  exists hs,
    splitlines sample_processed = hs ++ map convert_line (splitlines sample_gcode)
    /\ List.length hs = 8%nat
    /\ nth (List.length hs + 0) (splitlines sample_processed) [] = str "G1 X10 Y20".
Proof.
  destruct (preprocess_line_by_line miniMaker sample_gcode 3600 (PyInt 1000)
              sample_processed)
    as (hs & Hs & Hcase & _ & Hnth & _).
  - exact (proj2 (proj2 miniMaker_tidy)).
  - reflexivity.
  - exists hs. split; [exact Hs|]. split; [exact (proj2 Hcase)|].
    exact (Hnth O ltac:(vm_compute; lia)).
Defined.

End LineFacts.

(** ** Where the read loops stop *)

Section ReadLoopFacts.
Import XYZProtocol.

Lemma wait_loop_at (k : nat) :
  forall (buf : bytes) (chunks : list bytes),
    (k < List.length chunks)%nat ->
    nth k chunks [] <> [] ->
    (forall j, (j < k)%nat ->
       says_ok (heard (buf ++ first_reads (S j) chunks)) = false
       /\ says_err (heard (buf ++ first_reads (S j) chunks)) = false) ->
    wait_loop buf chunks
    = if says_ok (heard (buf ++ first_reads (S k) chunks)) then true
      else if says_err (heard (buf ++ first_reads (S k) chunks)) then false
      else wait_loop (buf ++ first_reads (S k) chunks) (skipn (S k) chunks).
Proof.
  unfold first_reads.
  induction k as [|k IH]; intros buf chunks Hk Hnth Hquiet.
  - destruct chunks as [|c rest]; [cbn in Hk; lia|].
    cbn [nth] in Hnth. cbn [firstn List.concat skipn]. rewrite app_nil_r.
    destruct c as [|b c]; [congruence|]. reflexivity.
  - destruct chunks as [|c rest]; [cbn in Hk; lia|].
    cbn [List.length] in Hk. cbn [nth] in Hnth.
    destruct c as [|b c].
    + cbn [wait_loop]. rewrite (IH buf rest ltac:(lia) Hnth).
      * reflexivity.
      * intros j Hj. exact (Hquiet (S j) ltac:(lia)).
    + destruct (Hquiet O ltac:(lia)) as [Hok Herr].
      cbn [firstn List.concat] in Hok, Herr. rewrite app_nil_r in Hok, Herr.
      unfold says_ok, says_err, heard in Hok, Herr.
      cbn [wait_loop]. rewrite Hok, Herr.
      rewrite (IH (buf ++ b :: c) rest ltac:(lia) Hnth).
      * cbn [firstn List.concat skipn]. now rewrite <- !app_assoc.
      * intros j Hj. destruct (Hquiet (S j) ltac:(lia)) as [H1 H2].
        cbn [firstn List.concat] in H1, H2. now rewrite <- !app_assoc.
Qed.

Lemma read_response_at (k : nat) :
  forall (response : bytes) (chunks : list bytes),
    (k < List.length chunks)%nat ->
    nth k chunks [] <> [] ->
    ~ In 36 (response ++ first_reads k chunks) ->
    In 36 (response ++ first_reads (S k) chunks) ->
    read_response response chunks = response ++ first_reads (S k) chunks.
Proof.
  unfold first_reads.
  induction k as [|k IH]; intros response chunks Hk Hnth Hno Hyes.
  - destruct chunks as [|c rest]; [cbn in Hk; lia|].
    cbn [nth] in Hnth. cbn [firstn List.concat] in *. rewrite app_nil_r in *.
    destruct c as [|b c]; [congruence|]. cbn [read_response].
    replace (existsb (Z.eqb DOLLAR) (response ++ b :: c)) with true; [reflexivity|].
    symmetry. apply existsb_exists. exists 36. split; [exact Hyes|reflexivity].
  - destruct chunks as [|c rest]; [cbn in Hk; lia|].
    cbn [List.length] in Hk. cbn [nth] in Hnth.
    cbn [firstn List.concat] in Hno, Hyes |- *.
    destruct c as [|b c].
    + cbn [read_response app] in *. apply IH; [lia|assumption..].
    + cbn [read_response].
      replace (existsb (Z.eqb DOLLAR) (response ++ b :: c)) with false.
      * rewrite (IH (response ++ b :: c) rest ltac:(lia) Hnth).
        -- now rewrite <- app_assoc.
        -- now rewrite <- app_assoc.
        -- now rewrite <- app_assoc.
      * symmetry. apply not_true_is_false. intros H.
        apply existsb_exists in H. destruct H as (x & Hin & Hx).
        apply Z.eqb_eq in Hx. unfold DOLLAR in Hx. subst x.
        apply Hno. rewrite app_assoc. apply in_or_app. now left.
Qed.

(** X25. Both read loops stop at the first read that settles the matter
    and look at nothing after it.  A wait for [ok] whose reads were
    inconclusive so far returns [True] as soon as the bytes gathered hold
    [ok] in any case, also when it arrived in pieces and also when the same
    bytes hold an error, and [False] as soon as they hold [err] and no
    [ok].  The response of a command is the bytes up to and including the
    read that brought the first [$]. *)
Theorem read_loops_stop (chunks : list bytes) (k : nat) :
  (k < List.length chunks)%nat ->
  nth k chunks [] <> [] ->
  ((forall j, (j < k)%nat ->
      says_ok (heard (first_reads (S j) chunks)) = false
      /\ says_err (heard (first_reads (S j) chunks)) = false) ->
   (says_ok (heard (first_reads (S k) chunks)) = true -> wait_loop [] chunks = true)
   /\ (says_ok (heard (first_reads (S k) chunks)) = false ->
       says_err (heard (first_reads (S k) chunks)) = true ->
       wait_loop [] chunks = false))
  /\ (~ In 36 (first_reads k chunks) ->
      In 36 (first_reads (S k) chunks) ->
      read_response [] chunks = first_reads (S k) chunks).
Proof.
  intros Hk Hnth. split.
  - intros Hquiet.
    pose proof (wait_loop_at k [] chunks Hk Hnth Hquiet) as H. cbn [app] in H.
    split.
    + intros Hok. now rewrite H, Hok.
    + intros Hok Herr. now rewrite H, Hok, Herr.
  - intros Hno Hyes. exact (read_response_at k [] chunks Hk Hnth Hno Hyes).
Qed.

Lemma read_loops_stop_witness :
  wait_loop [] [str "o"; []; str "K, error E4"; str "err"] = true
  /\ read_response [] [str "j:1"; []; str "$ok"; str "late"] = str "j:1$ok".
Proof.
  destruct (read_loops_stop [str "o"; []; str "K, error E4"; str "err"] 2
              ltac:(vm_compute; lia) ltac:(discriminate)) as [Hw _].
  destruct (read_loops_stop [str "j:1"; []; str "$ok"; str "late"] 2
              ltac:(vm_compute; lia) ltac:(discriminate)) as [_ Hr].
  split.
  - apply Hw; [|reflexivity].
    intros j Hj. destruct j as [|[|j]]; [split; reflexivity..|lia].
  - apply Hr; [|vm_compute; tauto].
    vm_compute. intuition discriminate.
Defined.

End ReadLoopFacts.

(** ** The model field of a status report *)

Section ModelFacts.
Import XYZProtocol.

Lemma catalogue_model (m : pstr) (info : PrinterInfo) :
  db_lookup m PRINTER_DB = Some info ->
  ascii m /\ tidy m /\ len m = 10.
Proof.
  unfold PRINTER_DB. cbn [db_lookup].
  repeat match goal with
         | |- (if eqb ?k m then _ else _) = _ -> _ =>
           let E := fresh "E" in
           destruct (eqb k m) eqn:E;
           [apply eqb_eq in E; subst m; intros _;
            split; [reflexivity|split; [|reflexivity]];
            (split; [discriminate|split; [reflexivity|]]);
            repeat (constructor; [reflexivity|]); constructor
           |clear E]
         end.
  discriminate.
Qed.

(** X26. The [n:] field of a status report, for a model number without
    whitespace or colon: the number is stored; the machine name is set
    when the database has the number and is left as it was otherwise, so
    after an unknown model the status keeps the name it had.  A model
    number of the database is ASCII, ten characters long and free of line
    boundaries, which is what the conversion stage of a job asks of it,
    and every model of the converter's ECB class is in the database,
    without heated bed. *)
Theorem status_model_field (st : XYZPrinterStatus) (m : pstr) :
  Forall (fun ch => is_space ch = false /\ ch <> 58) m ->
  parse_line st (str "n:" ++ m)
  = match db_lookup m PRINTER_DB with
    | Some info => set_machine_name (name info) (set_model_number m st)
    | None => set_model_number m st
    end
  /\ (db_lookup m PRINTER_DB = None ->
      machine_name (parse_line st (str "n:" ++ m)) = machine_name st)
  /\ (forall info, db_lookup m PRINTER_DB = Some info ->
        ascii m /\ tidy m /\ len m = 10)
  /\ (In m XYZFileConverter._ECB_MODELS ->
      exists info, db_lookup m PRINTER_DB = Some info /\ heated_bed info = false).
Proof.
  intros Hm.
  assert (Hline : parse_line st (str "n:" ++ m)
                  = match db_lookup m PRINTER_DB with
                    | Some info => set_machine_name (name info) (set_model_number m st)
                    | None => set_model_number m st
                    end).
  { change (str "n:" ++ m) with (110 :: 58 :: m).
    assert (Hc : Forall nonspace (110 :: 58 :: m)).
    { constructor; [reflexivity|]. constructor; [reflexivity|].
      eapply Forall_impl; [|exact Hm]. cbn. unfold nonspace. tauto. }
    assert (Hs : strip (110 :: 58 :: m) = 110 :: 58 :: m) by now apply strip_nonspace.
    assert (Hv : strip m = m).
    { apply strip_nonspace. now inversion Hc as [|? ? _ [|? ? _ H]]. }
    assert (Hseg : split_segments (110 :: 58 :: m) = [110 :: 58 :: m]).
    { apply split_segments_whole. intros a b E.
      destruct b as [|x [|y b]]; [reflexivity..|].
      cbn [field_ahead]. destruct (y =? 58) eqn:Ey; [|apply andb_false_r].
      apply Z.eqb_eq in Ey. subst y. exfalso.
      destruct a as [|a0 [|a1 a]]; [discriminate..|].
      injection E as _ _ E. rewrite E in Hm.
      apply Forall_app in Hm. destruct Hm as [_ Hm].
      inversion Hm as [|? ? _ Hm1]. inversion Hm1 as [|? ? _ Hm2].
      inversion Hm2 as [|? ? [_ Hcolon] _]. congruence. }
    unfold parse_line. rewrite Hs, Hseg. cbn [fold_left].
    unfold parse_segment. rewrite Hs.
    change (58 =? 58) with true. cbv beta iota. cbn [negb].
    change (110 =? 106) with false. change (110 =? 116) with false.
    change (110 =? 110) with true. cbv beta iota.
    rewrite Hv. cbn [model_number set_model_number]. reflexivity. }
  split; [exact Hline|]. split; [|split].
  - intros E. rewrite Hline, E. reflexivity.
  - intros info. apply catalogue_model.
  - unfold XYZFileConverter._ECB_MODELS. cbn [In].
    intros H. repeat destruct H as [<-|H]; try contradiction;
      (eexists; split; [reflexivity|reflexivity]).
Qed.

Lemma status_model_field_witness :
  machine_name (parse_line new_status (str "n:" ++ str "dv1MX0A000"))
  = str "da Vinci miniMaker"
  /\ model_number (parse_line new_status (str "n:" ++ str "dv1MX0A000"))
     = str "dv1MX0A000".
Proof.
  destruct (status_model_field new_status (str "dv1MX0A000")) as [H _].
  - repeat (constructor; [split; [reflexivity|discriminate]|]). constructor.
  - rewrite H. split; reflexivity.
Defined.

End ModelFacts.

(** ** The comments of the slicers *)

Section CommentFacts.
Import XYZFileConverter.
















End CommentFacts.
